(** * PiSite Manager: a shallow embedding of [manager.py]

    The development follows the source file top to bottom:

    - [Text]: what the code asks of Python's [bytes] and [str]:
      [bytes.decode("utf-8", "ignore")], [str.encode("utf-8")],
      [str.splitlines()], [bytes.count] and the slice [text[-n:]];
    - [Tail]: [tail_file], the backward block reader;
    - [Stream]: [sse_tail], one loop iteration as a step function on the
      generator's local variables;
    - [Sys]: the host as the code observes it (directories, the multiplexer,
      run records, processes, the configuration files) together with an
      error-and-state monad, and in it the two backends, the configuration
      store, the request handlers, the status report and the watchdog pass;
    - [Auth]: [check_auth] and [parse_basic_auth], with the standard
      library's base64 decoder as a parameter.

    Bytes and code points are integers ([Z]); a Python [str] that holds log
    text is a list of code points, names and messages are [string]s. *)

From Stdlib Require Import ZArith QArith Lia DecimalString DecimalZ.
From stdpp Require Import base tactics option list strings gmap.

#[local] Open Scope Z_scope.

(* ===================================================================== *)
(** ** Python text primitives *)
(* ===================================================================== *)

Module Text.

Definition LF : Z := 10.
Definition CR : Z := 13.
(** U+FFFD, the marker that [errors="replace"] would insert. *)
Definition REPLACEMENT : Z := 0xFFFD.

(** *** [bytes.decode("utf-8", "ignore")]

    The decoder walks the bytes once.  After a lead byte it expects a
    number of continuation bytes; the first of them is confined to a range
    that depends on the lead byte (this is what rejects overlong forms,
    surrogates and values above U+10FFFF).  A byte that cannot continue the
    pending sequence ends it: the pending bytes are dropped, and the byte is
    looked at again as a first byte.  Nothing is ever put in their place. *)

Inductive brange := R80_BF | RA0_BF | R80_9F | R90_BF | R80_8F.

Definition range_lo (r : brange) : Z :=
  match r with
  | R80_BF | R80_9F | R80_8F => 0x80
  | RA0_BF => 0xA0
  | R90_BF => 0x90
  end.

Definition range_hi (r : brange) : Z :=
  match r with
  | R80_BF | RA0_BF | R90_BF => 0xBF
  | R80_9F => 0x9F
  | R80_8F => 0x8F
  end.

Definition in_range (r : brange) (b : Z) : bool :=
  (range_lo r <=? b) && (b <=? range_hi r).

Inductive dstate :=
| Start
| Cont (need : nat) (acc : Z) (r : brange).

(** A byte met while no sequence is pending. *)
Definition lead (b : Z) : dstate * list Z :=
  if b <? 0x80 then (Start, [b])
  else if (0xC2 <=? b) && (b <=? 0xDF) then (Cont 0 (Z.land b 0x1F) R80_BF, [])
  else if b =? 0xE0 then (Cont 1 (Z.land b 0x0F) RA0_BF, [])
  else if b =? 0xED then (Cont 1 (Z.land b 0x0F) R80_9F, [])
  else if (0xE1 <=? b) && (b <=? 0xEF) then (Cont 1 (Z.land b 0x0F) R80_BF, [])
  else if b =? 0xF0 then (Cont 2 (Z.land b 0x07) R90_BF, [])
  else if b =? 0xF4 then (Cont 2 (Z.land b 0x07) R80_8F, [])
  else if (0xF1 <=? b) && (b <=? 0xF3) then (Cont 2 (Z.land b 0x07) R80_BF, [])
  else (Start, []).

(** [Cont need acc r]: one continuation byte in range [r] is due, and
    [need] more after it. *)
Definition step (s : dstate) (b : Z) : dstate * list Z :=
  match s with
  | Start => lead b
  | Cont need acc r =>
      if in_range r b then
        let acc' := Z.lor (Z.shiftl acc 6) (Z.land b 0x3F) in
        match need with
        | O => (Start, [acc'])
        | S need' => (Cont need' acc' R80_BF, [])
        end
      else lead b
  end.

(** A sequence still pending when the data ends is dropped as well. *)
Fixpoint decode_from (s : dstate) (bs : list Z) : list Z :=
  match bs with
  | [] => []
  | b :: bs' => snd (step s b) ++ decode_from (fst (step s b)) bs'
  end.

Definition decode_ignore (bs : list Z) : list Z := decode_from Start bs.

Fixpoint state_after (s : dstate) (bs : list Z) : dstate :=
  match bs with
  | [] => s
  | b :: bs' => state_after (fst (step s b)) bs'
  end.

(** The same walk with [errors="replace"]: every dropped maximal invalid
    part leaves one U+FFFD behind.  The source never calls it; it is what
    the wording "replaced" of the specification describes. *)
Definition lead_replace (b : Z) : dstate * list Z :=
  match lead b with
  | (Start, []) => (Start, [REPLACEMENT])
  | other => other
  end.

Definition step_replace (s : dstate) (b : Z) : dstate * list Z :=
  match s with
  | Start => lead_replace b
  | Cont need acc r =>
      if in_range r b then step s b
      else let '(s', out) := lead_replace b in (s', REPLACEMENT :: out)
  end.

Fixpoint decode_replace_from (s : dstate) (bs : list Z) : list Z :=
  match bs with
  | [] => match s with Start => [] | Cont _ _ _ => [REPLACEMENT] end
  | b :: bs' =>
      snd (step_replace s b) ++ decode_replace_from (fst (step_replace s b)) bs'
  end.

Definition decode_replace (bs : list Z) : list Z := decode_replace_from Start bs.

(** The walk once more, recording where an invalid part was met: [Some c]
    for a decoded code point, [None] at each place where [errors="replace"]
    puts its marker and [errors="ignore"] puts nothing. *)
Definition lead_tagged (b : Z) : dstate * list (option Z) :=
  match lead b with
  | (Start, []) => (Start, [None])
  | (s, out) => (s, map Some out)
  end.

Definition step_tagged (s : dstate) (b : Z) : dstate * list (option Z) :=
  match s with
  | Start => lead_tagged b
  | Cont need acc r =>
      if in_range r b then ((step s b).1, map Some (step s b).2)
      else ((lead_tagged b).1, None :: (lead_tagged b).2)
  end.

Fixpoint decode_tagged_from (s : dstate) (bs : list Z) : list (option Z) :=
  match bs with
  | [] => match s with Start => [] | Cont _ _ _ => [None] end
  | b :: bs' =>
      (step_tagged s b).2 ++ decode_tagged_from (step_tagged s b).1 bs'
  end.

Definition decode_tagged (bs : list Z) : list (option Z) :=
  decode_tagged_from Start bs.

(** Bytes that occur in no UTF-8 sequence at all. *)
Definition never_valid (b : Z) : Prop := b = 0xC0 \/ b = 0xC1 \/ 0xF5 <= b.

(** *** [str.encode("utf-8")] on one code point *)
Definition encode_cp (c : Z) : list Z :=
  if c <? 0x80 then [c]
  else if c <? 0x800 then
    [Z.lor 0xC0 (Z.shiftr c 6); Z.lor 0x80 (Z.land c 0x3F)]
  else if c <? 0x10000 then
    [Z.lor 0xE0 (Z.shiftr c 12);
     Z.lor 0x80 (Z.land (Z.shiftr c 6) 0x3F);
     Z.lor 0x80 (Z.land c 0x3F)]
  else
    [Z.lor 0xF0 (Z.shiftr c 18);
     Z.lor 0x80 (Z.land (Z.shiftr c 12) 0x3F);
     Z.lor 0x80 (Z.land (Z.shiftr c 6) 0x3F);
     Z.lor 0x80 (Z.land c 0x3F)].

Definition encode (s : list Z) : list Z := flat_map encode_cp s.

(** A literal of the source, as code points. *)
Definition lit (s : string) : list Z :=
  map (fun a => Z.of_N (Ascii.N_of_ascii a)) (String.list_ascii_of_string s).

(** *** [str.splitlines()] *)
Definition is_linebreak (c : Z) : bool :=
  (c =? 0x0A) || (c =? 0x0B) || (c =? 0x0C) || (c =? 0x0D) ||
  (c =? 0x1C) || (c =? 0x1D) || (c =? 0x1E) || (c =? 0x85) ||
  (c =? 0x2028) || (c =? 0x2029).

(** [cur] holds the characters of the line being scanned, last first.  A
    carriage return directly followed by a line feed is one boundary; a
    last line without a terminator is kept when it is not empty. *)
Fixpoint splitlines_aux (cur : list Z) (s : list Z) : list (list Z) :=
  match s with
  | [] => match cur with [] => [] | _ => [rev cur] end
  | c :: rest =>
      if is_linebreak c then
        rev cur ::
          match rest with
          | c' :: rest' =>
              if (c =? CR) && (c' =? LF) then splitlines_aux [] rest'
              else splitlines_aux [] rest
          | [] => []
          end
      else splitlines_aux (c :: cur) rest
  end.

Definition splitlines (s : list Z) : list (list Z) := splitlines_aux [] s.

(** [data.count(b"\n")], and the same count on a decoded text. *)
Definition nl_count (s : list Z) : nat := length (filter (fun b => b = LF) s).
Definition count_nl (bs : list Z) : Z := Z.of_nat (nl_count bs).

(** *** The slice [l[start:]] for a possibly negative [start] *)
Definition slice_from {A} (start : Z) (l : list A) : list A :=
  let len := Z.of_nat (length l) in
  let i := if start <? 0 then Z.max (start + len) 0 else Z.min start len in
  drop (Z.to_nat i) l.

(** The last [k] elements of a list, all of it when it is shorter. *)
Definition lastn {A} (k : nat) (l : list A) : list A :=
  drop (length l - k) l.

(** *** Well-formedness, for the properties of the codec *)

(** A byte. *)
Definition is_byte (b : Z) : Prop := 0 <= b < 256.

(** A Unicode scalar value: a code point that is not a surrogate.  These are
    the code points [str.encode("utf-8")] accepts. *)
Definition is_scalar (c : Z) : Prop :=
  0 <= c < 0xD800 \/ 0xE000 <= c < 0x110000.

(** What the decoder can hold while a sequence is pending: the bits gathered
    so far, by the number of bytes still due and the range the next one is
    confined to. *)
Definition state_ok (s : dstate) : Prop :=
  match s with
  | Start => True
  | Cont 0 acc r =>
      r = R80_BF /\ 2 <= acc < 0x4400 /\ ~ (0x360 <= acc <= 0x37F)
  | Cont 1 acc r =>
      (r = RA0_BF /\ acc = 0) \/ (r = R80_9F /\ acc = 13) \/
      (r = R80_BF /\ ((1 <= acc <= 15 /\ acc <> 13) \/ 0x10 <= acc <= 0x10F))
  | Cont 2 acc r =>
      (r = R90_BF /\ acc = 0) \/ (r = R80_8F /\ acc = 4) \/
      (r = R80_BF /\ 1 <= acc <= 3)
  | Cont _ _ _ => False
  end.

(** ["\n".join(lines)] *)
Fixpoint join_lines (ls : list (list Z)) : list Z :=
  match ls with
  | [] => []
  | l :: ls' =>
      match ls' with
      | [] => l
      | _ :: _ => l ++ LF :: join_lines ls'
      end
  end.

(** [text.split("\n")]: what a client does with the body of [api_logs] to
    get the lines again. *)
Fixpoint split_lf_aux (cur s : list Z) : list (list Z) :=
  match s with
  | [] => [cur]
  | c :: s' =>
      if c =? LF then cur :: split_lf_aux [] s'
      else split_lf_aux (cur ++ [c]) s'
  end.

Definition split_lf (s : list Z) : list (list Z) := split_lf_aux [] s.


End Text.


(* ===================================================================== *)
(** ** [tail_file]: the last [n] lines of a log *)
(* ===================================================================== *)

Module Tail.
Import Text.

(** What the reader finds at the log's path: nothing, a file that cannot be
    opened, or a file with some content. *)
Inductive fileview :=
| Missing
| Denied
| Bytes (content : list Z).

Definition block : Z := 4 * 1024.

(** [f.seek(pos); f.read(k)] *)
Definition read_at (content : list Z) (pos k : Z) : list Z :=
  take (Z.to_nat k) (drop (Z.to_nat pos) content).

(** The loop condition [size > 0 and data.count(b"\n") <= n + 1]. *)
Definition more (n size : Z) (data : list Z) : bool :=
  (0 <? size) && (count_nl data <=? n + 1).

(** The [while] loop.  Every round lowers [size] by at least one, so the loop
    makes at most [size] rounds; [fuel] bounds their number. *)
Fixpoint read_back (fuel : nat) (content : list Z) (n size : Z) (data : list Z)
  : list Z :=
  match fuel with
  | O => data
  | S fuel' =>
      if more n size data then
        let step := Z.min block size in
        let size' := size - step in
        read_back fuel' content n size' (read_at content size' step ++ data)
      else data
  end.

(** The loop as the interpreter runs it, without a bound: [loops content n
    size data out] when the loop entered with [size] and [data] leaves with
    [data = out]. *)
Inductive loops (content : list Z) (n : Z) : Z -> list Z -> list Z -> Prop :=
| loops_exit size data :
    more n size data = false ->
    loops content n size data data
| loops_round size data out :
    more n size data = true ->
    loops content n (size - Z.min block size)
      (read_at content (size - Z.min block size) (Z.min block size) ++ data) out ->
    loops content n size data out.

(** [tail_file(path, n)].  Both [return []] branches are kept apart from the
    one that reads: a missing path, and an exception inside the [try]. *)
Definition tail_file (f : fileview) (n : Z) : list (list Z) :=
  match f with
  | Missing => []
  | Denied => []
  | Bytes content =>
      let size := Z.of_nat (length content) in
      let data := read_back (length content) content n size [] in
      let text := splitlines (decode_ignore data) in
      slice_from (- n) text
  end.

(** The specification's reading of [tail]: the last [n] logical lines of the
    whole file, in file order. *)
Definition last_lines (content : list Z) (n : Z) : list (list Z) :=
  lastn (Z.to_nat n) (splitlines (decode_ignore content)).

(** The specification's decoding for the tailer: invalid bytes replaced by a
    marker, then the same slicing. *)
Definition last_lines_replace (content : list Z) (n : Z) : list (list Z) :=
  lastn (Z.to_nat n) (splitlines (decode_replace content)).

End Tail.

(* ===================================================================== *)
(** ** [sse_tail]: the live log stream *)
(* ===================================================================== *)

Module Stream.
Import Text.

(** What one loop iteration finds at the log's path.  [Unreadable] is a file
    whose size [stat] reports and whose [open] raises. *)
Inductive observed :=
| Absent
| Unreadable (size : Z)
| Readable (content : list Z).

(** The generator's local variables.  Clock readings are rationals. *)
Record sstate := SState {
  last_size : Z;
  pending : list (list Z);
  last_flush : Q;
  last_keepalive : Q
}.

Definition KEEPALIVE_EVERY : Q := 10 # 1.
Definition FLUSH_EVERY : Q := 1 # 4.

(** *** Clock arithmetic

    The clock readings ([loop.time()]) are Python floats, binary64 numbers:
    here, the rationals [round64] leaves as they are.  [now - last] is the
    float subtraction: the exact difference rounded to the nearest binary64,
    ties to the even mantissa. *)

(** The integer nearest to [p / q], ties to even ([0 < q]). *)
Definition round_half_even (p q : Z) : Z :=
  let f := p / q in
  let r := p mod q in
  if 2 * r <? q then f
  else if q <? 2 * r then f + 1
  else if Z.even f then f else f + 1.

(** [floor (log2 (n / d))] for positive [n] and [d]. *)
Definition floor_log2 (n d : Z) : Z :=
  let e := Z.log2 n - Z.log2 d in
  if 0 <=? e
  then (if d * 2 ^ e <=? n then e else e - 1)
  else (if d <=? n * 2 ^ (- e) then e else e - 1).

(** A positive [n / d] to 53 significant bits, subnormal below [2 ^ -1022]:
    the mantissa and the exponent of its last bit. *)
Definition round53 (n d : Z) : Z * Z :=
  let u := Z.max (floor_log2 n d - 52) (- 1074) in
  let m := if 0 <=? u then round_half_even n (d * 2 ^ u)
           else round_half_even (n * 2 ^ (- u)) d in
  (m, u).

(** The binary64 number nearest to [q].  The clock counts seconds: no
    difference of two readings is near [2 ^ 1024], where a float overflows. *)
Definition round64 (q : Q) : Q :=
  match Qnum q with
  | 0 => 0
  | num =>
      let '(m, u) := round53 (Z.abs num) (Zpos (Qden q)) in
      let s := Z.sgn num in
      if 0 <=? u then Qmake (s * m * 2 ^ u) 1
      else Qmake (s * m) (Z.to_pos (2 ^ (- u)))
  end.

(** [x - y] on floats. *)
Definition fsub (x y : Q) : Q := round64 (Qminus x y).

(** The three [yield] statements of the generator.  [wire] below gives the
    bytes each of them hands to the response. *)
Inductive event :=
| EvClear
| EvLines (lines : list (list Z))
| EvKeepAlive.

(** [parts]: one ["data: {line}\n"] per pending line, then ["\n"];
    [payload] is ["".join(parts).encode("utf-8")]. *)
Definition parts (lines : list (list Z)) : list (list Z) :=
  map (fun line => lit "data: " ++ line ++ [LF]) lines ++ [[LF]].

Definition payload (lines : list (list Z)) : list Z :=
  encode (concat (parts lines)).

Definition wire (e : event) : list Z :=
  match e with
  | EvClear => encode (lit "data: __CLEAR__") ++ [LF; LF]
  | EvLines lines => payload lines
  | EvKeepAlive => encode (lit ": keep-alive") ++ [LF; LF]
  end.

(** [if size < last_size: last_size = 0] *)
Definition rewind (st : sstate) (size : Z) : sstate :=
  if size <? last_size st
  then SState 0 (pending st) (last_flush st) (last_keepalive st)
  else st.

(** [f.seek(last_size); chunk = f.read(size - last_size)] *)
Definition read_chunk (content : list Z) (from size : Z) : list Z :=
  take (Z.to_nat (size - from)) (drop (Z.to_nat from) content).

(** The [if path.exists():] block.  The boolean tells whether an exception
    left the block; the assignments made before it stay. *)
Definition poll (st : sstate) (v : observed) : sstate * bool :=
  match v with
  | Absent => (st, false)
  | Unreadable size =>
      let st1 := rewind st size in
      if last_size st1 <? size then (st1, true) else (st1, false)
  | Readable content =>
      let size := Z.of_nat (length content) in
      let st1 := rewind st size in
      if last_size st1 <? size then
        let chunk := read_chunk content (last_size st1) size in
        (SState size
           (pending st1 ++ splitlines (decode_ignore chunk))
           (last_flush st1) (last_keepalive st1), false)
      else (st1, false)
  end.

(** [pending and (now - last_flush) >= 0.25] *)
Definition flush_due (st : sstate) (now : Q) : bool :=
  match pending st with
  | [] => false
  | _ :: _ => Qle_bool FLUSH_EVERY (fsub now (last_flush st))
  end.

Definition flush (st : sstate) (now : Q) : sstate * list event :=
  if flush_due st now
  then (SState (last_size st) [] now (last_keepalive st), [EvLines (pending st)])
  else (st, []).

Definition keepalive (st : sstate) (now : Q) : sstate * list event :=
  if Qle_bool KEEPALIVE_EVERY (fsub now (last_keepalive st))
  then (SState (last_size st) (pending st) (last_flush st) now, [EvKeepAlive])
  else (st, []).

(** One pass through the body of [while True], with the clock reading and
    the file it meets; the events it yields, in order. *)
Definition iteration (st : sstate) (now : Q) (v : observed)
  : sstate * list event :=
  let (st1, raised) := poll st v in
  if raised then (st1, [])
  else
    let (st2, ev1) := flush st1 now in
    let (st3, ev2) := keepalive st2 now in
    (st3, ev1 ++ ev2).

Fixpoint run (st : sstate) (trace : list (Q * observed)) : list event :=
  match trace with
  | [] => []
  | (now, v) :: trace' =>
      (iteration st now v).2 ++ run (iteration st now v).1 trace'
  end.

(** The generator up to its cancellation: the reset signal, then the loop
    over the iterations that took place.  [tf] and [tk] are the two clock
    readings taken before the loop. *)
Definition sse_events (tf tk : Q) (trace : list (Q * observed)) : list event :=
  EvClear :: run (SState 0 [] tf tk) trace.

Definition sse_tail (tf tk : Q) (trace : list (Q * observed)) : list (list Z) :=
  map wire (sse_events tf tk trace).

(** The log lines a consumer has received, in order of arrival. *)
Definition event_lines (evs : list event) : list (list Z) :=
  flat_map (fun e => match e with EvLines ls => ls | _ => [] end) evs.

(** One framed line on the wire. *)
Definition frame (line : list Z) : list Z :=
  encode (lit "data: ") ++ encode line ++ [LF].

(** An iteration whose [open] raises. *)
Definition raises (st : sstate) (v : observed) : bool := (poll st v).2.

(** An iteration that falls in a flush window and can read the file. *)
Definition can_flush (since : Q) (it : Q * observed) : Prop :=
  Qle_bool FLUSH_EVERY (fsub it.1 since) = true /\
  forall size, it.2 <> Unreadable size.

(** *** A run, observed more closely *)

(** The locals when the trace ends. *)
Fixpoint final_state (st : sstate) (trace : list (Q * observed)) : sstate :=
  match trace with
  | [] => st
  | (now, v) :: trace' => final_state (iteration st now v).1 trace'
  end.

(** The lines one poll takes from the file. *)
Definition read_lines (st : sstate) (v : observed) : list (list Z) :=
  match v with
  | Readable content =>
      let size := Z.of_nat (length content) in
      let st1 := rewind st size in
      if last_size st1 <? size
      then splitlines (decode_ignore (read_chunk content (last_size st1) size))
      else []
  | _ => []
  end.

(** All the lines the polls of a run take from the file, in order. *)
Fixpoint lines_read (st : sstate) (trace : list (Q * observed)) : list (list Z) :=
  match trace with
  | [] => []
  | (now, v) :: trace' =>
      read_lines st v ++ lines_read (iteration st now v).1 trace'
  end.

(** The events of a run, each with the clock reading of its iteration. *)
Fixpoint run_timed (st : sstate) (trace : list (Q * observed)) : list (Q * event) :=
  match trace with
  | [] => []
  | (now, v) :: trace' =>
      map (pair now) (iteration st now v).2 ++ run_timed (iteration st now v).1 trace'
  end.

Definition flush_times (tevs : list (Q * event)) : list Q :=
  omap (fun te => match te.2 with EvLines _ => Some te.1 | _ => None end) tevs.

Definition keepalive_times (tevs : list (Q * event)) : list Q :=
  omap (fun te => match te.2 with EvKeepAlive => Some te.1 | _ => None end) tevs.

(** Clock readings each at least [gap] after the one before, the first one
    after [t0]: the gap is measured as the loop measures it, by the float
    difference [fsub] of two readings. *)
Fixpoint spaced (gap t0 : Q) (ts : list Q) : Prop :=
  match ts with
  | [] => True
  | t :: ts' => Qle_bool gap (fsub t t0) = true /\ spaced gap t ts'
  end.

(** *** The framing as the specification states it *)


End Stream.

(* ===================================================================== *)
(** ** The host, and the supervisor's operations on it *)
(* ===================================================================== *)

Module Sys.

(** *** Strings the code parses and prints *)

(** A text is a Python [str] of code points below 256.  [str.strip()] takes
    off the white space: the ASCII one, U+0085 and U+00A0. *)
Definition is_space (a : Ascii.ascii) : bool :=
  let n := Ascii.nat_of_ascii a in
  (n =? 32)%nat || ((9 <=? n)%nat && (n <=? 13)%nat)
  || ((28 <=? n)%nat && (n <=? 31)%nat)
  || (n =? 133)%nat || (n =? 160)%nat.

Fixpoint lstrip (s : string) : string :=
  match s with
  | String a r => if is_space a then lstrip r else s
  | EmptyString => EmptyString
  end.

Definition strip (s : string) : string :=
  String.rev (lstrip (String.rev (lstrip s))).

Definition is_digit (a : Ascii.ascii) : bool :=
  let n := Ascii.nat_of_ascii a in (48 <=? n)%nat && (n <=? 57)%nat.

Definition starts_with_digit (s : string) : bool :=
  match s with
  | String a _ => is_digit a
  | EmptyString => false
  end.

(** The digits of a literal without its underscores.  An underscore stands
    between two digits, or the literal is refused; [after_digit] tells
    whether the character before was a digit. *)
Fixpoint ungroup (after_digit : bool) (s : string) : option string :=
  match s with
  | EmptyString => Some EmptyString
  | String a r =>
      if Ascii.eqb a (Ascii.ascii_of_nat 95) then
        if after_digit && starts_with_digit r then ungroup false r else None
      else
        match ungroup (is_digit a) r with
        | Some d => Some (String a d)
        | None => None
        end
  end.

(** [int(text)]: white space around, an optional sign, decimal digits with
    single underscores between them allowed; anything else is a
    [ValueError]. *)
Definition parse_int (text : string) : option Z :=
  let t := strip text in
  let '(neg, body) :=
    match t with
    | String a r =>
        if Ascii.eqb a (Ascii.ascii_of_nat 45) then (true, r)
        else if Ascii.eqb a (Ascii.ascii_of_nat 43) then (false, r)
        else (false, t)
    | _ => (false, t)
    end in
  match ungroup false body with
  | None => None
  | Some digits =>
      match NilEmpty.uint_of_string digits with
      | None | Some Decimal.Nil => None
      | Some d => Some (if neg then - Z.of_uint d else Z.of_uint d)
      end
  end.

(** [str(pid)] *)
Definition str_of_int (z : Z) : string := NilEmpty.string_of_int (Z.to_int z).

(** [s.lower()], on the ASCII letters. *)
Definition lower_ascii (a : Ascii.ascii) : Ascii.ascii :=
  let n := Ascii.nat_of_ascii a in
  if (65 <=? n)%nat && (n <=? 90)%nat then Ascii.ascii_of_nat (n + 32) else a.

Fixpoint lower (s : string) : string :=
  match s with
  | String a r => String (lower_ascii a) (lower r)
  | EmptyString => EmptyString
  end.

Definition is_true (flag : string) : bool := bool_decide (lower flag = "true").

(** [any(ch in name for ch in "/\\ \t\n\r")] *)
Definition forbidden_char (a : Ascii.ascii) : bool :=
  let n := Ascii.nat_of_ascii a in
  (n =? 47)%nat || (n =? 92)%nat || (n =? 32)%nat
  || (n =? 9)%nat || (n =? 10)%nat || (n =? 13)%nat.

Fixpoint has_forbidden (s : string) : bool :=
  match s with
  | String a r => forbidden_char a || has_forbidden r
  | EmptyString => false
  end.

(** The name test of [add_site]. *)
Definition name_ok (name : string) : bool :=
  negb (bool_decide (name = "")) && negb (has_forbidden name).

(** The valid names of the specification: not empty, no slash, backslash,
    space, tab or newline. *)
Definition spec_forbidden_char (a : Ascii.ascii) : bool :=
  let n := Ascii.nat_of_ascii a in
  (n =? 47)%nat || (n =? 92)%nat || (n =? 32)%nat || (n =? 9)%nat || (n =? 10)%nat.

Fixpoint spec_has_forbidden (s : string) : bool :=
  match s with
  | String a r => spec_forbidden_char a || spec_has_forbidden r
  | EmptyString => false
  end.

Definition valid_name (name : string) : Prop :=
  name <> "" /\ spec_has_forbidden name = false.

(** *** Data *)

(** A site is a JSON object; the code reads these keys, some with [site[k]]
    (a missing key raises), some with [site.get(k)]. *)
Record site := Site {
  s_name : option string;
  s_cwd : option string;
  s_cmd : option string;
  s_port : option Z;
  s_log : option string;
  s_autostart : bool;
  s_autorestart : bool
}.

Record auth := Auth {
  a_username : option string;
  a_password : option string;
  a_token : option string
}.

Record config := Config {
  cfg_sites : option (list site);
  cfg_auth : option auth
}.

Definition DEFAULT_CONFIG : config :=
  Config (Some []) (Some (Auth (Some "admin") (Some "password") None)).

(** The text of a configuration file: the complete dump of a configuration,
    or something [json.load] rejects (an empty or cut-off dump). *)
Inductive ftext :=
| Json (c : config)
| Garbled.

(** A process as the supervisor can observe it: its group, whether this
    user may signal it, and the command line and directory it was given. *)
Record proc := Proc {
  p_pgid : Z;
  p_owned : bool;
  p_cmdline : string;
  p_cwd : string
}.

Record world := World {
  tmux_installed : bool;
  stdbuf_path : option string;
  (** session name to the directory and command line it runs *)
  sessions : gmap string (string * string);
  dirs : gset string;
  (** paths taken by something that is not a directory *)
  plain_files : gset string;
  (** [PID_DIR / f"{name}.pid"], by site name *)
  pid_files : gmap string string;
  procs : gmap Z proc;
  next_pid : Z;
  config_file : option ftext;
  config_bak : option ftext;
  config_tmp : option ftext;
  env_user : option string;
  env_pass : option string;
  env_token : option string;
  (** the module-level [CONFIG] *)
  CONFIG : config;
  (** the supervisor itself: its pid and its process group *)
  own_pid : Z;
  own_pgid : Z;
  (** the processes a SIGTERM has been sent to; they stay in the table *)
  termed : gset Z
}.

Definition set_sessions (f : gmap string (string * string) -> gmap string (string * string))
  (w : world) : world :=
  World (tmux_installed w) (stdbuf_path w) (f (sessions w)) (dirs w)
    (plain_files w) (pid_files w) (procs w) (next_pid w) (config_file w)
    (config_bak w) (config_tmp w) (env_user w) (env_pass w) (env_token w) (CONFIG w)
    (own_pid w) (own_pgid w) (termed w).

Definition set_dirs (f : gset string -> gset string) (w : world) : world :=
  World (tmux_installed w) (stdbuf_path w) (sessions w) (f (dirs w))
    (plain_files w) (pid_files w) (procs w) (next_pid w) (config_file w)
    (config_bak w) (config_tmp w) (env_user w) (env_pass w) (env_token w) (CONFIG w)
    (own_pid w) (own_pgid w) (termed w).

Definition set_pid_files (f : gmap string string -> gmap string string)
  (w : world) : world :=
  World (tmux_installed w) (stdbuf_path w) (sessions w) (dirs w)
    (plain_files w) (f (pid_files w)) (procs w) (next_pid w) (config_file w)
    (config_bak w) (config_tmp w) (env_user w) (env_pass w) (env_token w) (CONFIG w)
    (own_pid w) (own_pgid w) (termed w).

Definition set_procs (f : gmap Z proc -> gmap Z proc) (w : world) : world :=
  World (tmux_installed w) (stdbuf_path w) (sessions w) (dirs w)
    (plain_files w) (pid_files w) (f (procs w)) (next_pid w) (config_file w)
    (config_bak w) (config_tmp w) (env_user w) (env_pass w) (env_token w) (CONFIG w)
    (own_pid w) (own_pgid w) (termed w).

Definition set_next_pid (p : Z) (w : world) : world :=
  World (tmux_installed w) (stdbuf_path w) (sessions w) (dirs w)
    (plain_files w) (pid_files w) (procs w) p (config_file w)
    (config_bak w) (config_tmp w) (env_user w) (env_pass w) (env_token w) (CONFIG w)
    (own_pid w) (own_pgid w) (termed w).

Definition set_config_files (live bak tmp : option ftext) (w : world) : world :=
  World (tmux_installed w) (stdbuf_path w) (sessions w) (dirs w)
    (plain_files w) (pid_files w) (procs w) (next_pid w) live bak tmp
    (env_user w) (env_pass w) (env_token w) (CONFIG w)
    (own_pid w) (own_pgid w) (termed w).

Definition set_termed (f : gset Z -> gset Z) (w : world) : world :=
  World (tmux_installed w) (stdbuf_path w) (sessions w) (dirs w)
    (plain_files w) (pid_files w) (procs w) (next_pid w) (config_file w)
    (config_bak w) (config_tmp w) (env_user w) (env_pass w) (env_token w) (CONFIG w)
    (own_pid w) (own_pgid w) (f (termed w)).

Definition set_CONFIG (c : config) (w : world) : world :=
  World (tmux_installed w) (stdbuf_path w) (sessions w) (dirs w)
    (plain_files w) (pid_files w) (procs w) (next_pid w) (config_file w)
    (config_bak w) (config_tmp w) (env_user w) (env_pass w) (env_token w) c
    (own_pid w) (own_pgid w) (termed w).

(** *** Exceptions and the monad of the code: state, and a result that is a
    value or a raised exception.  What was done before a [raise] stays. *)

Inductive exn :=
| HTTPException (status : Z) (detail : string)
| CalledProcessError
| FileNotFoundError
| FileExistsError
| PermissionError
| ProcessLookupError
| JSONDecodeError
| KeyError (key : string)
| ValueError
| AttributeError
| OverflowError (detail : string).

Inductive result (A : Type) :=
| Ok (a : A)
| Raise (e : exn).
Arguments Ok {A} a.
Arguments Raise {A} e.

Definition M (A : Type) : Type := world -> result A * world.

Definition ret {A} (a : A) : M A := fun w => (Ok a, w).

Definition raise {A} (e : exn) : M A := fun w => (Raise e, w).

Definition bind {A B} (m : M A) (k : A -> M B) : M B :=
  fun w =>
    match m w with
    | (Ok a, w') => k a w'
    | (Raise e, w') => (Raise e, w')
    end.

(** [try: m  except Exception as e: h e] *)
Definition try_except {A} (m : M A) (h : exn -> M A) : M A :=
  fun w =>
    match m w with
    | (Ok a, w') => (Ok a, w')
    | (Raise e, w') => h e w'
    end.

Definition gets {A} (f : world -> A) : M A := fun w => (Ok (f w), w).

Definition modify (f : world -> world) : M unit := fun w => (Ok tt, f w).

Notation "'let*' x ':=' m 'in' k" := (bind m (fun x => k))
  (at level 10, x name, m at level 100, k at level 200).

(** [for x in l: body x] *)
Fixpoint for_each {A} (l : list A) (body : A -> M unit) : M unit :=
  match l with
  | [] => ret tt
  | x :: l' => let* _ := body x in for_each l' body
  end.

(** [site[key]] *)
Definition getitem (key : string) (v : option string) : M string :=
  match v with
  | Some x => ret x
  | None => raise (KeyError key)
  end.

(** [str(e)] for the exceptions a signal call can raise. *)
Definition exn_str (e : exn) : string :=
  match e with
  | HTTPException _ detail => detail
  | PermissionError => "[Errno 1] Operation not permitted"
  | ProcessLookupError => "[Errno 3] No such process"
  | FileNotFoundError => "[Errno 2] No such file or directory"
  | FileExistsError => "[Errno 17] File exists"
  | KeyError key => "'" +:+ key +:+ "'"
  | OverflowError detail => detail
  | _ => ""
  end.

(** *** What the operating system does for the code *)

(** [Path(p).exists()] *)
Definition path_exists (p : string) : M bool :=
  gets (fun w => bool_decide (p ∈ dirs w) || bool_decide (p ∈ plain_files w)).

(** [Path(p).mkdir(parents=True, exist_ok=True)] *)
Definition mkdir_p (p : string) : M unit :=
  fun w =>
    if bool_decide (p ∈ dirs w) then (Ok tt, w)
    else if bool_decide (p ∈ plain_files w) then (Raise FileExistsError, w)
    else (Ok tt, set_dirs (fun d => {[p]} ∪ d) w).

(** [subprocess.run(["tmux", "-V"], check=True)] *)
Definition run_tmux_version : M unit :=
  fun w => if tmux_installed w then (Ok tt, w) else (Raise FileNotFoundError, w).

(** [subprocess.run(["tmux", "has-session", "-t", name], check=True)];
    sessions are looked up by their exact name. *)
Definition run_tmux_has_session (name : string) : M unit :=
  fun w =>
    if tmux_installed w then
      match sessions w !! name with
      | Some _ => (Ok tt, w)
      | None => (Raise CalledProcessError, w)
      end
    else (Raise FileNotFoundError, w).

(** [subprocess.run(["tmux", "new-session", "-d", "-s", name, "-c", cwd,
    full], check=True)]; the multiplexer refuses a second session of the same
    name. *)
Definition run_tmux_new_session (name cwd full : string) : M unit :=
  fun w =>
    if tmux_installed w then
      match sessions w !! name with
      | Some _ => (Raise CalledProcessError, w)
      | None => (Ok tt, set_sessions (insert name (cwd, full)) w)
      end
    else (Raise FileNotFoundError, w).

(** [subprocess.run(["tmux", "kill-session", "-t", name], check=True)] *)
Definition run_tmux_kill_session (name : string) : M unit :=
  fun w =>
    if tmux_installed w then
      match sessions w !! name with
      | Some _ => (Ok tt, set_sessions (delete name) w)
      | None => (Raise CalledProcessError, w)
      end
    else (Raise FileNotFoundError, w).

(** [subprocess.Popen(full, cwd=cwd, shell=True, ..., preexec_fn=os.setsid)]:
    the child leads a new process group; the call returns its pid at once. *)
Definition popen (full cwd : string) : M Z :=
  fun w =>
    if bool_decide (cwd ∈ dirs w) then
      let pid := next_pid w in
      (Ok pid,
       set_next_pid (pid + 1)
         (set_procs (insert pid (Proc pid true full cwd)) w))
    else (Raise FileNotFoundError, w).

(** [os.kill(pid, 0)], for the pid of a process: the run records the code
    writes hold the pid of a child it spawned, a positive C [int].  Any other
    number is looked up in the table like a pid (on a real host 0 and the
    negative numbers address groups, and [os.kill(0, 0)] succeeds). *)
Definition os_kill0 (pid : Z) : M unit :=
  fun w =>
    match procs w !! pid with
    | None => (Raise ProcessLookupError, w)
    | Some p => if p_owned p then (Ok tt, w) else (Raise PermissionError, w)
    end.

(** [os.getpgid(pid)].  The argument is converted to a C [int] first, and
    what does not fit raises [OverflowError] (the texts are CPython's, for a
    64-bit [long]); 0 stands for the caller; no process has a negative
    pid. *)
Definition INT_MIN : Z := - 2 ^ 31.
Definition INT_MAX : Z := 2 ^ 31 - 1.
Definition LONG_MIN : Z := - 2 ^ 63.
Definition LONG_MAX : Z := 2 ^ 63 - 1.

Definition as_c_int (z : Z) : M Z :=
  if (z <? LONG_MIN) || (LONG_MAX <? z)
  then raise (OverflowError "Python int too large to convert to C long")
  else if INT_MAX <? z
  then raise (OverflowError "signed integer is greater than maximum")
  else if z <? INT_MIN
  then raise (OverflowError "signed integer is less than minimum")
  else ret z.

Definition os_getpgid (pid : Z) : M Z :=
  let* pid := as_c_int pid in
  fun w =>
    if pid =? 0 then (Ok (own_pgid w), w)
    else if pid <? 0 then (Raise ProcessLookupError, w)
    else
      match procs w !! pid with
      | None => (Raise ProcessLookupError, w)
      | Some p => (Ok (p_pgid p), w)
      end.

Definition in_group (pgid : Z) (p : proc) : bool := p_pgid p =? pgid.

(** [os.killpg(pgid, signal.SIGTERM)]: no such group, or no member this user
    may signal, or the signal is sent to the members it may be sent to.  The
    call returns once the signal is sent: the processes are still in the
    table, terminated or not.  The supervisor is a member of its own group,
    and may signal itself. *)
Definition group_members (pgid : Z) (ps : gmap Z proc) : gmap Z proc :=
  filter (fun kv => in_group pgid kv.2 = true) ps.

Definition reachable (pgid : Z) (ps : gmap Z proc) : gmap Z proc :=
  filter (fun kv => p_owned kv.2 = true) (group_members pgid ps).

(** The processes a signal to the group [pgid] is sent to. *)
Definition signalled (pgid : Z) (w : world) : gset Z :=
  dom (reachable pgid (procs w))
  ∪ (if bool_decide (pgid = own_pgid w) then {[own_pid w]} else ∅).

Definition os_killpg_term (pgid : Z) : M unit :=
  fun w =>
    let own := bool_decide (pgid = own_pgid w) in
    if negb own && bool_decide (group_members pgid (procs w) = ∅)
    then (Raise ProcessLookupError, w)
    else if negb own && bool_decide (reachable pgid (procs w) = ∅)
    then (Raise PermissionError, w)
    else (Ok tt, set_termed (fun t => t ∪ signalled pgid w) w).

(** *** The multiplexer-session backend *)

Definition tmux_available : M bool :=
  try_except (let* _ := run_tmux_version in ret true) (fun _ => ret false).

Definition tmux_has_session (name : string) : M bool :=
  try_except (let* _ := run_tmux_has_session name in ret true)
    (fun e =>
       match e with
       | CalledProcessError | FileNotFoundError => ret false
       | _ => raise e
       end).

(** [which("stdbuf")], the only command the code asks about. *)
Definition which_stdbuf : M (option string) :=
  gets (fun w =>
          match stdbuf_path w with
          | Some "" => None
          | other => other
          end).

Definition wrap_unbuffered (cmd : string) : M string :=
  let* stdbuf := which_stdbuf in
  let prefix := "export PYTHONUNBUFFERED=1; " in
  match stdbuf with
  | Some path => ret (prefix +:+ path +:+ " -oL -eL " +:+ cmd)
  | None => ret (prefix +:+ cmd)
  end.

(** [f"bash -lc '{wrap_unbuffered(cmd)} 2>&1 | tee -a {str(logfile)}'"] *)
Definition shell_line (cmd logfile : string) : M string :=
  let* wrapped := wrap_unbuffered cmd in
  ret ("bash -lc '" +:+ wrapped +:+ " 2>&1 | tee -a " +:+ logfile +:+ "'").

Definition tmux_start (name cwd cmd logfile : string) : M string :=
  let* there := path_exists cwd in
  if negb there then raise (HTTPException 400 ("CWD does not exist: " +:+ cwd))
  else
    let* full := shell_line cmd logfile in
    let* _ := run_tmux_new_session name cwd full in
    ret ("Started " +:+ name +:+ " in tmux").

Definition tmux_stop (name : string) : M string :=
  let* has := tmux_has_session name in
  if has then
    let* _ := run_tmux_kill_session name in
    ret ("Stopped " +:+ name)
  else ret ("Session " +:+ name +:+ " not running").

(** *** The detached-process backend *)

(** [int(pf.read_text().strip())] *)
Definition read_pid (text : string) : M Z :=
  match parse_int text with
  | Some pid => ret pid
  | None => raise ValueError
  end.

(** [pf.unlink(missing_ok=True)] *)
Definition unlink_pid_file (name : string) : M unit :=
  modify (set_pid_files (delete name)).

Definition background_running (name : string) : M bool :=
  let* pf := gets (fun w => pid_files w !! name) in
  match pf with
  | None => ret false
  | Some text =>
      let* parsed := try_except (let* pid := read_pid text in ret (Some pid))
                       (fun _ => ret None) in
      match parsed with
      | None => ret false
      | Some pid =>
          try_except (let* _ := os_kill0 pid in ret true) (fun _ => ret false)
      end
  end.

Definition background_start (name cwd cmd logfile : string) : M string :=
  let* _ := mkdir_p cwd in
  let* running := background_running name in
  if running then
    let* pf := gets (fun w => pid_files w !! name) in
    match pf with
    | Some text => ret (name +:+ " already running (pid " +:+ strip text +:+ ")")
    | None => raise FileNotFoundError
    end
  else
    let* full := shell_line cmd logfile in
    let* pid := popen full cwd in
    let* _ := modify (set_pid_files (insert name (str_of_int pid))) in
    ret ("Started " +:+ name +:+ " (pid " +:+ str_of_int pid +:+ ")").

Definition background_stop (name : string) : M string :=
  let* pf := gets (fun w => pid_files w !! name) in
  match pf with
  | None => ret ("No pid for " +:+ name)
  | Some text =>
      let* parsed := try_except (let* pid := read_pid text in ret (Some pid))
                       (fun _ => ret None) in
      match parsed with
      | None =>
          let* _ := unlink_pid_file name in
          ret ("Invalid pid file removed for " +:+ name)
      | Some pid =>
          try_except
            (let* pgid := os_getpgid pid in
             let* _ := os_killpg_term pgid in
             let* _ := unlink_pid_file name in
             ret ("Stopped " +:+ name +:+ " (pid " +:+ str_of_int pid +:+ ")"))
            (fun e =>
               match e with
               | ProcessLookupError =>
                   let* _ := unlink_pid_file name in
                   ret ("Process not found. Cleared pid for " +:+ name)
               | _ => ret ("Failed to stop " +:+ name +:+ ": " +:+ exn_str e)
               end)
      end
  end.

(** A [pathlib] path as its text, [str(path)].  The text is normalised:
    repeated slashes, components [.] and a slash at the end are dropped; a
    path begins with its root, ["/"], or ["//"] when the text begins with
    exactly two slashes; the path without root and components is ["."]. *)
Definition is_slash (a : Ascii.ascii) : bool := Ascii.eqb a (Ascii.ascii_of_nat 47).

Definition path_root (s : string) : string :=
  match s with
  | String a r =>
      if is_slash a then
        match r with
        | String b r' =>
            if is_slash b then
              match r' with
              | String c _ => if is_slash c then "/" else "//"
              | EmptyString => "//"
              end
            else "/"
        | EmptyString => "/"
        end
      else ""
  | EmptyString => ""
  end.

Definition component (cur : string) : list string :=
  if bool_decide (cur = "") || bool_decide (cur = ".") then [] else [cur].

(** [cur] is the component being read. *)
Fixpoint components_from (cur s : string) : list string :=
  match s with
  | EmptyString => component cur
  | String a r =>
      if is_slash a then component cur ++ components_from "" r
      else components_from (cur +:+ String a "") r
  end.

Definition components (s : string) : list string := components_from "" s.

Fixpoint join_components (parts : list string) : string :=
  match parts with
  | [] => ""
  | c :: rest =>
      match rest with
      | [] => c
      | _ :: _ => c +:+ "/" +:+ join_components rest
      end
  end.

Definition path_text (root : string) (parts : list string) : string :=
  match parts with
  | [] => if bool_decide (root = "") then "." else root
  | _ :: _ => root +:+ join_components parts
  end.

(** [str(Path(dir) / file)]: a [file] with a root stands alone. *)
Definition path_join (dir file : string) : string :=
  if bool_decide (path_root file = "")
  then path_text (path_root dir) (components dir ++ components file)
  else path_text (path_root file) (components file).

(** [Path(site.get("cwd", ".")) / site.get("log", "activity.log")], as text. *)
Definition site_logfile (s : site) : string :=
  path_join (default "." (s_cwd s)) (default "activity.log" (s_log s)).

(** *** The configuration store *)

(** A Python string used as a condition. *)
Definition truthy (v : option string) : bool :=
  match v with
  | Some s => negb (bool_decide (s = ""))
  | None => false
  end.

Definition override (env stored : option string) : option string :=
  if truthy env then env else stored.

Definition _apply_env_overrides (cfg : config) : M config :=
  let* user := gets env_user in
  let* pass := gets env_pass in
  let* token := gets env_token in
  let a := default (Auth None None None) (cfg_auth cfg) in
  ret (Config (cfg_sites cfg)
         (Some (Auth (override user (a_username a))
                     (override pass (a_password a))
                     (override token (a_token a))))).

Definition load_config : M config :=
  let* present := gets config_file in
  let* _ :=
    match present with
    | None =>
        modify (fun w =>
                  set_config_files (Some (Json DEFAULT_CONFIG))
                    (config_bak w) (config_tmp w) w)
    | Some _ => ret tt
    end in
  let* text := gets config_file in
  match text with
  | Some (Json cfg) => _apply_env_overrides cfg
  | Some Garbled => raise JSONDecodeError
  | None => raise FileNotFoundError
  end.

(** The file operations of [atomic_write_config], one by one. *)
Inductive wstep :=
| OpenTmp                     (* tmp.open("w"): created or emptied *)
| DumpTmp (data : config)     (* json.dump(data, f); f.flush() *)
| FsyncTmp                    (* os.fsync(f.fileno()), and the file closed *)
| RotateBackup                (* CONFIG_PATH.replace(".json.bak"), if it exists *)
| RenameIntoPlace.            (* tmp.replace(CONFIG_PATH) *)

Definition do_wstep (s : wstep) : M unit :=
  match s with
  | OpenTmp =>
      modify (fun w => set_config_files (config_file w) (config_bak w) (Some Garbled) w)
  | DumpTmp data =>
      modify (fun w =>
                set_config_files (config_file w) (config_bak w) (Some (Json data)) w)
  | FsyncTmp => ret tt
  | RotateBackup =>
      modify (fun w =>
                match config_file w with
                | Some live => set_config_files None (Some live) (config_tmp w) w
                | None => w
                end)
  | RenameIntoPlace =>
      fun w =>
        match config_tmp w with
        | Some t => (Ok tt, set_config_files (Some t) (config_bak w) None w)
        | None => (Raise FileNotFoundError, w)
        end
  end.

Definition write_sequence (cfg : config) : list wstep :=
  [OpenTmp; DumpTmp cfg; FsyncTmp; RotateBackup; RenameIntoPlace].

Definition atomic_write_config (cfg : config) : M unit :=
  for_each (write_sequence cfg) do_wstep.

(** The same call when the process is killed after [k] of its file
    operations. *)
Definition interrupted_write (k : nat) (cfg : config) : M unit :=
  for_each (take k (write_sequence cfg)) do_wstep.

Definition assign_config : M unit :=
  let* cfg := load_config in
  modify (set_CONFIG cfg).

(** [CONFIG.get("sites", [])] *)
Definition sites_of (cfg : config) : list site := default [] (cfg_sites cfg).

Definition has_name (name : string) (s : site) : bool :=
  bool_decide (s_name s = Some name).

Definition get_site (name : string) : M (option site) :=
  gets (fun w => head (filter (fun s => has_name name s = true) (sites_of (CONFIG w)))).

(** The site list a fresh [load_config] finds: that of the file, the empty
    list of the default configuration when there is no file, none when the
    file cannot be parsed. *)
Definition stored_sites (w : world) : option (list site) :=
  match config_file w with
  | None => Some []
  | Some (Json cfg) => Some (sites_of cfg)
  | Some Garbled => None
  end.

(** *** The request handlers (after [check_auth] has let the request in) *)

Definition add_site (name cwd cmd : string) (port : option string)
  (log autostart autorestart start_after_add : string) : M string :=
  if negb (name_ok name)
  then raise (HTTPException 400 "Invalid name (no spaces or slashes).")
  else
    let* clash := get_site name in
    if bool_decide (is_Some clash)
    then raise (HTTPException 409 "A site with that name already exists.")
    else
      let* there := path_exists cwd in
      if bool_decide (cwd = "") || negb there
      then raise (HTTPException 400 ("CWD does not exist: " +:+ cwd))
      else if bool_decide (cmd = "")
      then raise (HTTPException 400 "Command cannot be empty.")
      else
        let* p_int :=
          (if truthy port
           then let* p := read_pid (default "" port) in ret (Some p)
           else ret None) in
        let* cfg := load_config in
        let new :=
          Site (Some name) (Some cwd) (Some cmd) p_int
            (Some (if bool_decide (log = "") then "activity.log" else log))
            (is_true autostart) (is_true autorestart) in
        let cfg' := Config (Some (sites_of cfg ++ [new])) (cfg_auth cfg) in
        let* _ := atomic_write_config cfg' in
        let* _ := assign_config in
        let* _ :=
          (if is_true start_after_add then
             let* found := get_site name in
             match found with
             | None => raise AttributeError
             | Some s =>
                 let logfile := site_logfile s in
                 let* tmux := tmux_available in
                 if tmux then
                   let* has := tmux_has_session name in
                   if has then ret tt
                   else let* _ := tmux_start name cwd cmd logfile in ret tt
                 else let* _ := background_start name cwd cmd logfile in ret tt
             end
           else ret tt) in
        ret ("Added site " +:+ name +:+
             (if is_true start_after_add then " and started" else "")).

(** [if tmux_available() and tmux_has_session(name): tmux_stop(name)
     else: background_stop(name)] *)
Definition stop_either (name : string) : M string :=
  let* tmux := tmux_available in
  let* in_tmux := (if tmux then tmux_has_session name else ret false) in
  if in_tmux then tmux_stop name else background_stop name.

Definition delete_site (name : string) : M string :=
  let* found := get_site name in
  match found with
  | None => raise (HTTPException 404 "Site not found")
  | Some _ =>
      let* _ := stop_either name in
      let* cfg := load_config in
      let kept := filter (fun s => s_name s <> Some name) (sites_of cfg) in
      let* _ := atomic_write_config (Config (Some kept) (cfg_auth cfg)) in
      let* _ := assign_config in
      let* _ := try_except (unlink_pid_file name) (fun _ => ret tt) in
      ret ("Deleted site " +:+ name)
  end.

(** The handler of [/action].  Its restart branch holds the one suspension
    point of the handlers, [await asyncio.sleep(0.3)], between the stop and
    the start: the other tasks of the event loop, the watchdog and the other
    requests, run there.  [meanwhile] is what they have done to the host when
    the handler goes on. *)
Definition action_during (meanwhile : world -> world) (name op : string)
  : M string :=
  let* found := get_site name in
  match found with
  | None => raise (HTTPException 404 "Site not found")
  | Some s =>
      let logfile := site_logfile s in
      if bool_decide (op = "start") then
        let* tmux := tmux_available in
        if tmux then
          let* has := tmux_has_session name in
          if has then ret (name +:+ " already running in tmux")
          else
            let* cwd := getitem "cwd" (s_cwd s) in
            let* cmd := getitem "cmd" (s_cmd s) in
            tmux_start name cwd cmd logfile
        else
          let* cwd := getitem "cwd" (s_cwd s) in
          let* cmd := getitem "cmd" (s_cmd s) in
          background_start name cwd cmd logfile
      else if bool_decide (op = "stop") then stop_either name
      else if bool_decide (op = "restart") then
        let* _ := stop_either name in
        let* _ := modify meanwhile in
        let* tmux := tmux_available in
        let* cwd := getitem "cwd" (s_cwd s) in
        let* cmd := getitem "cmd" (s_cmd s) in
        if tmux then tmux_start name cwd cmd logfile
        else background_start name cwd cmd logfile
      else raise (HTTPException 400 "Unknown op")
  end.

(** The handler when no other task runs during that pause.  Start and stop
    do not pause: for them the two are the same. *)
Definition action (name op : string) : M string :=
  action_during (fun w => w) name op.

(** *** The watchdog *)

(** [(tmux_available() and tmux_has_session(name)) or background_running(name)] *)
Definition is_running (name : string) : M bool :=
  let* tmux := tmux_available in
  let* in_tmux := (if tmux then tmux_has_session name else ret false) in
  if in_tmux then ret true else background_running name.

(** The body of the [for] loop. *)
Definition watchdog_visit (s : site) : M unit :=
  let* name := getitem "name" (s_name s) in
  let logfile := site_logfile s in
  let* running := is_running name in
  if (s_autostart s || s_autorestart s) && negb running then
    let* tmux := tmux_available in
    if tmux then
      try_except
        (let* cwd := getitem "cwd" (s_cwd s) in
         let* cmd := getitem "cmd" (s_cmd s) in
         let* _ := tmux_start name cwd cmd logfile in ret tt)
        (fun _ =>
           let* cwd := getitem "cwd" (s_cwd s) in
           let* cmd := getitem "cmd" (s_cmd s) in
           let* _ := background_start name cwd cmd logfile in ret tt)
    else
      let* cwd := getitem "cwd" (s_cwd s) in
      let* cmd := getitem "cmd" (s_cmd s) in
      let* _ := background_start name cwd cmd logfile in ret tt
  else ret tt.

(** One pass: the [try] that holds the whole [for] loop, and its
    [except Exception: pass]. *)
Definition watchdog_pass : M unit :=
  try_except
    (let* sites := gets (fun w => sites_of (CONFIG w)) in
     for_each sites watchdog_visit)
    (fun _ => ret tt).

(** The pass the specification describes: every site in its own [try]. *)
Definition isolated_pass : M unit :=
  let* sites := gets (fun w => sites_of (CONFIG w)) in
  for_each sites (fun s => try_except (watchdog_visit s) (fun _ => ret tt)).

(** Running by either backend, as [site_status] and the watchdog see it. *)
Definition running_somewhere (name : string) (w : world) : bool :=
  match (is_running name w).1 with
  | Ok b => b
  | Raise _ => false
  end.

(** *** The claims of the specification that the code does not meet, as
    the specification states them *)

(** A stop deletes the run record whenever that record parses. *)
Definition stop_always_clears (name : string) (w : world) : Prop :=
  forall text pid,
    pid_files w !! name = Some text -> parse_int text = Some pid ->
    pid_files (background_stop name w).2 !! name = None.

(** The state a start may not touch when the site runs already. *)
Definition same_processes (w w' : world) : Prop :=
  sessions w' = sessions w /\ procs w' = procs w /\ pid_files w' = pid_files w.

(** A start of a site that runs in either backend reports it and spawns
    nothing. *)
Definition start_idempotent_anywhere (name : string) (w : world) : Prop :=
  running_somewhere name w = true ->
  exists rest,
    (action name "start" w).1 = Ok (name +:+ " already running" +:+ rest) /\
    same_processes w (action name "start" w).2.

(** The backend the selector picks for a call, and running in it. *)
Definition running_in_selected (name : string) (w : world) : bool :=
  if tmux_installed w
  then bool_decide (is_Some (sessions w !! name))
  else match (background_running name w).1 with Ok b => b | Raise _ => false end.

(** A computation that leaves the configuration alone: the live file and
    the module-level [CONFIG]. *)
Definition keeps_store {A} (m : M A) : Prop :=
  forall w, config_file (m w).2 = config_file w /\ CONFIG (m w).2 = CONFIG w.

(** A pass treats every site as if the others were not there. *)
Definition pass_isolates_failures (w : world) : Prop :=
  (watchdog_pass w).2 = (isolated_pass w).2.

(** *** The status report and the reload *)

(** The dictionary [site_status] returns. *)
Record status_row := StatusRow {
  r_name : string;
  r_status : string;
  r_mode : option string;
  r_port : option Z;
  r_cwd : option string;
  r_cmd : option string;
  r_log : string
}.

Definition site_status (s : site) : M status_row :=
  let* name := getitem "name" (s_name s) in
  let* tmux := tmux_available in
  let* running_tmux := (if tmux then tmux_has_session name else ret false) in
  let* running_bg := background_running name in
  let '(status, mode) :=
    if running_tmux then ("running", Some "tmux")
    else if running_bg then ("running", Some "background")
    else ("stopped", None) in
  ret (StatusRow name status mode (s_port s) (s_cwd s) (s_cmd s) (site_logfile s)).

(** [[body(x) for x in xs]] *)
Fixpoint map_m {A B} (body : A -> M B) (xs : list A) : M (list B) :=
  match xs with
  | [] => ret []
  | x :: rest =>
      let* row := body x in
      let* rows := map_m body rest in
      ret (row :: rows)
  end.

(** [[site_status(s) for s in CONFIG.get("sites", [])]] *)
Definition api_status : M (list status_row) :=
  let* sites := gets (fun w => sites_of (CONFIG w)) in
  map_m site_status sites.

Definition api_reload : M string :=
  let* _ := assign_config in
  ret "Config reloaded".

(** [api_logs]; [logs] tells what is found at each path. *)
Definition api_logs (logs : string -> Tail.fileview) (name : string) (lines : Z)
  : M (list Z) :=
  let* found := get_site name in
  match found with
  | None => raise (HTTPException 404 "Site not found")
  | Some s => ret (Text.join_lines (Tail.tail_file (logs (site_logfile s)) lines))
  end.

(** *** Notions the statements about the handlers use *)

(** The [if start_after_add.lower()=="true":] block of [add_site]. *)
Definition start_added (name cwd cmd : string) : M unit :=
  let* found := get_site name in
  match found with
  | None => raise AttributeError
  | Some s =>
      let logfile := site_logfile s in
      let* tmux := tmux_available in
      if tmux then
        let* has := tmux_has_session name in
        if has then ret tt
        else let* _ := tmux_start name cwd cmd logfile in ret tt
      else let* _ := background_start name cwd cmd logfile in ret tt
  end.

(** The dictionary [add_site] appends to the site list. *)
Definition new_site (name cwd cmd : string) (port : option string)
  (log autostart autorestart : string) : site :=
  Site (Some name) (Some cwd) (Some cmd)
    (if truthy port then parse_int (default "" port) else None)
    (Some (if bool_decide (log = "") then "activity.log" else log))
    (is_true autostart) (is_true autorestart).

(** What [load_config] parses: the file's configuration, the default one
    when there is no file. *)
Definition file_config (w : world) : config :=
  match config_file w with
  | Some (Json c) => c
  | _ => DEFAULT_CONFIG
  end.

(** The credentials [_apply_env_overrides] leaves in a configuration. *)
Definition effective_auth (w : world) (stored : option auth) : auth :=
  let a := default (Auth None None None) stored in
  Auth (override (env_user w) (a_username a))
       (override (env_pass w) (a_password a))
       (override (env_token w) (a_token a)).

(** Two worlds that differ in the configuration store at most. *)
Definition same_host (w w' : world) : Prop :=
  tmux_installed w' = tmux_installed w /\ stdbuf_path w' = stdbuf_path w /\
  sessions w' = sessions w /\ dirs w' = dirs w /\
  plain_files w' = plain_files w /\ pid_files w' = pid_files w /\
  procs w' = procs w /\ next_pid w' = next_pid w /\
  env_user w' = env_user w /\ env_pass w' = env_pass w /\
  env_token w' = env_token w /\
  own_pid w' = own_pid w /\ own_pgid w' = own_pgid w /\ termed w' = termed w.


End Sys.

(* ===================================================================== *)
(** ** Hosts used as examples *)
(* ===================================================================== *)

Module Scenario.
Import Sys.

Definition web : site :=
  Site (Some "web") (Some "/srv/web") (Some "python3 app.py") None None true false.

Definition api : site :=
  Site (Some "api") (Some "/srv/api") (Some "node api.js") None None true false.

Definition two_sites : config := Config (Some [web; api]) None.

(** No multiplexer; the path of [web]'s working directory is taken by a
    plain file, so that its detached start raises. *)
Definition host_blocked : world :=
  World false None ∅ {["/srv/api"]} {["/srv/web"]} ∅ ∅ 100
    (Some (Json two_sites)) None None None None None two_sites 1 1 ∅.

(** The multiplexer is installed, and [web] runs detached as process 7 (as
    after a watchdog fallback). *)
Definition host_split : world :=
  World true None ∅ {["/srv/api"; "/srv/web"]} ∅
    {["web" := "7"]} {[7 := Proc 7 true "python3 app.py" "/srv/web"]} 100
    (Some (Json two_sites)) None None None None None two_sites 1 1 ∅.

(** No multiplexer; the run record of [web] names process 7, which this
    user may not signal. *)
Definition host_foreign : world :=
  World false None ∅ {["/srv/api"; "/srv/web"]} ∅
    {["web" := "7"]} {[7 := Proc 7 false "python3 app.py" "/srv/web"]} 100
    (Some (Json two_sites)) None None None None None two_sites 1 1 ∅.

(** No multiplexer; [web] runs detached as process 7, which is ours. *)
Definition host_detached : world :=
  World false None ∅ {["/srv/api"; "/srv/web"]} ∅
    {["web" := "7"]} {[7 := Proc 7 true "python3 app.py" "/srv/web"]} 100
    (Some (Json two_sites)) None None None None None two_sites 1 1 ∅.

(** No multiplexer, nothing running, one site configured. *)
Definition host_quiet : world :=
  World false None ∅ {["/srv/api"; "/srv/web"]} ∅ ∅ ∅ 100
    (Some (Json (Config (Some [web]) None))) None None None None None
    (Config (Some [web]) None) 1 1 ∅.

End Scenario.

(* ===================================================================== *)
(** ** [check_auth]: who is let in *)
(* ===================================================================== *)

Module Auth.
Import Sys.

(** The header is text of code points below 256.  [str.strip()] on such
    text takes off the ASCII white space, U+0085 and U+00A0. *)
Definition is_space_str (a : Ascii.ascii) : bool :=
  let n := Ascii.nat_of_ascii a in
  is_space a || (n =? 133)%nat || (n =? 160)%nat.

Fixpoint lstrip_str (s : string) : string :=
  match s with
  | String a r => if is_space_str a then lstrip_str r else s
  | EmptyString => EmptyString
  end.

Definition strip_str (s : string) : string :=
  String.rev (lstrip_str (String.rev (lstrip_str s))).

(** [s.startswith(p)] *)
Fixpoint startswith (p s : string) : bool :=
  match p, s with
  | EmptyString, _ => true
  | String a p', String b s' => Ascii.eqb a b && startswith p' s'
  | String _ _, EmptyString => false
  end.

Fixpoint drop_chars (n : nat) (s : string) : string :=
  match n, s with
  | O, _ => s
  | S n', String _ r => drop_chars n' r
  | S _, EmptyString => EmptyString
  end.

(** [s.replace(pat, "", 1)] for a [pat] that is not empty: the first
    occurrence of [pat] taken out. *)
Fixpoint remove_first (pat s : string) : string :=
  if startswith pat s then drop_chars (String.length pat) s
  else match s with
       | String a r => String a (remove_first pat r)
       | EmptyString => EmptyString
       end.

(** [s.split(sep, 1)] unpacked into two names: the text before the first
    [sep] and the text after it; [None] stands for the [ValueError] of the
    unpacking when there is no [sep]. *)
Fixpoint split_once (sep : Ascii.ascii) (s : string) : option (string * string) :=
  match s with
  | EmptyString => None
  | String a r =>
      if Ascii.eqb a sep then Some (EmptyString, r)
      else match split_once sep r with
           | Some (x, y) => Some (String a x, y)
           | None => None
           end
  end.

(** [":" in raw] and [raw.split(":", 1)], on decoded text. *)
Fixpoint split_colon (raw : list Z) : option (list Z * list Z) :=
  match raw with
  | [] => None
  | c :: r =>
      if c =? 58 then Some ([], r)
      else match split_colon r with
           | Some (x, y) => Some (c :: x, y)
           | None => None
           end
  end.

(** [unauthorized()] *)
Definition unauthorized : exn := HTTPException 401 "Not authenticated".

Section WithBase64.

(** [base64.b64decode] of the standard library: the bytes, or [None] where it
    raises. *)
Variable b64decode : string -> option (list Z).

(** The result is [None] wherever the code returns [None], the [except
    Exception] branch included; user and password are decoded text.  On text
    of code points below 256, [scheme.lower()] equals ["basic"] exactly when
    the lowering of the ASCII letters does. *)
Definition parse_basic_auth (header_val : string) : option (list Z * list Z) :=
  match split_once (Ascii.ascii_of_nat 32) header_val with
  | None => None
  | Some (scheme, b64) =>
      if negb (bool_decide (lower scheme = "basic")) then None
      else
        match b64decode (strip_str b64) with
        | None => None
        | Some bytes => split_colon (Text.decode_ignore bytes)
        end
  end.

(** [check_auth(request)], as a function of the [Authorization] header
    ([""] when the request has none). *)
Definition check_auth (authz : string) : M bool :=
  let* auth := gets (fun w => default (Auth None None None) (cfg_auth (CONFIG w))) in
  let* env := gets env_token in
  let token := if truthy (a_token auth) then a_token auth else env in
  if truthy token && startswith "Bearer " authz then
    if bool_decide (Some (strip_str (remove_first "Bearer " authz)) = token)
    then ret true
    else raise unauthorized
  else
    let basic :=
      if bool_decide (authz = "") then None else parse_basic_auth authz in
    match basic with
    | Some (u, p) =>
        if bool_decide (Some u = option_map Text.lit (a_username auth))
           && bool_decide (Some p = option_map Text.lit (a_password auth))
        then ret true
        else raise unauthorized
    | None =>
        if negb (truthy (a_username auth)) && negb (truthy (a_password auth))
           && negb (truthy token)
        then ret true
        else raise unauthorized
    end.

End WithBase64.

(** The credentials in force: those of the configuration in memory, and the
    token of the environment when the configuration has none. *)
Definition auth_of (w : world) : auth :=
  default (Auth None None None) (cfg_auth (CONFIG w)).

Definition token_of (w : world) : option string :=
  if truthy (a_token (auth_of w)) then a_token (auth_of w) else env_token w.

(** Some credential is configured. *)
Definition protected (w : world) : bool :=
  truthy (a_username (auth_of w)) || truthy (a_password (auth_of w))
  || truthy (token_of w).

End Auth.
(* ===================================================================== *)
(** * Part II: properties *)
(* ===================================================================== *)

Module TextFacts.
Import Text.

(** A byte below 0x80 is never a continuation byte: whatever was pending is
    dropped, the byte itself is emitted and the decoder is idle again. *)
Lemma step_ascii s b : b < 0x80 -> step s b = (Start, [b]).
Proof.
  intros Hb.
  assert (Hl : lead b = (Start, [b])).
  { unfold lead. destruct (Z.ltb_spec b 0x80); [done | lia]. }
  destruct s as [|need acc r]; simpl; [done |].
  assert (in_range r b = false) as ->; [| done].
  unfold in_range. apply andb_false_iff. left.
  apply Z.leb_gt. destruct r; simpl; lia.
Qed.

Lemma decode_from_app s xs ys :
  decode_from s (xs ++ ys) = decode_from s xs ++ decode_from (state_after s xs) ys.
Proof.
  revert s. induction xs as [|x xs IH]; intros s; simpl; [done |].
  by rewrite IH, app_assoc.
Qed.

Lemma state_after_app s xs ys :
  state_after s (xs ++ ys) = state_after (state_after s xs) ys.
Proof. revert s. induction xs as [|x xs IH]; intros s; simpl; auto. Qed.

(** After a line feed the decoder has forgotten everything before it. *)
Lemma decode_from_lf s xs ys :
  decode_from s (xs ++ LF :: ys) = decode_from s xs ++ LF :: decode_ignore ys.
Proof.
  rewrite decode_from_app. f_equal. simpl.
  rewrite (step_ascii _ LF) by (unfold LF; lia). done.
Qed.

Lemma splitlines_aux_lf_bounded k : forall u cur w, (length u <= k)%nat ->
  splitlines_aux cur (u ++ LF :: w) = splitlines_aux cur (u ++ [LF]) ++ splitlines w.
Proof.
  unfold splitlines.
  induction k as [|k IH]; intros u cur w Hk.
  - destruct u; [|simpl in Hk; lia]. simpl. by destruct w.
  - destruct u as [|c u]; [simpl; by destruct w|].
    simpl in Hk. rewrite <- !app_comm_cons.
    cbn [splitlines_aux]. destruct (is_linebreak c) eqn:Hc.
    + destruct u as [|c' u].
      * rewrite !app_nil_l. change (LF =? LF) with true. rewrite andb_true_r.
        destruct (c =? CR); simpl; by destruct w.
      * rewrite <- !app_comm_cons. destruct ((c =? CR) && (c' =? LF)).
        -- simpl in Hk. rewrite (IH u) by lia. done.
        -- simpl in Hk. rewrite !app_comm_cons, (IH (c' :: u)) by (simpl; lia). done.
    + apply IH. lia.
Qed.

Lemma splitlines_lf u w :
  splitlines (u ++ LF :: w) = splitlines (u ++ [LF]) ++ splitlines w.
Proof. apply (splitlines_aux_lf_bounded (length u)). lia. Qed.

Lemma nl_count_cons c s :
  nl_count (c :: s) = ((if decide (c = LF) then 1 else 0) + nl_count s)%nat.
Proof. unfold nl_count. rewrite filter_cons. by destruct (decide (c = LF)). Qed.

Lemma nl_count_app s t : nl_count (s ++ t) = (nl_count s + nl_count t)%nat.
Proof. unfold nl_count. by rewrite filter_app, length_app. Qed.

Lemma splitlines_aux_count k : forall s cur, (length s <= k)%nat ->
  (nl_count s <= length (splitlines_aux cur s))%nat.
Proof.
  induction k as [|k IH]; intros s cur Hk.
  - destruct s; [|simpl in Hk; lia]. unfold nl_count. simpl. lia.
  - destruct s as [|c s]; [unfold nl_count; simpl; lia|].
    simpl in Hk. rewrite nl_count_cons. cbn [splitlines_aux].
    destruct (is_linebreak c) eqn:Hc.
    + destruct s as [|c' s].
      * unfold nl_count. simpl. destruct (decide (c = LF)); lia.
      * destruct ((c =? CR) && (c' =? LF)) eqn:E.
        -- apply andb_true_iff in E as [E1 E2].
           apply Z.eqb_eq in E1, E2. subst c c'.
           rewrite nl_count_cons. simpl in Hk. 
           specialize (IH s [] ltac:(lia)). simpl.
           destruct (decide (CR = LF)); [done|]. destruct (decide (LF = LF)); lia.
        -- simpl in Hk. specialize (IH (c' :: s) [] ltac:(simpl; lia)). cbn [length].
           destruct (decide (c = LF)); lia.
    + specialize (IH s (c :: cur) ltac:(lia)).
      destruct (decide (c = LF)) as [->|]; [done | lia].
Qed.

Lemma splitlines_count s : (nl_count s <= length (splitlines s))%nat.
Proof. apply (splitlines_aux_count (length s)). lia. Qed.

Lemma decode_from_count s bs : (nl_count bs <= nl_count (decode_from s bs))%nat.
Proof.
  revert s. induction bs as [|b bs IH]; intros s; [done |].
  cbn [decode_from]. rewrite nl_count_cons, nl_count_app.
  specialize (IH (fst (step s b))).
  destruct (decide (b = LF)) as [->|]; [| lia].
  rewrite step_ascii in * by (unfold LF; lia). cbn [fst snd] in *.
  change (nl_count [LF]) with 1%nat. lia.
Qed.

Lemma lastn_app_r {A} k (a b : list A) :
  (k <= length b)%nat -> lastn k (a ++ b) = lastn k b.
Proof.
  intros Hk. unfold lastn. rewrite length_app.
  replace (length a + length b - k)%nat with (length a + (length b - k))%nat by lia.
  by rewrite drop_app_add.
Qed.

Lemma nl_count_split bs : (0 < nl_count bs)%nat ->
  exists d1 d2, bs = d1 ++ LF :: d2 /\ nl_count bs = S (nl_count d2).
Proof.
  induction bs as [|b bs IH]; [unfold nl_count; simpl; lia |].
  rewrite nl_count_cons. destruct (decide (b = LF)) as [->|Hb].
  - intros _. by exists [], bs.
  - intros Hpos. destruct IH as (d1 & d2 & -> & Hc); [lia|].
    exists (b :: d1), d2. split; [done | lia].
Qed.

(** Reading only a suffix of the file that holds more than [k] line feeds
    yields the same last [k] lines as reading all of it. *)
Lemma lastn_lines_suffix pre data k :
  (k < nl_count data)%nat ->
  lastn k (splitlines (decode_ignore (pre ++ data))) =
  lastn k (splitlines (decode_ignore data)).
Proof.
  intros Hk. destruct (nl_count_split data) as (d1 & d2 & -> & Hc); [lia|].
  rewrite app_assoc. unfold decode_ignore at 1 2.
  rewrite !decode_from_lf.
  rewrite (splitlines_lf (decode_from Start (pre ++ d1))).
  rewrite (splitlines_lf (decode_from Start d1)).
  assert (k <= length (splitlines (decode_ignore d2)))%nat.
  { etrans; [| apply splitlines_count]. etrans; [| apply decode_from_count]. lia. }
  by rewrite !lastn_app_r.
Qed.

(** *** The codec, bit by bit *)

Lemma land_shifted_low a b n :
  0 <= n -> 0 <= b < 2 ^ n -> Z.land (a * 2 ^ n) b = 0.
Proof.
  intros Hn Hb. apply Z.bits_inj'. intros i Hi.
  rewrite Z.land_spec, Z.bits_0.
  destruct (Z.lt_ge_cases i n) as [Hlt|Hge].
  - by rewrite Z.mul_pow2_bits_low.
  - destruct (Z.eq_dec b 0) as [->|Hb0]; [by rewrite Z.bits_0, andb_false_r |].
    rewrite (Z.bits_above_log2 b i), andb_false_r; [done | lia |].
    apply Z.log2_lt_pow2; [lia |]. eapply Z.lt_le_trans; [apply Hb |].
    apply Z.pow_le_mono_r; lia.
Qed.

Lemma lor_shifted a b n :
  0 <= n -> 0 <= b < 2 ^ n -> Z.lor (a * 2 ^ n) b = a * 2 ^ n + b.
Proof. intros. symmetry. apply Z.add_nocarry_lor. by apply land_shifted_low. Qed.

(** The bit operations of the codec as arithmetic. *)
Lemma lor_C0 x : 0 <= x < 64 -> Z.lor 0xC0 x = 0xC0 + x.
Proof. intros. apply (lor_shifted 3 x 6); lia. Qed.
Lemma lor_E0 x : 0 <= x < 32 -> Z.lor 0xE0 x = 0xE0 + x.
Proof. intros. apply (lor_shifted 7 x 5); lia. Qed.
Lemma lor_F0 x : 0 <= x < 16 -> Z.lor 0xF0 x = 0xF0 + x.
Proof. intros. apply (lor_shifted 15 x 4); lia. Qed.
Lemma lor_80 x : 0 <= x < 64 -> Z.lor 0x80 x = 0x80 + x.
Proof. intros. apply (lor_shifted 2 x 6); lia. Qed.
Lemma land_3F x : Z.land x 0x3F = x mod 64.
Proof. apply (Z.land_ones x 6). lia. Qed.
Lemma land_1F x : Z.land x 0x1F = x mod 32.
Proof. apply (Z.land_ones x 5). lia. Qed.
Lemma land_0F x : Z.land x 0x0F = x mod 16.
Proof. apply (Z.land_ones x 4). lia. Qed.
Lemma land_07 x : Z.land x 0x07 = x mod 8.
Proof. apply (Z.land_ones x 3). lia. Qed.
Lemma push6 acc b : Z.lor (Z.shiftl acc 6) (Z.land b 0x3F) = acc * 64 + b mod 64.
Proof.
  rewrite land_3F, Z.shiftl_mul_pow2 by lia.
  apply (lor_shifted acc (b mod 64) 6); [lia |]. apply Z.mod_pos_bound. lia.
Qed.
Lemma shr6 c : Z.shiftr c 6 = c / 64.
Proof. apply (Z.shiftr_div_pow2 c 6). lia. Qed.
Lemma shr12 c : Z.shiftr c 12 = c / 4096.
Proof. apply (Z.shiftr_div_pow2 c 12). lia. Qed.
Lemma shr18 c : Z.shiftr c 18 = c / 262144.
Proof. apply (Z.shiftr_div_pow2 c 18). lia. Qed.

Ltac dlia := Z.div_mod_to_equations; lia.

(** Decide the comparisons a codec function branches on, from the bounds at
    hand. *)
Ltac zbranch :=
  repeat match goal with
  | |- context [?a <? ?b] =>
      destruct (Z.ltb_spec a b); [try (exfalso; dlia) | try (exfalso; dlia)]
  | |- context [?a <=? ?b] =>
      destruct (Z.leb_spec a b); [try (exfalso; dlia) | try (exfalso; dlia)]
  | |- context [?a =? ?b] =>
      destruct (Z.eqb_spec a b); [try (exfalso; dlia) | try (exfalso; dlia)]
  end; cbn [andb orb fst snd app].

Lemma step_outside s b : b < 0x80 \/ 0xBF < b -> step s b = lead b.
Proof.
  intros Hb. destruct s as [|need acc r]; [done |]. cbn [step].
  assert (in_range r b = false) as ->; [| done].
  unfold in_range. destruct r; cbn [range_lo range_hi]; zbranch; done.
Qed.

Lemma step_cont need acc r b :
  range_lo r <= b <= range_hi r ->
  step (Cont need acc r) b =
    match need with
    | O => (Start, [acc * 64 + b mod 64])
    | S need' => (Cont need' (acc * 64 + b mod 64) R80_BF, [])
    end.
Proof.
  intros Hb. cbn [step]. rewrite push6.
  assert (in_range r b = true) as ->; [| done].
  unfold in_range. apply andb_true_iff. split; apply Z.leb_le; lia.
Qed.

Lemma decode_encode_cp c s rest :
  is_scalar c ->
  decode_from s (encode_cp c ++ rest) = c :: decode_from Start rest.
Proof.
  intros Hc. unfold is_scalar in Hc. unfold encode_cp.
  destruct (Z.ltb_spec c 0x80).
  { cbn [app decode_from]. rewrite step_ascii by lia. done. }
  destruct (Z.ltb_spec c 0x800).
  { rewrite shr6, land_3F.
    rewrite lor_C0, lor_80 by dlia.
    cbn [app decode_from]. rewrite step_outside by dlia.
    unfold lead. rewrite land_1F. zbranch.
    rewrite step_cont by (cbn; dlia). cbn [fst snd app]. f_equal. dlia. }
  destruct (Z.ltb_spec c 0x10000).
  { rewrite shr6, shr12, !land_3F.
    rewrite lor_E0, !lor_80 by dlia.
    cbn [app decode_from]. rewrite step_outside by dlia.
    unfold lead. rewrite land_0F. zbranch;
      rewrite step_cont by (cbn; dlia); cbn [fst snd app];
      rewrite step_cont by (cbn; dlia); cbn [fst snd app]; f_equal; dlia. }
  rewrite shr6, shr12, shr18, !land_3F.
  rewrite lor_F0, !lor_80 by dlia.
  cbn [app decode_from]. rewrite step_outside by dlia.
  unfold lead. rewrite land_07. zbranch;
    rewrite step_cont by (cbn; dlia); cbn [fst snd app];
    rewrite step_cont by (cbn; dlia); cbn [fst snd app];
    rewrite step_cont by (cbn; dlia); cbn [fst snd app]; f_equal; dlia.
Qed.

(** X1.  Encoding a text of scalar values and decoding it gives the text back. *)
Theorem decode_encode s : Forall is_scalar s -> decode_ignore (encode s) = s.
Proof.
  unfold decode_ignore, encode. induction 1 as [|c s Hc _ IH]; [done |].
  cbn [flat_map]. rewrite decode_encode_cp by done. by f_equal.
Qed.

Ltac state_ok_tac :=
  cbn [state_ok];
  first
    [ done
    | split; [done | dlia]
    | left; split; [done | dlia]
    | right; left; split; [done | dlia]
    | right; right; split; [done | dlia] ].

Lemma lead_ok b :
  0 <= b -> state_ok (lead b).1 /\ Forall is_scalar (lead b).2.
Proof.
  intros Hb. unfold lead. rewrite land_1F, land_0F, land_07.
  zbranch; cbn [fst snd]; (split; [state_ok_tac |]);
    first [ constructor; [unfold is_scalar; lia | constructor] | constructor ].
Qed.

Lemma step_ok s b :
  state_ok s -> 0 <= b ->
  state_ok (step s b).1 /\ Forall is_scalar (step s b).2.
Proof.
  intros Hs Hb. destruct s as [|need acc r]; [by apply lead_ok |].
  cbn [step]. destruct (in_range r b) eqn:Hin; [| by apply lead_ok].
  rewrite push6. unfold in_range in Hin. apply andb_true_iff in Hin as [H1 H2].
  apply Z.leb_le in H1, H2.
  destruct need as [|[|[|need]]]; cbn [state_ok] in Hs; [| | | done].
  - destruct Hs as (-> & Hacc & Hsur). cbn in H1, H2. cbn [fst snd state_ok].
    split; [done |]. constructor; [| constructor]. unfold is_scalar. dlia.
  - cbn [fst snd state_ok]. split; [| constructor]. split; [done |].
    destruct Hs as [[-> ->] | [[-> ->] | [-> Hacc]]]; cbn in H1, H2; dlia.
  - cbn [fst snd state_ok]. split; [| constructor]. right; right. split; [done |].
    destruct Hs as [[-> ->] | [[-> ->] | [-> Hacc]]]; cbn in H1, H2; dlia.
Qed.

Lemma decode_from_scalar bs : forall s,
  state_ok s -> Forall (fun b => 0 <= b) bs -> Forall is_scalar (decode_from s bs).
Proof.
  induction bs as [|b bs IH]; intros s Hs Hbs; [constructor |].
  apply Forall_cons in Hbs as [Hb Hbs].
  destruct (step_ok s b Hs Hb) as [Hs' Hout].
  cbn [decode_from]. apply Forall_app. split; [done |]. by apply IH.
Qed.

Lemma decode_encode_witness :
  decode_ignore (encode [0x48; 0xE9; 0x20AC; 0x1F600]) = [0x48; 0xE9; 0x20AC; 0x1F600].
Proof.
  apply (decode_encode [0x48; 0xE9; 0x20AC; 0x1F600]).
  repeat (apply Forall_cons_2; [unfold is_scalar; lia |]). apply Forall_nil_2.
Defined.

(** X2.  Whatever bytes a log holds, the text decoded from them consists of
    Unicode scalar values only: no surrogate, nothing past U+10FFFF.  So the
    streamer's re-encoding of a line cannot fail. *)
Theorem decode_ignore_scalar bs :
  Forall is_byte bs -> Forall is_scalar (decode_ignore bs).
Proof.
  intros Hb. unfold decode_ignore. apply decode_from_scalar; [done |].
  eapply Forall_impl; [apply Hb |]. unfold is_byte. intros b ?. lia.
Qed.

Lemma decode_ignore_scalar_witness :
  Forall is_scalar (decode_ignore [0xC3; 0x28; 0xE2; 0x82; 0xAC; 0xED; 0xA0; 0x80; 0xFF]).
Proof.
  apply (decode_ignore_scalar [0xC3; 0x28; 0xE2; 0x82; 0xAC; 0xED; 0xA0; 0x80; 0xFF]).
  repeat (apply Forall_cons_2; [unfold is_byte; lia |]). apply Forall_nil_2.
Defined.

End TextFacts.

Module TailFacts.
Import Text Tail TextFacts.

Lemma read_at_glue content size :
  0 < size <= Z.of_nat (length content) ->
  read_at content (size - Z.min block size) (Z.min block size)
    ++ drop (Z.to_nat size) content
  = drop (Z.to_nat (size - Z.min block size)) content.
Proof.
  intros Hs. unfold read_at.
  assert (0 < Z.min block size <= size) as Hm by (unfold block; lia).
  replace (Z.to_nat size)
    with (Z.to_nat (size - Z.min block size) + Z.to_nat (Z.min block size))%nat by lia.
  rewrite <- drop_drop. apply take_drop.
Qed.

(** The loop keeps [data] equal to the part of the file from [size] on, and
    leaves either at the start of the file or with more than [n + 1] line
    feeds in hand.  [fuel] rounds are enough as soon as [size <= fuel]. *)
Lemma read_back_inv fuel : forall content n size,
  0 <= size <= Z.of_nat (length content) ->
  (Z.to_nat size <= fuel)%nat ->
  exists size',
    0 <= size' <= size /\
    read_back fuel content n size (drop (Z.to_nat size) content)
      = drop (Z.to_nat size') content /\
    (size' = 0 \/ n + 1 < count_nl (drop (Z.to_nat size') content)) /\
    loops content n size (drop (Z.to_nat size) content)
      (drop (Z.to_nat size') content).
Proof.
  induction fuel as [|fuel IH]; intros content n size Hs Hf.
  - assert (size = 0) as -> by lia. exists 0. simpl.
    repeat split; try lia; auto. apply loops_exit. done.
  - cbn [read_back]. destruct (more n size (drop (Z.to_nat size) content)) eqn:Hm.
    + unfold more in Hm. apply andb_true_iff in Hm as Hm'. destruct Hm' as [Hpos _].
      apply Z.ltb_lt in Hpos.
      assert (0 < Z.min block size <= size) as Hmin by (unfold block; lia).
      cbv zeta. rewrite read_at_glue by lia.
      destruct (IH content n (size - Z.min block size)) as (s' & Hs' & Hr & Hc & Hl);
        [lia | lia |].
      exists s'. repeat split; try lia; auto.
      eapply loops_round; [done |]. by rewrite read_at_glue by lia.
    + exists size. repeat split; try lia; [| by apply loops_exit].
      unfold more in Hm. apply andb_false_iff in Hm as [Hm|Hm].
      * apply Z.ltb_ge in Hm. left. lia.
      * apply Z.leb_gt in Hm. right. lia.
Qed.

Lemma slice_from_neg {A} (n : Z) (l : list A) :
  1 <= n -> slice_from (- n) l = lastn (Z.to_nat n) l.
Proof.
  intros Hn. unfold slice_from, lastn.
  destruct (Z.ltb_spec (- n) 0); [| lia]. f_equal. lia.
Qed.

(** For a positive count the tailer returns the last [n] lines of the whole
    file, although it has read only its last blocks. *)
Lemma tail_file_last_lines content n :
  1 <= n -> tail_file (Bytes content) n = last_lines content n.
Proof.
  intros Hn. unfold tail_file, last_lines. cbv zeta.
  rewrite slice_from_neg by done.
  destruct (read_back_inv (length content) content n (Z.of_nat (length content)))
    as (s' & Hs' & Hr & Hc & _); [lia | lia |].
  rewrite Nat2Z.id, drop_all in Hr. rewrite Hr.
  destruct Hc as [-> | Hc]; [done |].
  rewrite <- (take_drop (Z.to_nat s') content) at 2.
  symmetry. apply lastn_lines_suffix. unfold count_nl in Hc. lia.
Qed.

Lemma omap_id_Some (l : list Z) : omap id (map Some l) = l.
Proof. induction l; [done | by cbn; f_equal]. Qed.

Lemma map_default_Some (d : Z) (l : list Z) : map (default d) (map Some l) = l.
Proof. induction l; [done | by cbn; f_equal]. Qed.

Lemma lead_tagged_spec b :
  (lead_tagged b).1 = (lead b).1 /\
  omap id (lead_tagged b).2 = (lead b).2 /\
  (lead_replace b).1 = (lead b).1 /\
  map (default REPLACEMENT) (lead_tagged b).2 = (lead_replace b).2.
Proof.
  unfold lead_tagged, lead_replace, lead. repeat case_match; simplify_eq; done.
Qed.

Lemma step_tagged_spec s b :
  (step_tagged s b).1 = (step s b).1 /\
  omap id (step_tagged s b).2 = (step s b).2 /\
  (step_replace s b).1 = (step s b).1 /\
  map (default REPLACEMENT) (step_tagged s b).2 = (step_replace s b).2.
Proof.
  destruct (lead_tagged_spec b) as (H1 & H2 & H3 & H4).
  destruct s as [|need acc r]; cbn [step step_tagged step_replace]; [done |].
  destruct (in_range r b).
  - cbn [fst snd]. by rewrite omap_id_Some, map_default_Some.
  - destruct (lead_replace b). cbn [fst snd] in *. repeat split; try done.
    cbn. by f_equal.
Qed.

(** [errors="ignore"] yields what [errors="replace"] yields with the markers
    taken out: an invalid part leaves nothing behind. *)
Lemma decode_tagged_from_spec bs : forall s,
  decode_from s bs = omap id (decode_tagged_from s bs) /\
  decode_replace_from s bs = map (default REPLACEMENT) (decode_tagged_from s bs).
Proof.
  induction bs as [|b bs IH]; intros s.
  - by destruct s.
  - destruct (step_tagged_spec s b) as (H1 & H2 & H3 & H4).
    cbn [decode_from decode_replace_from decode_tagged_from].
    rewrite omap_app, map_app, H2, H4.
    destruct (IH (step s b).1) as [IH1 IH2].
    rewrite H1, H3. by rewrite <- IH1, <- IH2.
Qed.

Lemma decode_ignore_tagged bs : decode_ignore bs = omap id (decode_tagged bs).
Proof. apply decode_tagged_from_spec. Qed.

Lemma decode_replace_tagged bs :
  decode_replace bs = map (default REPLACEMENT) (decode_tagged bs).
Proof. apply decode_tagged_from_spec. Qed.

Lemma step_never_valid s b : never_valid b -> step s b = (Start, []).
Proof.
  intros Hb.
  assert (lead b = (Start, [])) as Hl.
  { unfold lead. unfold never_valid in Hb.
    repeat (case_match; try lia); done. }
  destruct s as [|need acc r]; cbn [step]; [done |].
  assert (in_range r b = false) as ->; [| done].
  unfold in_range. apply andb_false_iff. right. apply Z.leb_gt.
  unfold never_valid in Hb. destruct r; simpl; lia.
Qed.

(** A byte that no sequence can hold vanishes from the text, wherever it
    stands. *)
Lemma decode_ignore_skips pre b post :
  never_valid b ->
  decode_ignore (pre ++ b :: post) = decode_ignore pre ++ decode_ignore post.
Proof.
  intros Hb. unfold decode_ignore. rewrite decode_from_app. f_equal.
  cbn [decode_from]. by rewrite step_never_valid.
Qed.

(** The loop of [read_back] ends, and with [length content] rounds allowed
    the function returns what the loop leaves in [data]. *)
Lemma read_back_is_loop content n :
  loops content n (Z.of_nat (length content)) []
    (read_back (length content) content n (Z.of_nat (length content)) []).
Proof.
  destruct (read_back_inv (length content) content n (Z.of_nat (length content)))
    as (s' & _ & Hr & _ & Hl); [lia | lia |].
  rewrite Nat2Z.id, drop_all in *. by rewrite Hr.
Qed.

(** X3.  With the count in [1, K) the result has exactly that many lines; from
    [K] on it is the whole list. *)
Theorem tail_file_counts content n :
  1 <= n ->
  let lines := splitlines (decode_ignore content) in
  (Z.of_nat (length lines) <= n -> tail_file (Bytes content) n = lines) /\
  (n < Z.of_nat (length lines) ->
     tail_file (Bytes content) n = drop (length lines - Z.to_nat n) lines /\
     Z.of_nat (length (tail_file (Bytes content) n)) = n).
Proof.
  intros Hn lines. rewrite tail_file_last_lines by done.
  unfold last_lines, lastn. fold lines. split.
  - intros Hk. replace (length lines - Z.to_nat n)%nat with 0%nat by lia. done.
  - intros Hk. split; [done |]. rewrite length_drop. lia.
Qed.

(** C1. Asked for the last 0 lines of a log of two lines, [tail_file] returns
    both lines: [text[-0:]] is the whole list.  The last 0 lines are none. *)
Theorem tail_file_zero_returns_all :
  tail_file (Bytes [97; 10; 98; 10]) 0 = [[97]; [98]] /\
  last_lines [97; 10; 98; 10] 0 = [].
Proof. split; reflexivity. Qed.

(** C9, as stated: decoding with a substitution marker.  On the bytes
    [a 0xFF b LF] the tailer returns the line "ab"; with the marker it would
    be "a", U+FFFD, "b". *)
Lemma tail_decoding_not_replacing :
  tail_file (Bytes [97; 255; 98; 10]) 1 <> last_lines_replace [97; 255; 98; 10] 1.
Proof. vm_compute. discriminate. Qed.

(** C9, amended.  Decoding is total and lenient by dropping: the text is what
    a replacing decoder yields with every marker taken out, so an invalid part
    leaves nothing in its place; and for a count of at least one the result is
    the last [n] lines of the decoded file. *)
Theorem tail_decoding_drops_invalid content n :
  1 <= n ->
  decode_ignore content = omap id (decode_tagged content) /\
  decode_replace content = map (default REPLACEMENT) (decode_tagged content) /\
  tail_file (Bytes content) n
    = lastn (Z.to_nat n) (splitlines (decode_ignore content)).
Proof.
  intros Hn. split; [apply decode_ignore_tagged |].
  split; [apply decode_replace_tagged |]. by apply tail_file_last_lines.
Qed.

Lemma tail_decoding_drops_invalid_witness :
  decode_ignore [97; 255; 98; 10] = omap id (decode_tagged [97; 255; 98; 10]) /\
  decode_replace [97; 255; 98; 10]
    = map (default REPLACEMENT) (decode_tagged [97; 255; 98; 10]) /\
  tail_file (Bytes [97; 255; 98; 10]) 1
    = lastn (Z.to_nat 1) (splitlines (decode_ignore [97; 255; 98; 10])).
Proof. apply (tail_decoding_drops_invalid [97; 255; 98; 10] 1). lia. Defined.

(** *** More on the tailer *)

(** X4.  When the last block of the file holds more than [n + 1] line feeds, the
    loop reads that block and no more, however large the file. *)
Theorem tail_reads_one_block content n :
  -1 <= n ->
  (4096 <= length content)%nat ->
  n + 1 < count_nl (drop (length content - 4096) content) ->
  read_back (length content) content n (Z.of_nat (length content)) []
    = drop (length content - 4096) content.
Proof.
  intros Hn Hlen Hcount.
  destruct (length content) as [|fuel] eqn:Hl; [lia |].
  cbn [read_back]. unfold more at 1.
  assert ((0 <? Z.of_nat (S fuel)) = true) as -> by (apply Z.ltb_lt; lia).
  change (count_nl []) with 0.
  assert ((0 <=? n + 1) = true) as -> by (apply Z.leb_le; lia).
  cbn [andb]. cbv zeta.
  assert (Z.min block (Z.of_nat (S fuel)) = 4096) as -> by (unfold block; lia).
  assert (read_at content (Z.of_nat (S fuel) - 4096) 4096 ++ []
          = drop (S fuel - 4096) content) as ->.
  { rewrite app_nil_r. unfold read_at.
    replace (Z.to_nat (Z.of_nat (S fuel) - 4096)) with (S fuel - 4096)%nat by lia.
    apply take_ge. rewrite length_drop. lia. }
  destruct fuel as [|fuel]; [done |]. cbn [read_back].
  unfold more. apply Z.leb_gt in Hcount. rewrite Hcount, andb_false_r. done.
Qed.

Lemma tail_reads_one_block_witness :
  read_back (length (replicate 5000 LF)) (replicate 5000 LF) 10
    (Z.of_nat (length (replicate 5000 LF))) []
  = drop (length (replicate 5000 LF) - 4096) (replicate 5000 LF).
Proof.
  apply (tail_reads_one_block (replicate 5000 LF) 10).
  - lia.
  - rewrite length_replicate. lia.
  - vm_compute. reflexivity.
Defined.

(** X5.  With a count of -2 or less the loop condition fails at once: nothing is
    read and the result is empty, whatever the file. *)
Theorem tail_file_negative_count f n : n <= -2 -> tail_file f n = [].
Proof.
  intros Hn. destruct f as [| |content]; [done | done |].
  unfold tail_file. cbv zeta.
  assert (read_back (length content) content n (Z.of_nat (length content)) [] = []) as ->.
  { destruct (length content) as [|k]; [done |]. cbn [read_back].
    unfold more. change (count_nl []) with 0.
    assert ((0 <=? n + 1) = false) as ->; [| by rewrite andb_false_r].
    apply Z.leb_gt. lia. }
  unfold slice_from. cbn. apply drop_nil.
Qed.

Lemma tail_file_negative_count_witness : tail_file (Bytes [97; 10; 98; 10]) (-3) = [].
Proof. apply tail_file_negative_count. lia. Defined.

Lemma tail_file_counts_witness :
  let lines := splitlines (decode_ignore [97; 10; 98; 10; 99; 10]) in
  (Z.of_nat (length lines) <= 2 -> tail_file (Bytes [97; 10; 98; 10; 99; 10]) 2 = lines) /\
  (2 < Z.of_nat (length lines) ->
     tail_file (Bytes [97; 10; 98; 10; 99; 10]) 2 = drop (length lines - Z.to_nat 2) lines /\
     Z.of_nat (length (tail_file (Bytes [97; 10; 98; 10; 99; 10]) 2)) = 2).
Proof. apply (tail_file_counts [97; 10; 98; 10; 99; 10] 2). lia. Defined.

End TailFacts.

Module StreamFacts.
Import Text Stream TextFacts.

Lemma encode_app a b : encode (a ++ b) = encode a ++ encode b.
Proof. unfold encode. apply flat_map_app. Qed.

Lemma payload_frames lines : payload lines = flat_map frame lines ++ [LF].
Proof.
  unfold payload, parts. rewrite concat_app, encode_app. f_equal.
  induction lines as [|l ls IH]; [done |].
  cbn [map concat flat_map]. rewrite !encode_app, IH. unfold frame.
  by rewrite <- !app_assoc.
Qed.

(** No line that [splitlines] returns holds a line boundary. *)
Lemma splitlines_aux_no_break k : forall s cur,
  (length s <= k)%nat ->
  Forall (fun c => is_linebreak c = false) cur ->
  Forall (Forall (fun c => is_linebreak c = false)) (splitlines_aux cur s).
Proof.
  induction k as [|k IH]; intros s cur Hk Hcur.
  - destruct s; [| simpl in Hk; lia]. simpl. destruct cur; [constructor |].
    repeat constructor. by apply Forall_rev.
  - destruct s as [|c s].
    { simpl. destruct cur; [constructor |]. repeat constructor. by apply Forall_rev. }
    simpl in Hk. cbn [splitlines_aux]. destruct (is_linebreak c) eqn:Hc.
    + constructor; [by apply Forall_rev |].
      destruct s as [|c' s]; [constructor |]. simpl in Hk.
      destruct ((c =? CR) && (c' =? LF)); apply IH; simpl; auto; lia.
    + apply IH; [lia |]. by constructor.
Qed.

Lemma splitlines_no_break s :
  Forall (Forall (fun c => is_linebreak c = false)) (splitlines s).
Proof. apply (splitlines_aux_no_break (length s)); [lia | constructor]. Qed.

Lemma lor_high_not_lf a x : Z.testbit a 7 = true -> Z.lor a x <> LF.
Proof.
  intros Ha E. assert (Z.testbit (Z.lor a x) 7 = true) as Hb.
  { rewrite Z.lor_spec, Ha. done. }
  rewrite E in Hb. discriminate Hb.
Qed.

Lemma encode_cp_no_lf c : c <> LF -> LF ∉ encode_cp c.
Proof.
  intros Hc. unfold encode_cp.
  repeat case_match; rewrite ?elem_of_cons, elem_of_nil;
    intros H'; repeat destruct H' as [H'|H']; try done;
    try (symmetry in H'; revert H'; by apply lor_high_not_lf).
Qed.

Lemma encode_no_lf l :
  Forall (fun c => is_linebreak c = false) l -> LF ∉ encode l.
Proof.
  induction 1 as [|c l Hc _ IH]; [apply not_elem_of_nil |].
  unfold encode in *. cbn [flat_map]. rewrite elem_of_app. intros [H'|H']; [| done].
  revert H'. apply encode_cp_no_lf. intros ->. discriminate Hc.
Qed.


Lemma rewind_pending st size : pending (rewind st size) = pending st.
Proof. unfold rewind. by destruct (size <? last_size st). Qed.

Lemma rewind_last_flush st size : last_flush (rewind st size) = last_flush st.
Proof. unfold rewind. by destruct (size <? last_size st). Qed.

(** A poll only ever appends to [pending], and leaves the flush clock. *)
Lemma poll_pending st v :
  exists new, pending (poll st v).1 = pending st ++ new.
Proof.
  destruct v as [|size|content]; simpl.
  - exists []. by rewrite app_nil_r.
  - exists []. rewrite app_nil_r.
    destruct (last_size (rewind st size) <? size); simpl; apply rewind_pending.
  - destruct (last_size _ <? _); simpl.
    + eexists. by rewrite rewind_pending.
    + exists []. by rewrite app_nil_r, rewind_pending.
Qed.

Lemma poll_last_flush st v : last_flush (poll st v).1 = last_flush st.
Proof.
  destruct v as [|size|content]; simpl; [done | |];
    destruct (last_size _ <? _); simpl; apply rewind_last_flush.
Qed.

Lemma poll_raises_unreadable st v :
  (poll st v).2 = true -> exists size, v = Unreadable size.
Proof.
  destruct v as [|size|content]; simpl; [done | by eexists |].
  by destruct (last_size _ <? _).
Qed.

Lemma flush_due_true st now :
  pending st <> [] ->
  flush_due st now = Qle_bool FLUSH_EVERY (fsub now (last_flush st)).
Proof. unfold flush_due. by destruct (pending st). Qed.

(** The three ways an iteration can go. *)
Lemma iteration_cases st now v :
  let st1 := (poll st v).1 in
  let it := iteration st now v in
  ((poll st v).2 = true /\ it = (st1, []))
  \/ ((poll st v).2 = false /\ flush_due st1 now = true /\
      pending it.1 = [] /\
      exists ka, it.2 = EvLines (pending st1) :: ka /\
                 (ka = [] \/ ka = [EvKeepAlive]))
  \/ ((poll st v).2 = false /\ flush_due st1 now = false /\
      pending it.1 = pending st1 /\ last_flush it.1 = last_flush st1 /\
      event_lines it.2 = []).
Proof.
  intros st1 it. subst st1 it. unfold iteration.
  destruct (poll st v) as [st1 raised]. cbn [fst snd].
  destruct raised; [by left | right].
  unfold flush. destruct (flush_due st1 now) eqn:Hd; [left | right];
    unfold keepalive; cbn [last_keepalive];
    destruct (Qle_bool KEEPALIVE_EVERY _); cbn;
    repeat split; eauto.
Qed.

Lemma event_lines_app a b : event_lines (a ++ b) = event_lines a ++ event_lines b.
Proof. unfold event_lines. apply flat_map_app. Qed.

(** Whatever the trace, the first lines a consumer receives are the ones that
    were pending, all of them. *)
Lemma run_lines_prefix trace : forall st,
  event_lines (run st trace) = [] \/
  exists more, event_lines (run st trace) = pending st ++ more.
Proof.
  induction trace as [|[now v] trace IH]; intros st; [by left |].
  cbn [run]. rewrite event_lines_app.
  destruct (poll_pending st v) as [new Hnew].
  destruct (iteration_cases st now v) as
    [[_ Hit] | [(_ & _ & _ & ka & Hev & _) | (_ & _ & Hp & _ & Hev)]].
  - rewrite Hit. cbn [fst snd]. destruct (IH (poll st v).1) as [->|[more ->]]; [by left |].
    right. exists (new ++ more). by rewrite Hnew, <- app_assoc.
  - right. rewrite Hev. cbn. rewrite Hnew, <- !app_assoc. eauto.
  - rewrite Hev. cbn [app]. destruct (IH (iteration st now v).1) as [->|[more ->]]; [by left |].
    right. exists (new ++ more). by rewrite Hp, Hnew, <- app_assoc.
Qed.

Lemma run_flushes_pending trace : forall st,
  pending st <> [] ->
  Exists (can_flush (last_flush st)) trace ->
  exists more, event_lines (run st trace) = pending st ++ more.
Proof.
  induction trace as [|[now v] trace IH]; intros st Hne Hex.
  { by apply Exists_nil in Hex. }
  cbn [run]. rewrite event_lines_app.
  destruct (poll_pending st v) as [new Hnew].
  assert (pending (poll st v).1 <> []) as Hne1.
  { rewrite Hnew. intros E. apply app_eq_nil in E as [? _]. done. }
  pose proof (poll_last_flush st v) as Hlf.
  destruct (iteration_cases st now v) as
    [[Hr Hit] | [(_ & _ & _ & ka & Hev & _) | (_ & Hd & Hp & Hl & Hev)]].
  - apply Exists_cons in Hex as [[_ Hv] | Hex].
    { apply poll_raises_unreadable in Hr as [size ->]. by destruct (Hv size). }
    rewrite Hit. cbn [fst snd app event_lines flat_map].
    destruct (IH (poll st v).1) as [more Hm]; [done | by rewrite Hlf |].
    exists (new ++ more). by rewrite Hm, Hnew, <- app_assoc.
  - rewrite Hev. cbn. rewrite Hnew, <- !app_assoc. eauto.
  - apply Exists_cons in Hex as [[Hdue _] | Hex].
    { rewrite flush_due_true, Hlf in Hd by done. cbn in Hdue. congruence. }
    rewrite Hev. cbn [app].
    destruct (IH (iteration st now v).1) as [more Hm].
    + by rewrite Hp.
    + by rewrite Hl, Hlf.
    + exists (new ++ more). by rewrite Hm, Hp, Hnew, <- app_assoc.
Qed.

Lemma read_chunk_all content :
  read_chunk content 0 (Z.of_nat (length content)) = content.
Proof.
  unfold read_chunk. rewrite Z.sub_0_r, Nat2Z.id. cbn [Z.to_nat drop].
  by rewrite firstn_all.
Qed.

Lemma read_chunk_appended prev app :
  read_chunk (prev ++ app) (Z.of_nat (length prev))
    (Z.of_nat (length (prev ++ app))) = app.
Proof.
  unfold read_chunk. rewrite length_app, Nat2Z.id.
  replace (Z.to_nat _) with (length app) by lia.
  rewrite drop_app_length. by rewrite firstn_all.
Qed.

Lemma poll_appended st prev app :
  last_size st = Z.of_nat (length prev) ->
  poll st (Readable (prev ++ app)) =
    (SState (Z.of_nat (length (prev ++ app)))
       (pending st ++ splitlines (decode_ignore app))
       (last_flush st) (last_keepalive st), false).
Proof.
  intros Hl. cbn [poll]. unfold rewind.
  assert ((Z.of_nat (length (prev ++ app)) <? last_size st) = false) as ->.
  { apply Z.ltb_ge. rewrite length_app. lia. }
  rewrite Hl. destruct (Z.ltb_spec (Z.of_nat (length prev)) (Z.of_nat (length (prev ++ app)))) as [Hlt|Hge].
  - by rewrite read_chunk_appended.
  - rewrite length_app in Hge. assert (app = []) as -> by (destruct app; [done | simpl in Hge; lia]).
    rewrite !app_nil_r. destruct st; simpl in *. by subst.
Qed.

(** One iteration.  When bytes are appended to the log and the flush window
    is open, the iteration that reads them yields one event for the buffered
    lines: on the wire one [data: <line>] frame per logical line, in order,
    closed by a single blank line; no appended line spills over a line end. *)
Lemma flush_one_frame_per_line st now prev app :
  last_size st = Z.of_nat (length prev) ->
  pending st ++ splitlines (decode_ignore app) <> [] ->
  Qle_bool FLUSH_EVERY (fsub now (last_flush st)) = true ->
  exists st' ka,
    iteration st now (Readable (prev ++ app))
      = (st', EvLines (pending st ++ splitlines (decode_ignore app)) :: ka) /\
    (ka = [] \/ ka = [EvKeepAlive]) /\
    pending st' = [] /\
    wire (EvLines (pending st ++ splitlines (decode_ignore app)))
      = flat_map frame (pending st ++ splitlines (decode_ignore app)) ++ [LF] /\
    Forall (fun line => LF ∉ encode line) (splitlines (decode_ignore app)).
Proof.
  intros Hl Hne Hdue.
  pose proof (iteration_cases st now (Readable (prev ++ app))) as Hc.
  rewrite (poll_appended st prev app Hl) in Hc. cbn [fst snd] in Hc.
  destruct Hc as [[? _] | [(_ & _ & Hp & ka & Hev & Hka) | (_ & Hd & _)]]; [done | |].
  - destruct (iteration st now (Readable (prev ++ app))) as [st' evs].
    cbn [fst snd pending] in Hp, Hev. subst evs. exists st', ka.
    split; [done | split; [done | split; [done | split]]].
    + apply payload_frames.
    + eapply Forall_impl; [apply splitlines_no_break |]. apply encode_no_lf.
  - rewrite flush_due_true in Hd by done. cbn in Hd. congruence.
Qed.

(** The burst of the specification: appending "a\nb\n" gives the two frames
    and the blank line. *)
Lemma flush_one_frame_per_line_witness :
  exists st' ka,
    iteration (SState 0 [] 0 0) (1 # 4) (Readable ([] ++ [97; 10; 98; 10]))
      = (st', EvLines ([] ++ splitlines (decode_ignore [97; 10; 98; 10])) :: ka) /\
    wire (EvLines ([] ++ splitlines (decode_ignore [97; 10; 98; 10])))
      = lit "data: a" ++ [LF] ++ lit "data: b" ++ [LF] ++ [LF].
Proof.
  destruct (flush_one_frame_per_line (SState 0 [] 0 0) (1 # 4) [] [97; 10; 98; 10])
    as (st' & ka & Hit & _ & _ & Hw & _); [reflexivity | discriminate | reflexivity |].
  exists st', ka. split; [exact Hit |]. etrans; [exact Hw | reflexivity].
Defined.









(** C7. When the file is found shorter than the offset reached, the offset
    goes back to zero, the poll does not raise, and what it reads is the new
    file from its first byte to its end, nothing else. *)
Theorem truncation_restarts_from_zero st now content :
  Z.of_nat (length content) < last_size st ->
  rewind st (Z.of_nat (length content))
    = SState 0 (pending st) (last_flush st) (last_keepalive st) /\
  read_chunk content 0 (Z.of_nat (length content)) = content /\
  poll st (Readable content) =
    (SState (Z.of_nat (length content))
       (pending st ++ splitlines (decode_ignore content))
       (last_flush st) (last_keepalive st), false) /\
  raises st (Readable content) = false /\
  event_lines (iteration st now (Readable content)).2 =
    (if Qle_bool FLUSH_EVERY (fsub now (last_flush st))
     then pending st ++ splitlines (decode_ignore content) else []).
Proof.
  intros Hlt.
  assert (rewind st (Z.of_nat (length content))
          = SState 0 (pending st) (last_flush st) (last_keepalive st)) as Hrw.
  { unfold rewind.
    destruct (Z.ltb_spec (Z.of_nat (length content)) (last_size st)); [done | lia]. }
  assert (poll st (Readable content) =
    (SState (Z.of_nat (length content))
       (pending st ++ splitlines (decode_ignore content))
       (last_flush st) (last_keepalive st), false)) as Hpoll.
  { cbn [poll]. rewrite Hrw. cbn [last_size pending last_flush last_keepalive].
    destruct (Z.ltb_spec 0 (Z.of_nat (length content))) as [Hpos|Hz].
    - by rewrite read_chunk_all.
    - assert (content = []) as -> by (destruct content; [done | simpl in Hz; lia]).
      simpl. by rewrite app_nil_r. }
  split; [done |]. split; [apply read_chunk_all |]. split; [done |].
  split; [unfold raises; by rewrite Hpoll |].
  pose proof (iteration_cases st now (Readable content)) as Hc.
  rewrite Hpoll in Hc. cbn [fst snd] in Hc.
  destruct Hc as [[? _] | [(_ & Hd & _ & ka & -> & Hka) | (_ & Hd & _ & _ & ->)]]; [done | |].
  - unfold flush_due in Hd. cbn [pending last_flush] in Hd.
    destruct (pending st ++ _) eqn:E; [done |]. rewrite Hd.
    cbn. destruct Hka as [-> | ->]; cbn; by rewrite app_nil_r.
  - unfold flush_due in Hd. cbn [pending last_flush] in Hd.
    destruct (pending st ++ _) eqn:E; [by destruct (Qle_bool _ _) |]. by rewrite Hd.
Qed.

Lemma truncation_restarts_from_zero_witness :
  poll (SState 100 [] 0 0) (Readable [120; 10])
    = (SState 2 ([] ++ splitlines (decode_ignore [120; 10])) 0 0, false).
Proof.
  apply (truncation_restarts_from_zero (SState 100 [] 0 0) 0 [120; 10]).
  simpl. lia.
Defined.

(** C10. A stream opened on a log that already holds lines: the first thing
    yielded is the reset signal, and as soon as one iteration falls in a flush
    window with the file readable, the lines the consumer has received begin
    with every line the file held at the first poll, in file order. *)
Theorem stream_replays_history tf tk now0 content rest :
  splitlines (decode_ignore content) <> [] ->
  Exists (can_flush tf) ((now0, Readable content) :: rest) ->
  head (sse_events tf tk ((now0, Readable content) :: rest)) = Some EvClear /\
  exists more,
    event_lines (sse_events tf tk ((now0, Readable content) :: rest))
      = splitlines (decode_ignore content) ++ more.
Proof.
  intros Hne Hex. split; [done |].
  unfold sse_events. change (event_lines (EvClear :: ?l)) with (event_lines l).
  set (st0 := SState 0 [] tf tk).
  assert (poll st0 (Readable content) =
    (SState (Z.of_nat (length content)) (splitlines (decode_ignore content)) tf tk, false))
    as Hpoll.
  { change content with ([] ++ content) at 1. by rewrite (poll_appended st0 [] content). }
  cbn [run]. rewrite event_lines_app.
  pose proof (iteration_cases st0 now0 (Readable content)) as Hc.
  rewrite Hpoll in Hc. cbn [fst snd] in Hc.
  destruct Hc as [[? _] | [(_ & _ & _ & ka & -> & _) | (_ & Hd & Hp & Hl & ->)]]; [done | |].
  - cbn. rewrite <- app_assoc. eauto.
  - cbn [app pending last_flush] in *.
    apply Exists_cons in Hex as [[Hdue _] | Hex].
    { rewrite flush_due_true in Hd by done. cbn in Hd, Hdue. congruence. }
    destruct (run_flushes_pending rest (iteration st0 now0 (Readable content)).1)
      as [more Hm].
    + by rewrite Hp.
    + by rewrite Hl.
    + exists more. by rewrite Hm, Hp.
Qed.

Lemma stream_replays_history_witness :
  head (sse_events 0 0 [(0 # 1, Readable [120; 10; 121; 10]);
                        (3 # 10, Readable [120; 10; 121; 10])]) = Some EvClear /\
  exists more,
    event_lines (sse_events 0 0 [(0 # 1, Readable [120; 10; 121; 10]);
                                 (3 # 10, Readable [120; 10; 121; 10])])
      = splitlines (decode_ignore [120; 10; 121; 10]) ++ more.
Proof.
  apply (stream_replays_history 0 0 (0 # 1) [120; 10; 121; 10]
           [(3 # 10, Readable [120; 10; 121; 10])]).
  - discriminate.
  - apply Exists_cons_tl, Exists_cons_hd. split; [reflexivity | discriminate].
Defined.

Lemma poll_read_lines st v : pending (poll st v).1 = pending st ++ read_lines st v.
Proof.
  destruct v as [|size|content]; cbn [poll read_lines].
  - by rewrite app_nil_r.
  - rewrite app_nil_r. destruct (last_size _ <? size); cbn; apply rewind_pending.
  - destruct (last_size _ <? _); cbn [fst pending].
    + by rewrite rewind_pending.
    + by rewrite app_nil_r, rewind_pending.
Qed.

(** X6.  Nothing is lost, sent twice or reordered: at every moment the lines
    sent so far followed by the buffer are the lines that were buffered at the
    start followed by every line that was read. *)
Theorem stream_conserves_lines trace : forall st,
  event_lines (run st trace) ++ pending (final_state st trace)
    = pending st ++ lines_read st trace.
Proof.
  induction trace as [|[now v] trace IH]; intros st.
  - cbn. by rewrite app_nil_r.
  - cbn [run final_state lines_read]. rewrite event_lines_app, <- app_assoc, IH.
    rewrite !app_assoc. f_equal. rewrite <- poll_read_lines.
    destruct (iteration_cases st now v) as
      [[_ Hit] | [(_ & _ & Hp & ka & Hev & Hka) | (_ & _ & Hp & _ & Hev)]].
    + by rewrite Hit.
    + rewrite Hev, Hp, app_nil_r. cbn. destruct Hka as [-> | ->]; cbn; by rewrite app_nil_r.
    + by rewrite Hev, Hp.
Qed.

(** The shape of what an iteration yields, and the flush clock it leaves. *)
Lemma iteration_shape st now v :
  let st1 := (poll st v).1 in
  let it := iteration st now v in
  ((poll st v).2 = true /\ it.2 = [] /\ last_flush it.1 = last_flush st)
  \/ ((poll st v).2 = false /\
      (it.2 = [] \/ it.2 = [EvKeepAlive]) /\ last_flush it.1 = last_flush st)
  \/ ((poll st v).2 = false /\
      Qle_bool FLUSH_EVERY (fsub now (last_flush st)) = true /\
      (it.2 = [EvLines (pending st1)] \/ it.2 = [EvLines (pending st1); EvKeepAlive]) /\
      last_flush it.1 = now).
Proof.
  intros st1 it. subst st1 it. unfold iteration.
  pose proof (poll_last_flush st v) as Hlf.
  destruct (poll st v) as [st1 raised]. cbn [fst snd] in *.
  destruct raised; [left; cbn; auto |]. right.
  unfold flush, flush_due. destruct (pending st1) as [|l ls] eqn:Hp.
  - left. unfold keepalive. destruct (Qle_bool KEEPALIVE_EVERY _); cbn; auto.
  - destruct (Qle_bool FLUSH_EVERY _) eqn:Hd; [right | left].
    + rewrite Hlf in Hd. unfold keepalive. cbn [last_keepalive last_flush].
      destruct (Qle_bool KEEPALIVE_EVERY _); cbn; auto.
    + unfold keepalive. destruct (Qle_bool KEEPALIVE_EVERY _); cbn; auto.
Qed.

Lemma flush_times_app a b : flush_times (a ++ b) = flush_times a ++ flush_times b.
Proof. unfold flush_times. apply omap_app. Qed.

(** X7.  The events are those of [run], and between two flushes the float
    difference of the clock readings, as the loop computes it, is never less
    than a quarter of a second, the first one counted from the last flush
    before the run. *)
Theorem flushes_are_spaced trace : forall st,
  map snd (run_timed st trace) = run st trace /\
  spaced FLUSH_EVERY (last_flush st) (flush_times (run_timed st trace)).
Proof.
  induction trace as [|[now v] trace IH]; intros st; [done |].
  cbn [run_timed run]. destruct (IH (iteration st now v).1) as [IH1 IH2].
  split.
  - rewrite map_app, IH1. f_equal. rewrite map_map. cbn. apply map_id.
  - rewrite flush_times_app.
    destruct (iteration_shape st now v) as
      [(_ & -> & Hlf) | [(_ & Hev & Hlf) | (_ & Hdue & Hev & Hlf)]].
    + cbn. by rewrite <- Hlf.
    + rewrite <- Hlf. by destruct Hev as [-> | ->].
    + rewrite Hlf in IH2. by destruct Hev as [-> | ->].
Qed.

(** On a log that is never there the stream carries nothing but keep-alive
    comments, once the buffer is empty. *)
Theorem absent_log_only_keepalives trace : forall st,
  pending st = [] ->
  Forall (fun it => it.2 = Absent) trace ->
  Forall (fun e => e = EvKeepAlive) (run st trace).
Proof.
  intros st Hp Habs. revert st Hp.
  induction Habs as [|[now v] trace Hv _ IH]; intros st Hp; [constructor |].
  cbn in Hv. subst v. cbn [run]. apply Forall_app.
  assert (pending (iteration st now Absent).1 = [] /\
          Forall (fun e => e = EvKeepAlive) (iteration st now Absent).2) as [H1 H2].
  { unfold iteration, poll, flush, flush_due. rewrite Hp. unfold keepalive.
    destruct (Qle_bool KEEPALIVE_EVERY _); cbn; split; auto. }
  split; [exact H2 | by apply IH].
Qed.

Lemma absent_log_only_keepalives_witness :
  Forall (fun e => e = EvKeepAlive)
    (run (SState 0 [] 0 0) [(1 # 1, Absent); (11 # 1, Absent)]).
Proof.
  apply absent_log_only_keepalives; [reflexivity |].
  repeat constructor.
Defined.

Lemma poll_last_keepalive st v : last_keepalive (poll st v).1 = last_keepalive st.
Proof.
  destruct v as [|size|content]; cbn [poll]; [done | |];
    unfold rewind; repeat case_match; done.
Qed.

Lemma keepalive_times_app a b :
  keepalive_times (a ++ b) = keepalive_times a ++ keepalive_times b.
Proof. unfold keepalive_times. apply omap_app. Qed.

(** What an iteration does to the keep-alive clock. *)
Lemma iteration_keepalive st now v :
  let it := iteration st now v in
  (keepalive_times (map (pair now) it.2) = [] /\
     last_keepalive it.1 = last_keepalive st)
  \/ (Qle_bool KEEPALIVE_EVERY (fsub now (last_keepalive st)) = true /\
      keepalive_times (map (pair now) it.2) = [now] /\
      last_keepalive it.1 = now).
Proof.
  intros it. subst it. unfold iteration.
  pose proof (poll_last_keepalive st v) as Hlk.
  destruct (poll st v) as [st1 raised]. cbn [fst snd] in *.
  destruct raised; [left; cbn; auto |].
  unfold flush. destruct (flush_due st1 now); unfold keepalive; cbn [last_keepalive];
    rewrite Hlk; destruct (Qle_bool KEEPALIVE_EVERY _) eqn:Hd; cbn; auto.
Qed.

(** X8.  Between two keep-alive comments the float difference of the clock
    readings, as the loop computes it, is never less than ten seconds, the
    first one counted from the clock reading taken before the loop. *)
Theorem keepalives_are_spaced trace : forall st,
  spaced KEEPALIVE_EVERY (last_keepalive st) (keepalive_times (run_timed st trace)).
Proof.
  induction trace as [|[now v] trace IH]; intros st; [done |].
  cbn [run_timed]. rewrite keepalive_times_app.
  specialize (IH (iteration st now v).1).
  destruct (iteration_keepalive st now v) as [[-> Hlk] | (Hdue & -> & Hlk)].
  - cbn [app]. by rewrite <- Hlk.
  - cbn [app spaced]. split; [done |]. by rewrite Hlk in IH.
Qed.

(** X9.  While the log is there and cannot be opened the stream is silent: the
    exception skips the flush and the keep-alive alike, and the read offset
    stays where it was. *)
Theorem unreadable_log_silences_stream trace : forall st,
  Forall (fun it => exists size, it.2 = Unreadable size /\ last_size st < size) trace ->
  run st trace = [] /\ final_state st trace = st.
Proof.
  induction trace as [|[now v] trace IH]; intros st Hall; [done |].
  apply Forall_cons in Hall as [(size & Hv & Hsz) Hall]. cbn in Hv. subst v.
  assert (iteration st now (Unreadable size) = (st, [])) as Hit.
  { unfold iteration, poll, rewind.
    destruct (Z.ltb_spec size (last_size st)); [lia |].
    destruct (Z.ltb_spec (last_size st) size); [done | lia]. }
  cbn [run final_state]. rewrite Hit. cbn [fst snd app]. by apply IH.
Qed.

Lemma unreadable_log_silences_stream_witness :
  run (SState 0 [[97]] 0 0) [(1 # 1, Unreadable 5); (20 # 1, Unreadable 5)] = [] /\
  final_state (SState 0 [[97]] 0 0) [(1 # 1, Unreadable 5); (20 # 1, Unreadable 5)]
    = SState 0 [[97]] 0 0.
Proof.
  apply unreadable_log_silences_stream.
  repeat (apply Forall_cons_2; [exists 5; split; [reflexivity | cbn; lia] |]).
  apply Forall_nil_2.
Defined.

(** After a poll that could read the file the offset is the file's size. *)
Lemma poll_readable_offset st content :
  last_size (poll st (Readable content)).1 = Z.of_nat (length content).
Proof.
  cbn [poll]. unfold rewind.
  destruct (Z.ltb_spec (Z.of_nat (length content)) (last_size st)); cbn [last_size].
  - destruct (Z.ltb_spec 0 (Z.of_nat (length content))); cbn [fst last_size]; lia.
  - destruct (Z.ltb_spec (last_size st) (Z.of_nat (length content)));
      cbn [fst last_size]; lia.
Qed.

(** X10.  No byte is read twice: once the file has been polled, the next poll of
    the file grown by [app] reads the lines of [app] alone, and nothing when
    the file did not grow. *)
Theorem next_poll_reads_appended st content app :
  let st1 := (poll st (Readable content)).1 in
  read_lines st1 (Readable (content ++ app)) = splitlines (decode_ignore app) /\
  pending (poll st1 (Readable (content ++ app))).1
    = pending st1 ++ splitlines (decode_ignore app).
Proof.
  intros st1. pose proof (poll_readable_offset st content) as Hoff.
  fold st1 in Hoff.
  assert (read_lines st1 (Readable (content ++ app)) = splitlines (decode_ignore app)) as Hr.
  { cbn [read_lines]. unfold rewind. rewrite Hoff.
    destruct (Z.ltb_spec (Z.of_nat (length (content ++ app))) (Z.of_nat (length content)))
      as [Hlt | _]; [rewrite length_app in Hlt; lia |].
    rewrite Hoff.
    destruct (Z.ltb_spec (Z.of_nat (length content)) (Z.of_nat (length (content ++ app))))
      as [_ | Hge].
    - by rewrite read_chunk_appended.
    - rewrite length_app in Hge. destruct app; [done | cbn in Hge; lia]. }
  split; [exact Hr |]. by rewrite poll_read_lines, Hr.
Qed.

End StreamFacts.

Module SysFacts.
Import Sys Scenario.

Ltac munfold :=
  cbv beta iota delta [bind ret raise gets modify try_except getitem] in *.

Lemma bind_ok {A B} (m : M A) (k : A -> M B) w a w' :
  m w = (Ok a, w') -> bind m k w = k a w'.
Proof. intros H. unfold bind. by rewrite H. Qed.

Lemma bind_raise {A B} (m : M A) (k : A -> M B) w e w' :
  m w = (Raise e, w') -> bind m k w = (Raise e, w').
Proof. intros H. unfold bind. by rewrite H. Qed.

Lemma try_ok {A} (m : M A) (h : exn -> M A) w a w' :
  m w = (Ok a, w') -> try_except m h w = (Ok a, w').
Proof. intros H. unfold try_except. by rewrite H. Qed.

Lemma try_raise {A} (m : M A) (h : exn -> M A) w e w' :
  m w = (Raise e, w') -> try_except m h w = h e w'.
Proof. intros H. unfold try_except. by rewrite H. Qed.

(** *** The configuration store and interrupted writes *)

(** Where the live file stands after [k] file operations of a replacement. *)
Lemma interrupted_write_live w old new k :
  config_file w = Some (Json old) ->
  config_file (interrupted_write k new w).2 =
    match k with
    | 0 | 1 | 2 | 3 => Some (Json old)
    | 4 => None
    | _ => Some (Json new)
    end%nat.
Proof.
  intros Hold. unfold interrupted_write, write_sequence.
  do 5 (destruct k as [|k]; [cbn; rewrite ?Hold; cbn; done |]).
  cbn. rewrite Hold. cbn. by rewrite take_nil.
Qed.

Lemma load_config_missing w :
  config_file w = None ->
  exists a, (load_config w).1 = Ok (Config (Some []) (Some a)).
Proof. intros H. unfold load_config. cbn. rewrite H. cbn. eauto. Qed.

(** Every interruption but the one between the two renames leaves the old
    or the new configuration in place. *)
Lemma interrupted_write_old_or_new w old new k :
  config_file w = Some (Json old) -> k <> 4%nat ->
  stored_sites (interrupted_write k new w).2 = Some (sites_of old) \/
  stored_sites (interrupted_write k new w).2 = Some (sites_of new).
Proof.
  intros Hold Hk. unfold stored_sites.
  rewrite (interrupted_write_live w old new k Hold).
  do 5 (destruct k as [|k]; [auto; done |]). auto.
Qed.


(** C5. The old configuration holds [web]; the replacement holds [web] and
    [api].  Killed after the backup rotation and before the final rename, the
    process leaves no live file: the old version sits in the backup, the new
    one in the temporary file, and the next load writes and returns the
    default configuration, whose site list is empty. *)
Theorem crash_between_renames_loses_config :
  let w := (interrupted_write 4 two_sites host_quiet).2 in
  config_file w = None /\
  config_bak w = Some (Json (Config (Some [web]) None)) /\
  config_tmp w = Some (Json two_sites) /\
  (load_config w).1 =
    Ok (Config (Some []) (Some (Auth (Some "admin") (Some "password") None))) /\
  config_file (load_config w).2 = Some (Json DEFAULT_CONFIG).
Proof. repeat split; reflexivity. Qed.

Lemma group_members_self w pid p :
  procs w !! pid = Some p -> group_members (p_pgid p) (procs w) <> ∅.
Proof.
  intros Hp E. unfold group_members in E.
  assert (filter (fun kv : Z * proc => in_group (p_pgid p) kv.2 = true) (procs w) !! pid
          = Some p) as Hin.
  { apply map_lookup_filter_Some. split; [done |]. cbn. unfold in_group. apply Z.eqb_refl. }
  rewrite E in Hin. by rewrite lookup_empty in Hin.
Qed.

Lemma background_stop_parsed w name text pid :
  pid_files w !! name = Some text -> parse_int text = Some pid ->
  background_stop name w =
    try_except
      (let* pgid := os_getpgid pid in
       let* _ := os_killpg_term pgid in
       let* _ := unlink_pid_file name in
       ret ("Stopped " +:+ name +:+ " (pid " +:+ str_of_int pid +:+ ")"))
      (fun e =>
         match e with
         | ProcessLookupError =>
             let* _ := unlink_pid_file name in
             ret ("Process not found. Cleared pid for " +:+ name)
         | _ => ret ("Failed to stop " +:+ name +:+ ": " +:+ exn_str e)
         end) w.
Proof.
  intros Hf Hp. unfold background_stop, read_pid.
  munfold. rewrite Hf. cbn. rewrite Hp. done.
Qed.

(** What [os.getpgid] answers, by the pid. *)
Lemma os_getpgid_cases pid w :
  (~ (INT_MIN <= pid <= INT_MAX) /\
     exists d, os_getpgid pid w = (Raise (OverflowError d), w))
  \/ (pid = 0 /\ os_getpgid pid w = (Ok (own_pgid w), w))
  \/ (INT_MIN <= pid < 0 /\ os_getpgid pid w = (Raise ProcessLookupError, w))
  \/ (0 < pid <= INT_MAX /\ procs w !! pid = None /\
      os_getpgid pid w = (Raise ProcessLookupError, w))
  \/ (0 < pid <= INT_MAX /\
      exists p, procs w !! pid = Some p /\ os_getpgid pid w = (Ok (p_pgid p), w)).
Proof.
  unfold os_getpgid, as_c_int, INT_MIN, INT_MAX, LONG_MIN, LONG_MAX. munfold.
  destruct (Z.ltb_spec pid (- 2 ^ 63)); cbn [orb].
  { left. split; [lia | by eexists]. }
  destruct (Z.ltb_spec (2 ^ 63 - 1) pid).
  { left. split; [lia | by eexists]. }
  destruct (Z.ltb_spec (2 ^ 31 - 1) pid).
  { left. split; [lia | by eexists]. }
  destruct (Z.ltb_spec pid (- 2 ^ 31)).
  { left. split; [lia | by eexists]. }
  right. destruct (Z.eqb_spec pid 0); [by left |].
  right. destruct (Z.ltb_spec pid 0); [left; split; [lia | done] |].
  right. destruct (procs w !! pid) as [p|] eqn:Hp.
  - right. split; [lia |]. by exists p.
  - left. split; [lia | done].
Qed.

(** The group of a process of the table is not empty. *)
Lemma os_getpgid_group pid pgid w :
  os_getpgid pid w = (Ok pgid, w) ->
  pgid = own_pgid w \/ group_members pgid (procs w) <> ∅.
Proof.
  intros H.
  destruct (os_getpgid_cases pid w)
    as [(_ & d & E) | [(_ & E) | [(_ & E) | [(_ & _ & E) | (_ & p & Hp & E)]]]];
    rewrite E in H; try discriminate H; injection H as <-.
  - by left.
  - right. by eapply group_members_self.
Qed.

(** C4, amended.  With a run record that parses, the detached stop ends in
    one of three ways, each with its own message: the group was signalled and
    the record is deleted (the processes are still in the table: the code
    does not wait for them); no such process, and the record is deleted; any
    other failure, a refused signal or a pid that is no C [int], and the
    record is left where it is, nothing else being changed either. *)
Theorem background_stop_outcomes w name text pid :
  pid_files w !! name = Some text ->
  parse_int text = Some pid ->
  (exists pgid,
     os_getpgid pid w = (Ok pgid, w) /\
     (pgid = own_pgid w \/ reachable pgid (procs w) <> ∅) /\
     background_stop name w =
       (Ok ("Stopped " +:+ name +:+ " (pid " +:+ str_of_int pid +:+ ")"),
        set_pid_files (delete name)
          (set_termed (fun t => t ∪ signalled pgid w) w)) /\
     pid_files (background_stop name w).2 !! name = None)
  \/ (os_getpgid pid w = (Raise ProcessLookupError, w) /\
      background_stop name w =
        (Ok ("Process not found. Cleared pid for " +:+ name),
         set_pid_files (delete name) w) /\
      pid_files (background_stop name w).2 !! name = None)
  \/ (exists e,
        (e = PermissionError \/ exists d, e = OverflowError d) /\
        (let* pgid := os_getpgid pid in os_killpg_term pgid) w = (Raise e, w) /\
        background_stop name w =
          (Ok ("Failed to stop " +:+ name +:+ ": " +:+ exn_str e), w) /\
        pid_files (background_stop name w).2 !! name = Some text).
Proof.
  intros Hf Hp. rewrite (background_stop_parsed w name text pid Hf Hp).
  assert (forall pgid, os_getpgid pid w = (Ok pgid, w) ->
            (pgid = own_pgid w \/ reachable pgid (procs w) <> ∅) /\
              os_killpg_term pgid w =
                (Ok tt, set_termed (fun t => t ∪ signalled pgid w) w)
            \/ os_killpg_term pgid w = (Raise PermissionError, w)) as Hkill.
  { intros pgid Hg. unfold os_killpg_term.
    destruct (decide (pgid = own_pgid w)) as [Hown | Hown].
    - rewrite (bool_decide_eq_true_2 _ Hown). cbn [negb andb]. left. by auto.
    - rewrite (bool_decide_eq_false_2 _ Hown). cbn [negb andb].
      destruct (os_getpgid_group pid pgid w Hg) as [? | Hne]; [done |].
      rewrite (bool_decide_eq_false_2 _ Hne).
      destruct (decide (reachable pgid (procs w) = ∅)) as [He | Hr].
      + rewrite (bool_decide_eq_true_2 _ He). by right.
      + rewrite (bool_decide_eq_false_2 _ Hr). left. by auto. }
  destruct (os_getpgid_cases pid w)
    as [(_ & d & E) | [(_ & E) | [(_ & E) | [(_ & _ & E) | (_ & p & _ & E)]]]].
  - right; right. exists (OverflowError d).
    rewrite (try_raise _ _ w (OverflowError d) w) by (by apply bind_raise).
    rewrite (bind_raise _ _ w _ w E). cbn. repeat split; by eauto.
  - destruct (Hkill _ E) as [[Hwhy Hk] | Hk].
    + left. exists (own_pgid w).
      erewrite try_ok
        by (rewrite (bind_ok _ _ w _ w E), (bind_ok _ _ w _ _ Hk); reflexivity).
      cbn. repeat split; try done. apply lookup_delete_eq.
    + right; right. exists PermissionError.
      rewrite (try_raise _ _ w PermissionError w)
        by (rewrite (bind_ok _ _ w _ w E); by apply bind_raise).
      rewrite (bind_ok _ _ w _ w E), Hk. cbn. repeat split; by eauto.
  - right; left.
    rewrite (try_raise _ _ w ProcessLookupError w) by (by apply bind_raise).
    cbn. repeat split; try done. apply lookup_delete_eq.
  - right; left.
    rewrite (try_raise _ _ w ProcessLookupError w) by (by apply bind_raise).
    cbn. repeat split; try done. apply lookup_delete_eq.
  - destruct (Hkill _ E) as [[Hwhy Hk] | Hk].
    + left. exists (p_pgid p).
      erewrite try_ok
        by (rewrite (bind_ok _ _ w _ w E), (bind_ok _ _ w _ _ Hk); reflexivity).
      cbn. repeat split; try done. apply lookup_delete_eq.
    + right; right. exists PermissionError.
      rewrite (try_raise _ _ w PermissionError w)
        by (rewrite (bind_ok _ _ w _ w E); by apply bind_raise).
      rewrite (bind_ok _ _ w _ w E), Hk. cbn. repeat split; by eauto.
Qed.

Lemma background_stop_outcomes_witness :
  let w := set_pid_files (insert "web" "2147483648") host_detached in
  (exists pgid,
     os_getpgid 2147483648 w = (Ok pgid, w) /\
     (pgid = own_pgid w \/ reachable pgid (procs w) <> ∅) /\
     background_stop "web" w =
       (Ok ("Stopped " +:+ "web" +:+ " (pid " +:+ str_of_int 2147483648 +:+ ")"),
        set_pid_files (delete "web")
          (set_termed (fun t => t ∪ signalled pgid w) w)) /\
     pid_files (background_stop "web" w).2 !! "web" = None)
  \/ (os_getpgid 2147483648 w = (Raise ProcessLookupError, w) /\
      background_stop "web" w =
        (Ok ("Process not found. Cleared pid for " +:+ "web"),
         set_pid_files (delete "web") w) /\
      pid_files (background_stop "web" w).2 !! "web" = None)
  \/ (exists e,
        (e = PermissionError \/ exists d, e = OverflowError d) /\
        (let* pgid := os_getpgid 2147483648 in os_killpg_term pgid) w = (Raise e, w) /\
        background_stop "web" w =
          (Ok ("Failed to stop " +:+ "web" +:+ ": " +:+ exn_str e), w) /\
        pid_files (background_stop "web" w).2 !! "web" = Some "2147483648").
Proof.
  intros w.
  apply (background_stop_outcomes w "web" "2147483648" 2147483648); reflexivity.
Defined.

(** The three ways of the amended claim, on three run records of one host:
    process 7 of the table, a pid nobody has, and a pid that is no C [int]. *)
Lemma background_stop_examples :
  (background_stop "web" host_detached).1 = Ok "Stopped web (pid 7)" /\
  pid_files (background_stop "web" host_detached).2 !! "web" = None /\
  procs (background_stop "web" host_detached).2 !! 7
    = Some (Proc 7 true "python3 app.py" "/srv/web") /\
  7 ∈ termed (background_stop "web" host_detached).2 /\
  background_stop "web" (set_pid_files (insert "web" "4242") host_detached)
    = (Ok "Process not found. Cleared pid for web",
       set_pid_files (delete "web")
         (set_pid_files (insert "web" "4242") host_detached)) /\
  background_stop "web" (set_pid_files (insert "web" "2147483648") host_detached)
    = (Ok "Failed to stop web: signed integer is greater than maximum",
       set_pid_files (insert "web" "2147483648") host_detached).
Proof.
  repeat split; first [reflexivity | vm_compute; set_solver].
Qed.

(** The three messages differ whatever the name and the pid. *)
Lemma stop_messages_distinct name pid e :
  let stopped := "Stopped " +:+ name +:+ " (pid " +:+ str_of_int pid +:+ ")" in
  let gone := "Process not found. Cleared pid for " +:+ name in
  let failed := "Failed to stop " +:+ name +:+ ": " +:+ exn_str e in
  stopped <> gone /\ stopped <> failed /\ gone <> failed.
Proof. cbn. repeat split; discriminate. Qed.

(** C4, as stated: the record deleted in all three cases.  On a host where
    the recorded process belongs to someone else the signal is refused, and
    the record is still there after the stop. *)
Lemma background_stop_keeps_record_on_failure :
  ~ stop_always_clears "web" host_foreign.
Proof.
  intros H. specialize (H "7" 7 eq_refl eq_refl). vm_compute in H. discriminate H.
Qed.
Lemma tmux_available_eq w : tmux_available w = (Ok (tmux_installed w), w).
Proof. unfold tmux_available, run_tmux_version. munfold. by destruct (tmux_installed w). Qed.

Lemma tmux_has_session_eq name w :
  tmux_has_session name w =
    (Ok (tmux_installed w && bool_decide (is_Some (sessions w !! name))), w).
Proof.
  unfold tmux_has_session, run_tmux_has_session. munfold.
  destruct (tmux_installed w); [| done].
  destruct (sessions w !! name) eqn:E.
  - by rewrite bool_decide_eq_true_2 by eauto.
  - by rewrite bool_decide_eq_false_2 by (by intros [? ?]).
Qed.

Lemma get_site_eq name w :
  get_site name w =
    (Ok (head (filter (fun s => has_name name s = true) (sites_of (CONFIG w)))), w).
Proof. done. Qed.

Lemma background_running_state name w : (background_running name w).2 = w.
Proof.
  unfold background_running, read_pid, os_kill0. munfold.
  destruct (pid_files w !! name) as [text|]; [| done].
  destruct (parse_int text) as [pid|]; cbn; [| done].
  destruct (procs w !! pid) as [p|]; [| done]. by destruct (p_owned p).
Qed.

Lemma background_running_ok name w :
  exists b, background_running name w = (Ok b, w).
Proof.
  unfold background_running, read_pid, os_kill0. munfold.
  destruct (pid_files w !! name) as [text|]; [| by eexists].
  destruct (parse_int text) as [pid|]; cbn; [| by eexists].
  destruct (procs w !! pid) as [p|]; [| by eexists]. destruct (p_owned p); by eexists.
Qed.

Lemma background_running_true name w :
  (background_running name w).1 = Ok true ->
  exists text, pid_files w !! name = Some text.
Proof.
  unfold background_running. munfold.
  destruct (pid_files w !! name) as [text|]; [by eauto | done].
Qed.

Lemma background_running_congr name w w' :
  pid_files w' = pid_files w -> procs w' = procs w ->
  (background_running name w').1 = (background_running name w).1.
Proof.
  intros Hpf Hpr. unfold background_running, read_pid, os_kill0. munfold.
  rewrite Hpf. destruct (pid_files w !! name) as [text|]; [| done].
  destruct (parse_int text) as [pid|]; cbn; [| done].
  rewrite Hpr. destruct (procs w !! pid) as [p|]; [| done]. by destruct (p_owned p).
Qed.

(** The detached start of a site whose run record names a live process. *)
Lemma background_start_running name cwd cmd logfile w :
  cwd ∉ plain_files w ->
  (background_running name w).1 = Ok true ->
  exists text w',
    pid_files w !! name = Some text /\
    background_start name cwd cmd logfile w =
      (Ok (name +:+ " already running (pid " +:+ strip text +:+ ")"), w') /\
    same_processes w w'.
Proof.
  intros Hcwd Hrun.
  destruct (background_running_true name w Hrun) as [text Htext].
  assert (exists w', mkdir_p cwd w = (Ok tt, w') /\ same_processes w w' /\
                     background_running name w' = background_running name w' /\
                     pid_files w' = pid_files w /\ procs w' = procs w) as (w' & Hmk & Hsame & _ & Hpf & Hpr).
  { unfold mkdir_p. destruct (bool_decide (cwd ∈ dirs w)).
    - exists w. repeat split; done.
    - rewrite bool_decide_eq_false_2 by done. eexists. repeat split; done. }
  assert (background_running name w' = (Ok true, w')) as Hrun'.
  { destruct (background_running_ok name w') as [b Hb].
    pose proof (background_running_congr name w w' Hpf Hpr) as Hc.
    rewrite Hb, Hrun in Hc. cbn in Hc. by rewrite Hb, Hc. }
  exists text, w'. split; [done |]. split; [| done].
  unfold background_start. unfold bind at 1. rewrite Hmk.
  unfold bind at 1. rewrite Hrun'. munfold. by rewrite Hpf, Htext.
Qed.

Lemma action_start_eq name s w :
  (get_site name w).1 = Ok (Some s) ->
  action name "start" w =
    if tmux_installed w then
      if bool_decide (is_Some (sessions w !! name))
      then (Ok (name +:+ " already running in tmux"), w)
      else (let* cwd := getitem "cwd" (s_cwd s) in
            let* cmd := getitem "cmd" (s_cmd s) in
            tmux_start name cwd cmd (site_logfile s)) w
    else (let* cwd := getitem "cwd" (s_cwd s) in
          let* cmd := getitem "cmd" (s_cmd s) in
          background_start name cwd cmd (site_logfile s)) w.
Proof.
  intros Hsite. rewrite get_site_eq in Hsite. cbn [fst] in Hsite.
  injection Hsite as Hsite.
  unfold action, action_during. unfold bind at 1. rewrite get_site_eq, Hsite.
  rewrite bool_decide_eq_true_2 by done.
  unfold bind at 1. rewrite tmux_available_eq.
  destruct (tmux_installed w) eqn:Htm; [| done].
  unfold bind at 1. rewrite tmux_has_session_eq, Htm. cbn [andb].
  by destruct (bool_decide _).
Qed.

(** C6, amended.  A start of a site that is running in the backend the
    selector picks for the call (a session when the multiplexer is there, a
    live run record when it is not) answers "already running" and leaves the
    sessions, the processes and the run records as they were. *)
Theorem start_idempotent_in_selected_backend w name s :
  (get_site name w).1 = Ok (Some s) ->
  running_in_selected name w = true ->
  (tmux_installed w = false ->
     exists cwd cmd, s_cwd s = Some cwd /\ s_cmd s = Some cmd /\ cwd ∉ plain_files w) ->
  exists rest,
    (action name "start" w).1 = Ok (name +:+ " already running" +:+ rest) /\
    same_processes w (action name "start" w).2.
Proof.
  intros Hsite Hrun Hcwd. unfold running_in_selected in Hrun.
  rewrite (action_start_eq name s w Hsite).
  destruct (tmux_installed w) eqn:Htm.
  - rewrite Hrun. exists " in tmux". by repeat split.
  - destruct (Hcwd eq_refl) as (cwd & cmd & -> & -> & Hplain). cbn [getitem].
    unfold bind at 1 3. unfold ret at 1 3. unfold bind at 1 2. unfold ret at 1 2.
    destruct (background_start_running name cwd cmd (site_logfile s) w)
      as (text & w' & _ & -> & Hsame); [done | |].
    + by destruct (background_running name w).1 as [[]|].
    + exists (" (pid " +:+ strip text +:+ ")"). by split.
Qed.

Lemma start_idempotent_in_selected_backend_witness :
  exists rest,
    (action "web" "start" host_detached).1
      = Ok ("web" +:+ " already running" +:+ rest) /\
    same_processes host_detached (action "web" "start" host_detached).2.
Proof.
  apply (start_idempotent_in_selected_backend host_detached "web" web).
  - reflexivity.
  - reflexivity.
  - intros _. exists "/srv/web", "python3 app.py".
    split; [reflexivity |]. split; [reflexivity |]. apply not_elem_of_empty.
Defined.

(** C6, as stated: idempotent whichever backend runs the site.  With the
    multiplexer installed and [web] running detached, a start finds no
    session and opens one next to the running process. *)
Lemma start_duplicates_across_backends :
  ~ start_idempotent_anywhere "web" host_split.
Proof.
  intros H. destruct (H eq_refl) as (rest & Hmsg & _).
  vm_compute in Hmsg. discriminate Hmsg.
Qed.

(** *** The watchdog *)

Lemma for_each_app {A} (pre post : list A) (body : A -> M unit) w :
  for_each (pre ++ post) body w =
    match for_each pre body w with
    | (Ok _, w1) => for_each post body w1
    | (Raise e, w1) => (Raise e, w1)
    end.
Proof.
  revert w. induction pre as [|x pre IH]; intros w; [done |].
  cbn [app for_each]. unfold bind.
  destruct (body x w) as [[[]|e] w1]; [apply IH | done].
Qed.

Lemma watchdog_pass_never_raises w : (watchdog_pass w).1 = Ok tt.
Proof.
  unfold watchdog_pass. munfold.
  by destruct (for_each _ _ w) as [[[]|e] w1].
Qed.

(** When every site is evaluated without an exception the pass has visited
    all of them, in order. *)
Lemma watchdog_pass_complete w w' :
  for_each (sites_of (CONFIG w)) watchdog_visit w = (Ok tt, w') ->
  watchdog_pass w = (Ok tt, w').
Proof. intros H. unfold watchdog_pass. munfold. by rewrite H. Qed.

Lemma tmux_start_raise_state name cwd cmd logfile w e :
  (tmux_start name cwd cmd logfile w).1 = Raise e ->
  (tmux_start name cwd cmd logfile w).2 = w.
Proof.
  unfold tmux_start, path_exists, shell_line, wrap_unbuffered, which_stdbuf,
    run_tmux_new_session. munfold.
  destruct (bool_decide _ || bool_decide _); cbn; [| done].
  destruct (stdbuf_path w) as [[|? ?]|]; cbn;
    destruct (tmux_installed w); cbn; try done;
    destruct (sessions w !! name); cbn; done.
Qed.

Lemma is_running_unfold name w :
  is_running name w =
    if tmux_installed w && bool_decide (is_Some (sessions w !! name))
    then (Ok true, w) else background_running name w.
Proof.
  unfold is_running. unfold bind at 1. rewrite tmux_available_eq.
  unfold bind at 1. destruct (tmux_installed w) eqn:Htm.
  - rewrite tmux_has_session_eq, Htm. cbn [andb]. by destruct (bool_decide _).
  - done.
Qed.

Lemma is_running_eq name w :
  is_running name w = (Ok (running_somewhere name w), w).
Proof.
  unfold running_somewhere. rewrite is_running_unfold.
  destruct (_ && _); [done |].
  by destruct (background_running_ok name w) as [b ->].
Qed.

(** A failed session start is answered by a detached start of the same
    site. *)
Lemma watchdog_visit_falls_back w s name cwd cmd e :
  s_name s = Some name -> s_cwd s = Some cwd -> s_cmd s = Some cmd ->
  s_autostart s || s_autorestart s = true ->
  running_somewhere name w = false ->
  tmux_installed w = true ->
  (tmux_start name cwd cmd (site_logfile s) w).1 = Raise e ->
  watchdog_visit s w =
    (let* _ := background_start name cwd cmd (site_logfile s) in ret tt) w.
Proof.
  intros Hn Hc Hm Hwant Hrun Htm Hraise.
  pose proof (tmux_start_raise_state _ _ _ _ _ _ Hraise) as Hst.
  unfold watchdog_visit. rewrite Hn, Hc, Hm, Hwant. cbn [getitem].
  unfold bind at 1. unfold ret at 1.
  unfold bind at 1. rewrite is_running_eq, Hrun. cbn [andb negb].
  unfold bind at 1. rewrite tmux_available_eq, Htm.
  unfold try_except.
  unfold bind at 1. unfold ret at 1. unfold bind at 1. unfold ret at 1.
  unfold bind at 1.
  destruct (tmux_start name cwd cmd (site_logfile s) w) as [[msg|e'] w'];
    cbn in Hraise, Hst; [done |]. subst w'. done.
Qed.

(** C3, amended.  When the evaluation of a site raises, the pass swallows the
    error and ends there: what was done for the sites before it stays, the
    sites after it are not looked at in this pass, and the pass itself does
    not raise. *)
Theorem watchdog_pass_stops_at_failure w pre s post w1 e w2 :
  sites_of (CONFIG w) = pre ++ s :: post ->
  for_each pre watchdog_visit w = (Ok tt, w1) ->
  watchdog_visit s w1 = (Raise e, w2) ->
  watchdog_pass w = (Ok tt, w2).
Proof.
  intros Hs Hpre Hv. unfold watchdog_pass. munfold.
  rewrite Hs, for_each_app, Hpre. cbn [for_each]. unfold bind. by rewrite Hv.
Qed.

Lemma watchdog_pass_stops_at_failure_witness :
  watchdog_pass host_blocked = (Ok tt, host_blocked).
Proof.
  apply (watchdog_pass_stops_at_failure host_blocked [] web [api] host_blocked
           FileExistsError host_blocked); reflexivity.
Defined.

(** C3, as stated: the sites after a failing one still evaluated.  [web]
    cannot be started, its working directory being a plain file; [api] could
    be, and a pass that isolated the sites would start it; the pass of the
    code leaves it without a process. *)
Lemma watchdog_pass_skips_remaining_sites :
  ~ pass_isolates_failures host_blocked.
Proof. unfold pass_isolates_failures. vm_compute. discriminate. Qed.


(** *** Everything but the store operations leaves the configuration alone *)

Lemma keeps_ret {A} (a : A) : keeps_store (ret a).
Proof. by intros w. Qed.

Lemma keeps_raise {A} e : keeps_store (@raise A e).
Proof. by intros w. Qed.

Lemma keeps_gets {A} (f : world -> A) : keeps_store (gets f).
Proof. by intros w. Qed.

Lemma keeps_bind {A B} (m : M A) (k : A -> M B) :
  keeps_store m -> (forall a, keeps_store (k a)) -> keeps_store (bind m k).
Proof.
  intros Hm Hk w. unfold bind. specialize (Hm w).
  destruct (m w) as [[a|e] w1]; cbn in *; [| done].
  destruct (Hk a w1) as [-> ->]. done.
Qed.

Lemma keeps_try {A} (m : M A) (h : exn -> M A) :
  keeps_store m -> (forall e, keeps_store (h e)) -> keeps_store (try_except m h).
Proof.
  intros Hm Hh w. unfold try_except. specialize (Hm w).
  destruct (m w) as [[a|e] w1]; cbn in *; [done |].
  destruct (Hh e w1) as [-> ->]. done.
Qed.

Ltac keeps_prim :=
  intros w; cbv beta delta [path_exists mkdir_p run_tmux_version
    run_tmux_has_session run_tmux_new_session run_tmux_kill_session popen
    os_kill0 os_getpgid os_killpg_term unlink_pid_file which_stdbuf read_pid
    gets modify ret raise getitem];
  repeat case_match; done.

Lemma keeps_path_exists p : keeps_store (path_exists p).
Proof. keeps_prim. Qed.
Lemma keeps_mkdir_p p : keeps_store (mkdir_p p).
Proof. keeps_prim. Qed.
Lemma keeps_run_tmux_version : keeps_store run_tmux_version.
Proof. keeps_prim. Qed.
Lemma keeps_run_tmux_has_session n : keeps_store (run_tmux_has_session n).
Proof. keeps_prim. Qed.
Lemma keeps_run_tmux_new_session n c f : keeps_store (run_tmux_new_session n c f).
Proof. keeps_prim. Qed.
Lemma keeps_run_tmux_kill_session n : keeps_store (run_tmux_kill_session n).
Proof. keeps_prim. Qed.
Lemma keeps_popen f c : keeps_store (popen f c).
Proof. keeps_prim. Qed.
Lemma keeps_os_kill0 p : keeps_store (os_kill0 p).
Proof. keeps_prim. Qed.
Lemma keeps_os_getpgid p : keeps_store (os_getpgid p).
Proof.
  intros w.
  destruct (os_getpgid_cases p w)
    as [(_ & d & E) | [(_ & E) | [(_ & E) | [(_ & _ & E) | (_ & q & _ & E)]]]];
    by rewrite E.
Qed.
Lemma keeps_os_killpg_term p : keeps_store (os_killpg_term p).
Proof. intros w. unfold os_killpg_term. cbv zeta. repeat case_match; done. Qed.
Lemma keeps_unlink_pid_file n : keeps_store (unlink_pid_file n).
Proof. keeps_prim. Qed.
Lemma keeps_which_stdbuf : keeps_store which_stdbuf.
Proof. keeps_prim. Qed.
Lemma keeps_read_pid t : keeps_store (read_pid t).
Proof. keeps_prim. Qed.
Lemma keeps_getitem k v : keeps_store (getitem k v).
Proof. keeps_prim. Qed.
Lemma keeps_set_pid_files f : keeps_store (modify (set_pid_files f)).
Proof. keeps_prim. Qed.

Create HintDb keeps.
#[local] Hint Resolve keeps_path_exists keeps_mkdir_p keeps_run_tmux_version
  keeps_run_tmux_has_session keeps_run_tmux_new_session
  keeps_run_tmux_kill_session keeps_popen keeps_os_kill0 keeps_os_getpgid
  keeps_os_killpg_term keeps_unlink_pid_file keeps_which_stdbuf keeps_read_pid
  keeps_getitem keeps_set_pid_files : keeps.

Ltac keeps :=
  repeat first
    [ apply keeps_ret | apply keeps_raise | apply keeps_gets
    | solve [auto with keeps]
    | apply keeps_bind; [| intros ?]
    | apply keeps_try; [| intros ?]
    | match goal with
      | |- keeps_store (if ?b then _ else _) => destruct b
      | |- keeps_store (match ?x with _ => _ end) => destruct x
      end ].

Lemma keeps_tmux_available : keeps_store tmux_available.
Proof. unfold tmux_available. keeps. Qed.
Lemma keeps_tmux_has_session n : keeps_store (tmux_has_session n).
Proof. unfold tmux_has_session. keeps. Qed.
Lemma keeps_shell_line c l : keeps_store (shell_line c l).
Proof. unfold shell_line, wrap_unbuffered. keeps. Qed.
#[local] Hint Resolve keeps_tmux_available keeps_tmux_has_session keeps_shell_line : keeps.

Lemma keeps_tmux_start n c m l : keeps_store (tmux_start n c m l).
Proof. unfold tmux_start. keeps. Qed.
Lemma keeps_tmux_stop n : keeps_store (tmux_stop n).
Proof. unfold tmux_stop. keeps. Qed.
Lemma keeps_background_running n : keeps_store (background_running n).
Proof. unfold background_running. keeps. Qed.
#[local] Hint Resolve keeps_tmux_start keeps_tmux_stop keeps_background_running : keeps.

Lemma keeps_background_start n c m l : keeps_store (background_start n c m l).
Proof. unfold background_start. keeps. Qed.
Lemma keeps_background_stop n : keeps_store (background_stop n).
Proof. unfold background_stop. keeps. Qed.
#[local] Hint Resolve keeps_background_start keeps_background_stop : keeps.

Lemma keeps_stop_either n : keeps_store (stop_either n).
Proof. unfold stop_either. keeps. Qed.
Lemma keeps_get_site n : keeps_store (get_site n).
Proof. unfold get_site. keeps. Qed.
#[local] Hint Resolve keeps_stop_either keeps_get_site : keeps.


Lemma stored_sites_keeps {A} (m : M A) w :
  keeps_store m -> stored_sites (m w).2 = stored_sites w.
Proof. intros H. unfold stored_sites. by destruct (H w) as [-> _]. Qed.

(** What a load returns and does to the files. *)
Lemma load_config_spec w :
  match config_file w with
  | None =>
      exists a w', load_config w = (Ok (Config (Some []) (Some a)), w') /\
                   config_file w' = Some (Json DEFAULT_CONFIG) /\
                   CONFIG w' = CONFIG w
  | Some (Json c) =>
      exists a, load_config w = (Ok (Config (cfg_sites c) (Some a)), w)
  | Some Garbled => load_config w = (Raise JSONDecodeError, w)
  end.
Proof.
  unfold load_config, _apply_env_overrides. munfold.
  destruct (config_file w) as [[c|]|] eqn:E; cbn; rewrite ?E; eauto.
Qed.

Lemma atomic_write_config_spec cfg w :
  exists w', atomic_write_config cfg w = (Ok tt, w') /\
             config_file w' = Some (Json cfg) /\ CONFIG w' = CONFIG w.
Proof.
  unfold atomic_write_config, write_sequence. cbn. munfold.
  destruct (config_file w); cbn; eauto.
Qed.

Lemma assign_config_spec c w :
  config_file w = Some (Json c) ->
  exists a w', assign_config w = (Ok tt, w') /\
               config_file w' = Some (Json c) /\
               CONFIG w' = Config (cfg_sites c) (Some a).
Proof.
  intros Hc. unfold assign_config. unfold bind.
  pose proof (load_config_spec w) as Hl. rewrite Hc in Hl.
  destruct Hl as [a ->]. cbn. eauto.
Qed.

(** Writing [cfg] and reloading: the file and the memory agree on its
    sites. *)
Lemma persist_spec cfg w :
  exists a w', (let* _ := atomic_write_config cfg in assign_config) w = (Ok tt, w') /\
               config_file w' = Some (Json cfg) /\
               CONFIG w' = Config (cfg_sites cfg) (Some a).
Proof.
  unfold bind. destruct (atomic_write_config_spec cfg w) as (w1 & -> & Hf & _).
  destruct (assign_config_spec cfg w1 Hf) as (a & w2 & -> & ? & ?). eauto.
Qed.

Lemma background_stop_ok name w :
  exists msg w', background_stop name w = (Ok msg, w').
Proof.
  destruct (pid_files w !! name) as [text|] eqn:Hf.
  - destruct (parse_int text) as [pid|] eqn:Hp.
    + rewrite (background_stop_parsed w name text pid Hf Hp). unfold try_except.
      match goal with |- context [bind ?m ?k w] => destruct (bind m k w) as [[msg|e] w1] end;
        [by eauto |].
      unfold unlink_pid_file. munfold. destruct e; by eauto.
    + unfold background_stop, read_pid, unlink_pid_file. munfold.
      rewrite Hf. cbn. rewrite Hp. by eauto.
  - unfold background_stop. munfold. rewrite Hf. by eauto.
Qed.

Lemma tmux_stop_ok name w :
  exists msg w', tmux_stop name w = (Ok msg, w').
Proof.
  unfold tmux_stop. unfold bind at 1. rewrite tmux_has_session_eq.
  destruct (tmux_installed w) eqn:Htm; cbn [andb]; [| by eauto].
  destruct (bool_decide _) eqn:Hs; [| by eauto].
  apply bool_decide_eq_true_1 in Hs as [x Hx].
  unfold run_tmux_kill_session. munfold. rewrite Htm, Hx. by eauto.
Qed.

Lemma stop_either_ok name w :
  exists msg w', stop_either name w = (Ok msg, w').
Proof.
  unfold stop_either. unfold bind at 1. rewrite tmux_available_eq.
  unfold bind at 1. destruct (tmux_installed w) eqn:Htm.
  - rewrite tmux_has_session_eq. destruct (_ && _).
    + apply tmux_stop_ok.
    + apply background_stop_ok.
  - cbn. apply background_stop_ok.
Qed.

(** After the stop, a delete is a load, a filter on the name and a write. *)
Lemma delete_site_found name s c w :
  head (filter (fun s => has_name name s = true) (sites_of (CONFIG w))) = Some s ->
  config_file w = Some (Json c) ->
  stored_sites (delete_site name w).2 = Some (filter (fun s => s_name s <> Some name) (sites_of c)).
Proof.
  intros Hs Hc. unfold delete_site. unfold bind at 1. rewrite get_site_eq, Hs.
  unfold bind at 1.
  destruct (stop_either_ok name w) as (msg & w1 & Hstop). rewrite Hstop.
  destruct (keeps_stop_either name w) as [Hf1 _]. rewrite Hstop in Hf1. cbn in Hf1.
  unfold bind at 1. pose proof (load_config_spec w1) as Hl.
  rewrite Hf1, Hc in Hl. destruct Hl as [a ->].
  unfold bind at 1.
  destruct (atomic_write_config_spec
              (Config (Some (filter (fun s => s_name s <> Some name) (sites_of (Config (cfg_sites c) (Some a)))))
                 (cfg_auth (Config (cfg_sites c) (Some a)))) w1)
    as (w2 & -> & Hf2 & _).
  unfold bind at 1.
  destruct (assign_config_spec _ w2 Hf2) as (a' & w3 & -> & Hf3 & _).
  unfold bind at 1. unfold try_except, unlink_pid_file, modify, ret. cbn.
  unfold stored_sites. cbn. by rewrite Hf3.
Qed.

(** Whatever the state, a delete leaves the stored list alone or takes the
    sites of that name out of it. *)
Lemma delete_site_store name w :
  stored_sites (delete_site name w).2 = stored_sites w \/
  exists l, stored_sites w = Some l /\
            stored_sites (delete_site name w).2 = Some (filter (fun s => s_name s <> Some name) l).
Proof.
  destruct (head (filter (fun s => has_name name s = true) (sites_of (CONFIG w))))
    as [s|] eqn:Hs.
  - destruct (config_file w) as [[c|]|] eqn:Hc.
    + right. exists (sites_of c). split; [by unfold stored_sites; rewrite Hc |].
      by eapply delete_site_found.
    + left. unfold delete_site. unfold bind at 1. rewrite get_site_eq, Hs.
      unfold bind at 1.
      destruct (stop_either_ok name w) as (msg & w1 & Hstop). rewrite Hstop.
      destruct (keeps_stop_either name w) as [Hf1 _]. rewrite Hstop in Hf1. cbn in Hf1.
      unfold bind at 1. pose proof (load_config_spec w1) as Hl.
      rewrite Hf1, Hc in Hl. rewrite Hl. unfold stored_sites. cbn. by rewrite Hf1.
    + left. unfold delete_site. unfold bind at 1. rewrite get_site_eq, Hs.
      unfold bind at 1.
      destruct (stop_either_ok name w) as (msg & w1 & Hstop). rewrite Hstop.
      destruct (keeps_stop_either name w) as [Hf1 _]. rewrite Hstop in Hf1. cbn in Hf1.
      unfold bind at 1. pose proof (load_config_spec w1) as Hl.
      rewrite Hf1, Hc in Hl. destruct Hl as (a & w1' & -> & Hf1' & _).
      unfold bind at 1.
      destruct (atomic_write_config_spec
                  (Config (Some (filter (fun s => s_name s <> Some name) (sites_of (Config (Some []) (Some a)))))
                     (cfg_auth (Config (Some []) (Some a)))) w1')
        as (w2 & -> & Hf2 & _).
      unfold bind at 1.
      destruct (assign_config_spec _ w2 Hf2) as (a' & w3 & -> & Hf3 & _).
      unfold bind at 1. unfold try_except, unlink_pid_file, modify, ret. cbn.
      unfold stored_sites. cbn. by rewrite Hf3, Hc.
  - left. unfold delete_site. unfold bind at 1. by rewrite get_site_eq, Hs.
Qed.

(** An add either changes nothing in the store or appends one site of the
    given name to the list, in the file and in memory alike. *)
Lemma add_site_store name cwd cmd port log autostart autorestart start_after_add w :
  let r := add_site name cwd cmd port log autostart autorestart start_after_add w in
  stored_sites r.2 = stored_sites w \/
  exists l new a,
    stored_sites w = Some l /\ s_name new = Some name /\
    config_file r.2 = Some (Json (Config (Some (l ++ [new])) a)) /\
    sites_of (CONFIG r.2) = l ++ [new].
Proof.
  intros r. assert (r = add_site name cwd cmd port log autostart autorestart
                          start_after_add w) as Hr by done.
  clearbody r. unfold add_site in Hr.
  destruct (negb (name_ok name)); [subst r; by left |].
  unfold bind at 1 in Hr. rewrite get_site_eq in Hr.
  destruct (bool_decide (is_Some _)); [subst r; by left |].
  unfold bind at 1 in Hr. unfold path_exists at 1, gets at 1 in Hr.
  destruct (bool_decide (cwd = "") || negb _); [subst r; by left |].
  destruct (bool_decide (cmd = "")); [subst r; by left |].
  unfold bind at 1 in Hr.
  assert ((if truthy port
           then let* p := read_pid (default "" port) in ret (Some p)
           else ret None) w = (Raise ValueError, w) \/
          exists p_int,
            (if truthy port
             then let* p := read_pid (default "" port) in ret (Some p)
             else ret None) w = (Ok p_int, w)) as [Hp | [p_int Hp]].
  { destruct (truthy port); [| by eauto].
    unfold read_pid. munfold. destruct (parse_int _); cbn; by eauto. }
  { rewrite Hp in Hr. subst r. by left. }
  rewrite Hp in Hr. clear Hp.
  unfold bind at 1 in Hr. pose proof (load_config_spec w) as Hl.
  set (new := Site (Some name) (Some cwd) (Some cmd) p_int
                (Some (if bool_decide (log = "") then "activity.log" else log))
                (is_true autostart) (is_true autorestart)) in *.
  assert (forall cfg0 w1 l,
            config_file w1 = config_file w1 ->
            sites_of cfg0 = l ->
            r = (let* _ := atomic_write_config
                             (Config (Some (sites_of cfg0 ++ [new])) (cfg_auth cfg0)) in
                 let* _ := assign_config in
                 let* _ := (if is_true start_after_add then
                              let* found := get_site name in
                              match found with
                              | None => raise AttributeError
                              | Some s =>
                                  let logfile := site_logfile s in
                                  let* tmux := tmux_available in
                                  if tmux then
                                    let* has := tmux_has_session name in
                                    if has then ret tt
                                    else let* _ := tmux_start name cwd cmd logfile in ret tt
                                  else let* _ := background_start name cwd cmd logfile in ret tt
                              end
                            else ret tt) in
                 ret ("Added site " +:+ name +:+
                      (if is_true start_after_add then " and started" else ""))) w1 ->
            config_file r.2 = Some (Json (Config (Some (l ++ [new])) (cfg_auth cfg0))) /\
            sites_of (CONFIG r.2) = l ++ [new]) as Htail.
  { intros cfg0 w1 l _ Hsites Hr1. rewrite Hsites in Hr1.
    unfold bind at 1 in Hr1.
    destruct (atomic_write_config_spec
                (Config (Some (l ++ [new])) (cfg_auth cfg0)) w1) as (w2 & Hw & Hf2 & _).
    rewrite Hw in Hr1.
    unfold bind at 1 in Hr1.
    destruct (assign_config_spec _ w2 Hf2) as (a' & w3 & Ha & Hf3 & HC3).
    rewrite Ha in Hr1.
    match type of Hr1 with
    | r = bind ?m ?k w3 => assert (keeps_store (bind m k)) as Hk; [keeps |]
    end.
    destruct (Hk w3) as [Hk1 Hk2]. rewrite <- Hr1 in Hk1, Hk2.
    by rewrite Hk1, Hk2, Hf3, HC3. }
  destruct (config_file w) as [[c|]|] eqn:Hc.
  - destruct Hl as [a Hl]. rewrite Hl in Hr. right.
    exists (sites_of c), new, (Some a). split; [by unfold stored_sites; rewrite Hc |].
    split; [done |]. by apply (Htail (Config (cfg_sites c) (Some a)) w (sites_of c)).
  - rewrite Hl in Hr. subst r. left. done.
  - destruct Hl as (a & w1 & Hl & Hf1 & _). rewrite Hl in Hr. right.
    exists [], new, (Some a). split; [by unfold stored_sites; rewrite Hc |].
    split; [done |]. by apply (Htail (Config (Some []) (Some a)) w1 []).
Qed.

Lemma filter_other_than_id name (l : list site) :
  Forall (fun s => s_name s <> Some name) l ->
  filter (fun s => s_name s <> Some name) l = l.
Proof.
  induction 1 as [|s l Hs _ IH]; [done |].
  rewrite filter_cons. destruct (decide (s_name s <> Some name)); [by f_equal | done].
Qed.

Lemma filter_has_name_absent name (l : list site) :
  Forall (fun s => s_name s <> Some name) l ->
  filter (fun s => has_name name s = true) l = [].
Proof.
  induction 1 as [|s l Hs _ IH]; [done |].
  rewrite filter_cons. destruct (decide (has_name name s = true)) as [E|_]; [| done].
  unfold has_name in E. by apply bool_decide_eq_true_1 in E.
Qed.

(** The name test of the code accepts only names the specification calls
    valid. *)
Lemma name_ok_valid name : name_ok name = true -> valid_name name.
Proof.
  unfold name_ok, valid_name. intros H. apply andb_true_iff in H as [H1 H2].
  apply negb_true_iff in H1, H2. apply bool_decide_eq_false_1 in H1.
  split; [done |]. clear H1. induction name as [|a name IH]; [done |].
  cbn in *. apply orb_false_iff in H2 as [Ha Hn]. rewrite (IH Hn), orb_false_r.
  unfold forbidden_char in Ha. unfold spec_forbidden_char.
  repeat (apply orb_false_iff in Ha as [Ha ?]). by repeat (apply orb_false_iff; split).
Qed.

(** C8. For a valid name that the stored list does not hold, an add followed
    by a delete of that name leaves the stored site list as it was, whatever
    the other fields of the form and whatever the add and the delete
    answered. *)
Theorem add_then_delete_restores
  name cwd cmd port log autostart autorestart start_after_add w :
  valid_name name ->
  (forall l, stored_sites w = Some l -> Forall (fun s => s_name s <> Some name) l) ->
  stored_sites
    (delete_site name
       (add_site name cwd cmd port log autostart autorestart start_after_add w).2).2
  = stored_sites w.
Proof.
  intros _ Habsent.
  destruct (add_site_store name cwd cmd port log autostart autorestart
              start_after_add w) as [Hsame | (l & new & a & Hl & Hnew & Hf & HC)].
  - destruct (delete_site_store name
                (add_site name cwd cmd port log autostart autorestart
                   start_after_add w).2) as [-> | (l & Hl & ->)]; [done |].
    rewrite Hsame in Hl. rewrite Hl. f_equal.
    apply filter_other_than_id. by apply Habsent.
  - specialize (Habsent l Hl).
    rewrite (delete_site_found name new (Config (Some (l ++ [new])) a)).
    + rewrite Hl. f_equal. cbn. rewrite filter_app, filter_other_than_id by done.
      rewrite filter_cons. destruct (decide (s_name new <> Some name)); [done |].
      by rewrite filter_nil, app_nil_r.
    + rewrite HC, filter_app, filter_has_name_absent by done.
      rewrite filter_cons. destruct (decide (has_name name new = true)) as [|Hn]; [done |].
      exfalso. apply Hn. unfold has_name. by apply bool_decide_eq_true_2.
    + done.
Qed.

Lemma add_then_delete_restores_witness :
  stored_sites
    (delete_site "blog"
       (add_site "blog" "/srv/api" "hugo serve" None "" "false" "false" "true"
          host_quiet).2).2
  = stored_sites host_quiet.
Proof.
  apply (add_then_delete_restores "blog" "/srv/api" "hugo serve" None ""
           "false" "false" "true" host_quiet).
  - split; [discriminate | reflexivity].
  - intros l Hl. injection Hl as <-. repeat constructor. discriminate.
Defined.

(** In between, the site is in the store, and running. *)
Example add_site_example :
  let r := add_site "blog" "/srv/api" "hugo serve" None "" "false" "false" "true"
             host_quiet in
  r.1 = Ok "Added site blog and started" /\
  (s_name <$> default [] (stored_sites r.2)) = [Some "web"; Some "blog"] /\
  running_somewhere "blog" r.2 = true.
Proof. repeat split; reflexivity. Qed.


(** *** The run record: what is written is what is read *)

Lemma rev_app_rev_app s1 : forall s2 s3,
  String.rev_app (String.rev_app s1 s2) s3 = String.rev_app s2 (s1 +:+ s3).
Proof.
  induction s1 as [|a s1 IH]; intros s2 s3; [done |].
  cbn [String.rev_app]. by rewrite IH.
Qed.

Lemma append_empty_r s : s +:+ "" = s.
Proof.
  induction s as [|a s IH]; [done |].
  change (String a s +:+ "") with (String a (s +:+ "")). by rewrite IH.
Qed.

Lemma string_rev_rev s : String.rev (String.rev s) = s.
Proof. unfold String.rev. rewrite rev_app_rev_app. cbn. apply append_empty_r. Qed.

Lemma no_space_rev_app s1 : forall s2,
  Forall (fun a => is_space a = false) (String.list_ascii_of_string s1) ->
  Forall (fun a => is_space a = false) (String.list_ascii_of_string s2) ->
  Forall (fun a => is_space a = false)
    (String.list_ascii_of_string (String.rev_app s1 s2)).
Proof.
  induction s1 as [|a s1 IH]; intros s2 H1 H2; [done |].
  cbn in H1. apply Forall_cons in H1 as [Ha H1].
  cbn [String.rev_app]. apply IH; [done |]. cbn. by apply Forall_cons_2.
Qed.

Lemma lstrip_no_space s :
  Forall (fun a => is_space a = false) (String.list_ascii_of_string s) -> lstrip s = s.
Proof.
  destruct s as [|a s]; [done |]. cbn. intros H.
  apply Forall_cons in H as [-> _]. done.
Qed.

Lemma strip_no_space s :
  Forall (fun a => is_space a = false) (String.list_ascii_of_string s) -> strip s = s.
Proof.
  intros H. unfold strip. rewrite (lstrip_no_space s H).
  rewrite lstrip_no_space; [apply string_rev_rev |].
  apply no_space_rev_app; [done | constructor].
Qed.

Lemma digits_no_space d :
  Forall (fun a => is_space a = false)
    (String.list_ascii_of_string (NilEmpty.string_of_uint d)).
Proof. induction d; cbn; [constructor | ..]; by apply Forall_cons_2. Qed.

Lemma ungroup_digits d : forall b,
  ungroup b (NilEmpty.string_of_uint d) = Some (NilEmpty.string_of_uint d).
Proof.
  induction d; intros b; cbn [NilEmpty.string_of_uint ungroup]; [done | ..];
    (change (Ascii.eqb _ (Ascii.ascii_of_nat 95)) with false; cbn iota;
     by rewrite IHd).
Qed.

Lemma unsigned_digits d :
  d <> Decimal.Nil ->
  match NilEmpty.string_of_uint d with
  | String a r =>
      if Ascii.eqb a (Ascii.ascii_of_nat 45) then (true, r)
      else if Ascii.eqb a (Ascii.ascii_of_nat 43) then (false, r)
      else (false, NilEmpty.string_of_uint d)
  | EmptyString => (false, NilEmpty.string_of_uint d)
  end = (false, NilEmpty.string_of_uint d).
Proof. destruct d; done. Qed.

(** [int(str(z))] is [z]. *)
Lemma parse_int_str_of_int z : parse_int (str_of_int z) = Some z.
Proof.
  unfold parse_int, str_of_int.
  destruct z as [|p|p]; [done | |]; cbn [Z.to_int NilEmpty.string_of_int]; cbv zeta.
  - rewrite strip_no_space by apply digits_no_space.
    pose proof (DecimalPos.Unsigned.to_uint_nonnil p) as Hnn.
    pose proof (DecimalPos.Unsigned.of_to p) as Hof.
    rewrite (unsigned_digits _ Hnn), ungroup_digits, NilEmpty.usu.
    destruct (Pos.to_uint p) eqn:E; [done | ..]; unfold Z.of_uint; by rewrite Hof.
  - rewrite strip_no_space
      by (cbn; apply Forall_cons_2; [done | apply digits_no_space]).
    change (Ascii.eqb _ (Ascii.ascii_of_nat 45)) with true. cbn iota.
    pose proof (DecimalPos.Unsigned.to_uint_nonnil p) as Hnn.
    pose proof (DecimalPos.Unsigned.of_to p) as Hof.
    rewrite ungroup_digits, NilEmpty.usu.
    destruct (Pos.to_uint p) eqn:E; [done | ..]; unfold Z.of_uint; by rewrite Hof.
Qed.



(** *** A detached start, and what follows it *)

Lemma shell_line_ok cmd logfile w : exists full, shell_line cmd logfile w = (Ok full, w).
Proof.
  unfold shell_line, wrap_unbuffered, which_stdbuf. munfold.
  destruct (stdbuf_path w) as [[|a p]|]; by eexists.
Qed.

(** The detached start of a site that is not running: the world it leaves. *)
Lemma background_start_fresh name cwd cmd logfile w :
  cwd ∈ dirs w \/ cwd ∉ plain_files w ->
  (background_running name w).1 = Ok false ->
  exists full w',
    background_start name cwd cmd logfile w =
      (Ok ("Started " +:+ name +:+ " (pid " +:+ str_of_int (next_pid w) +:+ ")"), w') /\
    pid_files w' = <[name := str_of_int (next_pid w)]> (pid_files w) /\
    procs w' = <[next_pid w := Proc (next_pid w) true full cwd]> (procs w) /\
    cwd ∈ dirs w' /\ next_pid w' = next_pid w + 1 /\
    sessions w' = sessions w /\ tmux_installed w' = tmux_installed w /\
    config_file w' = config_file w /\ CONFIG w' = CONFIG w.
Proof.
  intros Hcwd Hrun.
  assert (exists w1, mkdir_p cwd w = (Ok tt, w1) /\ cwd ∈ dirs w1 /\
            pid_files w1 = pid_files w /\ procs w1 = procs w /\
            next_pid w1 = next_pid w /\ sessions w1 = sessions w /\
            tmux_installed w1 = tmux_installed w /\
            config_file w1 = config_file w /\ CONFIG w1 = CONFIG w)
    as (w1 & Hmk & Hd & Hpf & Hpr & Hnp & Hse & Hti & Hcf & Hcg).
  { unfold mkdir_p. destruct (decide (cwd ∈ dirs w)) as [Hin | Hout].
    - rewrite bool_decide_eq_true_2 by done. exists w. repeat split; done.
    - destruct Hcwd as [? | Hcwd]; [done |].
      rewrite bool_decide_eq_false_2 by done. rewrite bool_decide_eq_false_2 by done.
      eexists. split; [done |]. cbn. repeat split; try done. set_solver. }
  assert (background_running name w1 = (Ok false, w1)) as Hrun1.
  { destruct (background_running_ok name w1) as [b Hb].
    pose proof (background_running_congr name w w1 Hpf Hpr) as Hc.
    rewrite Hb, Hrun in Hc. cbn in Hc. by rewrite Hb, Hc. }
  destruct (shell_line_ok cmd logfile w1) as [full Hfull].
  exists full. eexists. split.
  - unfold background_start. unfold bind at 1. rewrite Hmk.
    unfold bind at 1. rewrite Hrun1. unfold bind at 1. rewrite Hfull.
    unfold popen. munfold. rewrite bool_decide_eq_true_2 by done.
    rewrite Hnp. reflexivity.
  - cbn. rewrite Hpf, Hpr. repeat split; done.
Qed.

(** X12.  A site started detached is running: the start answers with the new pid,
    and [background_running] then says yes. *)
Theorem background_start_then_running name cwd cmd logfile w :
  cwd ∉ plain_files w ->
  (background_running name w).1 = Ok false ->
  let r := background_start name cwd cmd logfile w in
  r.1 = Ok ("Started " +:+ name +:+ " (pid " +:+ str_of_int (next_pid w) +:+ ")") /\
  background_running name r.2 = (Ok true, r.2) /\
  cwd ∈ dirs r.2.
Proof.
  intros Hcwd Hrun r.
  destruct (background_start_fresh name cwd cmd logfile w (or_intror Hcwd) Hrun)
    as (full & w' & Hst & Hpf & Hpr & Hd & _).
  subst r. rewrite Hst. cbn [fst snd]. split; [done |]. split; [| done].
  unfold background_running, read_pid, os_kill0. munfold.
  rewrite Hpf, lookup_insert_eq. cbn. rewrite parse_int_str_of_int. cbn.
  by rewrite Hpr, lookup_insert_eq.
Qed.

Lemma background_start_then_running_witness :
  let r := background_start "web" "/srv/web" "python3 app.py" "/srv/web/activity.log"
             host_quiet in
  r.1 = Ok ("Started " +:+ "web" +:+ " (pid " +:+ str_of_int (next_pid host_quiet) +:+ ")") /\
  background_running "web" r.2 = (Ok true, r.2) /\
  "/srv/web" ∈ dirs r.2.
Proof.
  apply (background_start_then_running "web" "/srv/web" "python3 app.py"
           "/srv/web/activity.log" host_quiet).
  - vm_compute. set_solver.
  - reflexivity.
Defined.

(** X13.  Start, then stop: the stop names the pid the start reported, sends
    the termination signal to the group the start created and deletes the run
    record.  It does not wait: the process is still in the table afterwards;
    [background_running] says no all the same, the record being gone. *)
Theorem background_start_then_stop name cwd cmd logfile w :
  cwd ∉ plain_files w ->
  (background_running name w).1 = Ok false ->
  0 < next_pid w <= INT_MAX ->
  let w1 := (background_start name cwd cmd logfile w).2 in
  let r := background_stop name w1 in
  r.1 = Ok ("Stopped " +:+ name +:+ " (pid " +:+ str_of_int (next_pid w) +:+ ")") /\
  next_pid w ∈ termed r.2 /\
  procs r.2 = procs w1 /\
  is_Some (procs r.2 !! next_pid w) /\
  pid_files r.2 !! name = None /\
  background_running name r.2 = (Ok false, r.2).
Proof.
  intros Hcwd Hrun Hpid w1 r.
  destruct (background_start_fresh name cwd cmd logfile w (or_intror Hcwd) Hrun)
    as (full & w' & Hst & Hpf & Hpr & _).
  subst r w1. rewrite Hst. cbn [snd].
  set (pid := next_pid w) in *. set (p := Proc pid true full cwd) in *.
  assert (pid_files w' !! name = Some (str_of_int pid)) as Hrec
    by (rewrite Hpf; apply lookup_insert_eq).
  assert (procs w' !! pid = Some p) as Hp by (rewrite Hpr; apply lookup_insert_eq).
  assert (reachable pid (procs w') !! pid = Some p) as Hreach.
  { unfold reachable, group_members.
    apply map_lookup_filter_Some. split; [| done].
    apply map_lookup_filter_Some. split; [done |]. cbn. unfold in_group. cbn.
    apply Z.eqb_refl. }
  assert (os_getpgid pid w' = (Ok pid, w')) as Hg.
  { destruct (os_getpgid_cases pid w')
      as [(Hr & _) | [(Hr & _) | [(Hr & _) | [(_ & Hn & _) | (_ & q & Hq & E)]]]];
      unfold INT_MIN, INT_MAX in *; try lia; [congruence |].
    rewrite Hp in Hq. injection Hq as <-. exact E. }
  assert (os_killpg_term pid w' =
            (Ok tt, set_termed (fun t => t ∪ signalled pid w') w')) as Hk.
  { unfold os_killpg_term. cbv zeta.
    assert (group_members pid (procs w') <> ∅) as Hne
      by (apply (group_members_self w' pid p Hp)).
    assert (reachable pid (procs w') <> ∅) as Hre
      by (intros E; rewrite E in Hreach; by rewrite lookup_empty in Hreach).
    rewrite (bool_decide_eq_false_2 _ Hne), (bool_decide_eq_false_2 _ Hre).
    by rewrite !andb_false_r. }
  assert (background_stop name w' =
            (Ok ("Stopped " +:+ name +:+ " (pid " +:+ str_of_int pid +:+ ")"),
             set_pid_files (delete name)
               (set_termed (fun t => t ∪ signalled pid w') w'))) as Hstop.
  { rewrite (background_stop_parsed w' name _ pid Hrec (parse_int_str_of_int pid)).
    erewrite try_ok
      by (rewrite (bind_ok _ _ w' _ w' Hg), (bind_ok _ _ w' _ _ Hk); reflexivity).
    done. }
  rewrite Hstop. cbn [fst snd]. split; [done |].
  assert (pid_files (set_pid_files (delete name)
            (set_termed (fun t => t ∪ signalled pid w') w')) !! name = None) as Hgone
    by (cbn; apply lookup_delete_eq).
  split; [| split; [done | split; [| split; [exact Hgone |]]]].
  - cbn. apply elem_of_union_r. unfold signalled. apply elem_of_union_l.
    apply elem_of_dom. by eexists.
  - cbn. by eexists.
  - unfold background_running. munfold. by rewrite Hgone.
Qed.

Lemma background_start_then_stop_witness :
  let w1 := (background_start "web" "/srv/web" "python3 app.py"
               "/srv/web/activity.log" host_quiet).2 in
  let r := background_stop "web" w1 in
  r.1 = Ok ("Stopped " +:+ "web" +:+ " (pid " +:+ str_of_int (next_pid host_quiet) +:+ ")") /\
  next_pid host_quiet ∈ termed r.2 /\
  procs r.2 = procs w1 /\
  is_Some (procs r.2 !! next_pid host_quiet) /\
  pid_files r.2 !! "web" = None /\
  background_running "web" r.2 = (Ok false, r.2).
Proof.
  apply (background_start_then_stop "web" "/srv/web" "python3 app.py"
           "/srv/web/activity.log" host_quiet).
  - vm_compute. set_solver.
  - reflexivity.
  - vm_compute. split; [reflexivity | discriminate].
Defined.

(** *** The session backend *)

Lemma tmux_start_eq name cwd cmd logfile w :
  exists full, shell_line cmd logfile w = (Ok full, w) /\
  tmux_start name cwd cmd logfile w =
    if bool_decide (cwd ∈ dirs w) || bool_decide (cwd ∈ plain_files w) then
      if tmux_installed w then
        match sessions w !! name with
        | Some _ => (Raise CalledProcessError, w)
        | None => (Ok ("Started " +:+ name +:+ " in tmux"),
                   set_sessions (insert name (cwd, full)) w)
        end
      else (Raise FileNotFoundError, w)
    else (Raise (HTTPException 400 ("CWD does not exist: " +:+ cwd)), w).
Proof.
  destruct (shell_line_ok cmd logfile w) as [full Hfull]. exists full.
  split; [done |]. unfold tmux_start, path_exists. unfold bind at 1. unfold gets.
  destruct (bool_decide _ || bool_decide _); cbn [negb]; [| done].
  unfold bind at 1. rewrite Hfull. unfold run_tmux_new_session. munfold.
  destruct (tmux_installed w); [| done]. by destruct (sessions w !! name).
Qed.

(** X14.  A working directory that is not there: the session start refuses with a
    400 and changes nothing; the detached start creates the directory and
    goes on. *)
Theorem missing_cwd_backends name cwd cmd logfile w :
  cwd ∉ dirs w -> cwd ∉ plain_files w ->
  (background_running name w).1 = Ok false ->
  tmux_start name cwd cmd logfile w
    = (Raise (HTTPException 400 ("CWD does not exist: " +:+ cwd)), w) /\
  (background_start name cwd cmd logfile w).1
    = Ok ("Started " +:+ name +:+ " (pid " +:+ str_of_int (next_pid w) +:+ ")") /\
  cwd ∈ dirs (background_start name cwd cmd logfile w).2.
Proof.
  intros Hd Hp Hrun. split.
  - destruct (tmux_start_eq name cwd cmd logfile w) as (full & _ & ->).
    by rewrite !bool_decide_eq_false_2 by done.
  - destruct (background_start_fresh name cwd cmd logfile w (or_intror Hp) Hrun)
      as (full & w' & -> & _ & _ & Hin & _). done.
Qed.

Lemma missing_cwd_backends_witness :
  tmux_start "blog" "/srv/blog" "hugo" "/srv/blog/activity.log" host_quiet
    = (Raise (HTTPException 400 ("CWD does not exist: " +:+ "/srv/blog")), host_quiet) /\
  (background_start "blog" "/srv/blog" "hugo" "/srv/blog/activity.log" host_quiet).1
    = Ok ("Started " +:+ "blog" +:+ " (pid " +:+ str_of_int (next_pid host_quiet) +:+ ")") /\
  "/srv/blog" ∈ dirs (background_start "blog" "/srv/blog" "hugo"
                        "/srv/blog/activity.log" host_quiet).2.
Proof.
  apply (missing_cwd_backends "blog" "/srv/blog" "hugo" "/srv/blog/activity.log"
           host_quiet).
  - vm_compute. set_solver.
  - vm_compute. set_solver.
  - reflexivity.
Defined.

Lemma os_killpg_term_cases pgid w :
  os_killpg_term pgid w = (Ok tt, set_termed (fun t => t ∪ signalled pgid w) w)
  \/ os_killpg_term pgid w = (Raise ProcessLookupError, w)
  \/ os_killpg_term pgid w = (Raise PermissionError, w).
Proof.
  unfold os_killpg_term. cbv zeta.
  destruct (negb _ && bool_decide (group_members _ _ = ∅)); [by auto |].
  destruct (negb _ && bool_decide (reachable _ _ = ∅)); by auto.
Qed.

(** The worlds a detached stop can leave. *)
Lemma background_stop_world name w :
  (background_stop name w).2 = w
  \/ (background_stop name w).2 = set_pid_files (delete name) w
  \/ exists pgid,
       (background_stop name w).2 =
         set_pid_files (delete name) (set_termed (fun t => t ∪ signalled pgid w) w).
Proof.
  destruct (pid_files w !! name) as [text|] eqn:Hf.
  - destruct (parse_int text) as [pid|] eqn:Hp.
    + rewrite (background_stop_parsed w name text pid Hf Hp).
      destruct (os_getpgid_cases pid w)
        as [(_ & d & E) | [(_ & E) | [(_ & E) | [(_ & _ & E) | (_ & p & _ & E)]]]].
      * rewrite (try_raise _ _ w (OverflowError d) w) by (by apply bind_raise). by left.
      * destruct (os_killpg_term_cases (own_pgid w) w) as [Hk | [Hk | Hk]].
        -- erewrite try_ok
             by (rewrite (bind_ok _ _ w _ w E), (bind_ok _ _ w _ _ Hk); reflexivity).
           right; right. by eexists.
        -- rewrite (try_raise _ _ w ProcessLookupError w)
             by (rewrite (bind_ok _ _ w _ w E); by apply bind_raise).
           right; left. done.
        -- rewrite (try_raise _ _ w PermissionError w)
             by (rewrite (bind_ok _ _ w _ w E); by apply bind_raise).
           by left.
      * rewrite (try_raise _ _ w ProcessLookupError w) by (by apply bind_raise).
        right; left. done.
      * rewrite (try_raise _ _ w ProcessLookupError w) by (by apply bind_raise).
        right; left. done.
      * destruct (os_killpg_term_cases (p_pgid p) w) as [Hk | [Hk | Hk]].
        -- erewrite try_ok
             by (rewrite (bind_ok _ _ w _ w E), (bind_ok _ _ w _ _ Hk); reflexivity).
           right; right. by eexists.
        -- rewrite (try_raise _ _ w ProcessLookupError w)
             by (rewrite (bind_ok _ _ w _ w E); by apply bind_raise).
           right; left. done.
        -- rewrite (try_raise _ _ w PermissionError w)
             by (rewrite (bind_ok _ _ w _ w E); by apply bind_raise).
           by left.
    + unfold background_stop, read_pid, unlink_pid_file. munfold.
      rewrite Hf. cbn. rewrite Hp. right; left. done.
  - unfold background_stop. munfold. rewrite Hf. by left.
Qed.

(** What a stop leaves alone, and what it makes sure of. *)
Lemma background_stop_frame name w :
  let w' := (background_stop name w).2 in
  tmux_installed w' = tmux_installed w /\ sessions w' = sessions w /\
  dirs w' = dirs w /\ plain_files w' = plain_files w /\
  stdbuf_path w' = stdbuf_path w.
Proof.
  cbv zeta.
  destruct (background_stop_world name w) as [-> | [-> | [pgid ->]]]; done.
Qed.

Lemma stop_either_frame name w :
  exists msg w', stop_either name w = (Ok msg, w') /\
    tmux_installed w' = tmux_installed w /\
    dirs w' = dirs w /\ plain_files w' = plain_files w /\
    stdbuf_path w' = stdbuf_path w /\
    (tmux_installed w = true -> sessions w' !! name = None).
Proof.
  unfold stop_either. unfold bind at 1. rewrite tmux_available_eq.
  unfold bind at 1.
  assert (forall w0, w0 = w -> exists msg w',
            background_stop name w0 = (Ok msg, w') /\
            tmux_installed w' = tmux_installed w /\
            dirs w' = dirs w /\ plain_files w' = plain_files w /\
            stdbuf_path w' = stdbuf_path w /\ sessions w' = sessions w) as Hbg.
  { intros w0 ->. destruct (background_stop_ok name w) as (msg & w' & Hs).
    pose proof (background_stop_frame name w) as Hf. rewrite Hs in Hf.
    cbn in Hf. destruct Hf as (? & ? & ? & ? & ?). exists msg, w'. done. }
  destruct (tmux_installed w) eqn:Htm.
  - rewrite tmux_has_session_eq, Htm. cbn [andb].
    destruct (bool_decide _) eqn:Hs.
    + apply bool_decide_eq_true_1 in Hs as [x Hx].
      unfold tmux_stop. unfold bind at 1. rewrite tmux_has_session_eq, Htm.
      rewrite bool_decide_eq_true_2 by eauto. cbn [andb].
      unfold run_tmux_kill_session. munfold. rewrite Htm, Hx.
      do 2 eexists. split; [done |]. cbn. repeat split; try done.
      intros _. apply lookup_delete_eq.
    + apply bool_decide_eq_false_1 in Hs. cbv beta iota.
      destruct (Hbg w eq_refl) as (msg & w' & -> & ? & ? & ? & ? & Hse).
      exists msg, w'. repeat split; try done. intros _. rewrite Hse.
      destruct (sessions w !! name) eqn:E; [| done]. exfalso. apply Hs. eauto.
  - unfold ret. cbv beta iota.
    destruct (Hbg w eq_refl) as (msg & w' & -> & ? & ? & ? & ? & Hse).
    exists msg, w'. repeat split; done.
Qed.

(** X15.  A restart is a stop, a pause and a start.  With the multiplexer
    installed, the stop leaves no session of that name, whether the site ran
    in a session, detached or not at all.  When the handler goes on after the
    pause, the multiplexer and the working directory being there: if no
    session of that name is open, the restart answers "Started" and leaves
    the site in a session of its own; if another task has opened one in the
    meantime, the start fails with [CalledProcessError], and the restart
    with it. *)
Theorem restart_ends_in_session meanwhile name s cwd cmd w :
  (get_site name w).1 = Ok (Some s) ->
  s_cwd s = Some cwd -> s_cmd s = Some cmd ->
  let w1 := meanwhile (stop_either name w).2 in
  tmux_installed w1 = true ->
  cwd ∈ dirs w1 ->
  (tmux_installed w = true -> sessions (stop_either name w).2 !! name = None) /\
  (sessions w1 !! name = None ->
     exists full,
       action_during meanwhile name "restart" w =
         (Ok ("Started " +:+ name +:+ " in tmux"),
          set_sessions (insert name (cwd, full)) w1)) /\
  (is_Some (sessions w1 !! name) ->
     action_during meanwhile name "restart" w = (Raise CalledProcessError, w1)).
Proof.
  intros Hsite Hc Hm w1 Htm Hd. rewrite get_site_eq in Hsite. cbn [fst] in Hsite.
  injection Hsite as Hsite.
  destruct (stop_either_frame name w) as (msg & w0 & Hstop & _ & _ & _ & _ & Hs0).
  assert (w1 = meanwhile w0) as Hw1 by (subst w1; by rewrite Hstop).
  clearbody w1. rewrite Hstop. cbn [snd]. split; [exact Hs0 |].
  assert (exists full,
            action_during meanwhile name "restart" w =
              match sessions w1 !! name with
              | Some _ => (Raise CalledProcessError, w1)
              | None => (Ok ("Started " +:+ name +:+ " in tmux"),
                         set_sessions (insert name (cwd, full)) w1)
              end) as [full Heq].
  { destruct (tmux_start_eq name cwd cmd (site_logfile s) w1) as (full & _ & Hts).
    exists full. unfold action_during. unfold bind at 1. rewrite get_site_eq, Hsite.
    rewrite bool_decide_eq_false_2 by done. rewrite bool_decide_eq_false_2 by done.
    rewrite bool_decide_eq_true_2 by done.
    unfold bind at 1. rewrite Hstop.
    unfold bind at 1. unfold modify at 1. rewrite <- Hw1.
    unfold bind at 1. rewrite tmux_available_eq, Htm.
    rewrite Hc, Hm. cbn [getitem]. unfold bind at 1. unfold ret at 1.
    unfold bind at 1. unfold ret at 1.
    rewrite Hts, (bool_decide_eq_true_2 (cwd ∈ dirs w1)) by done.
    cbn [orb]. by rewrite Htm. }
  split.
  - intros Hnone. exists full. by rewrite Heq, Hnone.
  - intros [x Hx]. by rewrite Heq, Hx.
Qed.

(** On a host where [web] runs detached: a restart during whose pause nothing
    else runs, and one during whose pause the watchdog makes a pass. *)
Lemma restart_ends_in_session_witness :
  (exists full,
     action_during (fun w => w) "web" "restart" host_split =
       (Ok ("Started " +:+ "web" +:+ " in tmux"),
        set_sessions (insert "web" ("/srv/web", full))
          (stop_either "web" host_split).2)) /\
  action_during (fun w => (watchdog_pass w).2) "web" "restart" host_split =
    (Raise CalledProcessError, (watchdog_pass (stop_either "web" host_split).2).2).
Proof.
  split.
  - apply (restart_ends_in_session (fun w => w) "web" web "/srv/web" "python3 app.py"
             host_split); first [reflexivity | vm_compute; set_solver].
  - apply (restart_ends_in_session (fun w => (watchdog_pass w).2) "web" web "/srv/web"
             "python3 app.py" host_split);
      first [reflexivity | vm_compute; set_solver | vm_compute; by eexists].
Defined.

(** *** The watchdog, site by site *)

Lemma running_somewhere_unfold name w :
  running_somewhere name w =
    (tmux_installed w && bool_decide (is_Some (sessions w !! name)))
    || match (background_running name w).1 with Ok b => b | Raise _ => false end.
Proof.
  unfold running_somewhere. rewrite is_running_unfold.
  by destruct (tmux_installed w && bool_decide _).
Qed.

(** The visit of a site that wants no supervision, or that runs already. *)
Lemma watchdog_visit_idle s name w :
  s_name s = Some name ->
  s_autostart s || s_autorestart s = false \/ running_somewhere name w = true ->
  watchdog_visit s w = (Ok tt, w).
Proof.
  intros Hn Hidle. unfold watchdog_visit. rewrite Hn. cbn [getitem].
  unfold bind at 1. unfold ret at 1.
  unfold bind at 1. rewrite is_running_eq.
  destruct Hidle as [-> | ->]; [done |]. by rewrite andb_false_r.
Qed.

(** X16.  On a host where every site that wants supervision is running, a pass of
    the watchdog changes nothing. *)
Theorem watchdog_pass_idle w :
  Forall (fun s => exists name, s_name s = Some name /\
            (s_autostart s || s_autorestart s = false \/
             running_somewhere name w = true))
    (sites_of (CONFIG w)) ->
  watchdog_pass w = (Ok tt, w).
Proof.
  intros Hall. apply watchdog_pass_complete.
  induction Hall as [|s l (name & Hn & Hidle) _ IH]; [done |].
  cbn [for_each]. unfold bind at 1.
  by rewrite (watchdog_visit_idle s name w Hn Hidle).
Qed.

Lemma watchdog_pass_idle_witness :
  watchdog_pass (set_CONFIG (Config (Some [web]) None) host_detached)
    = (Ok tt, set_CONFIG (Config (Some [web]) None) host_detached).
Proof.
  apply watchdog_pass_idle.
  apply Forall_cons_2; [| apply Forall_nil_2].
  exists "web". split; [reflexivity | right; reflexivity].
Defined.

Lemma background_start_blocked name cwd cmd logfile w :
  cwd ∉ dirs w -> cwd ∈ plain_files w ->
  background_start name cwd cmd logfile w = (Raise FileExistsError, w).
Proof.
  intros Hd Hp. unfold background_start, mkdir_p. unfold bind at 1.
  rewrite bool_decide_eq_false_2 by done. by rewrite bool_decide_eq_true_2 by done.
Qed.

(** A detached start that returns leaves the site running. *)
Lemma background_start_ok_running name cwd cmd logfile w msg w' :
  running_somewhere name w = false ->
  background_start name cwd cmd logfile w = (Ok msg, w') ->
  running_somewhere name w' = true.
Proof.
  intros Hrun Hst. rewrite running_somewhere_unfold in Hrun.
  apply orb_false_iff in Hrun as [_ Hbg].
  destruct (background_running_ok name w) as [b Hb]. rewrite Hb in Hbg.
  cbn in Hbg. subst b.
  destruct (decide (cwd ∈ dirs w)) as [Hin | Hout].
  - destruct (background_start_fresh name cwd cmd logfile w (or_introl Hin))
      as (full & w1 & Hst1 & Hpf & Hpr & _); [by rewrite Hb |].
    rewrite Hst1 in Hst. injection Hst as _ <-.
    rewrite running_somewhere_unfold. apply orb_true_iff. right.
    unfold background_running, read_pid, os_kill0. munfold.
    rewrite Hpf, lookup_insert_eq. cbn. rewrite parse_int_str_of_int. cbn.
    by rewrite Hpr, lookup_insert_eq.
  - destruct (decide (cwd ∈ plain_files w)) as [Hp | Hp].
    + by rewrite background_start_blocked in Hst.
    + destruct (background_start_fresh name cwd cmd logfile w (or_intror Hp))
        as (full & w1 & Hst1 & Hpf & Hpr & _); [by rewrite Hb |].
      rewrite Hst1 in Hst. injection Hst as _ <-.
      rewrite running_somewhere_unfold. apply orb_true_iff. right.
      unfold background_running, read_pid, os_kill0. munfold.
      rewrite Hpf, lookup_insert_eq. cbn. rewrite parse_int_str_of_int. cbn.
      by rewrite Hpr, lookup_insert_eq.
Qed.

(** X17.  Whenever the visit of a site that wants supervision returns, the site is
    running: it ran already, or a session was opened for it, or, the session
    start having failed or the multiplexer missing, it was started detached. *)
Theorem watchdog_visit_revives s name cwd cmd w w' :
  s_name s = Some name -> s_cwd s = Some cwd -> s_cmd s = Some cmd ->
  s_autostart s || s_autorestart s = true ->
  watchdog_visit s w = (Ok tt, w') ->
  running_somewhere name w' = true.
Proof.
  intros Hn Hc Hm Hwant Hv.
  destruct (running_somewhere name w) eqn:Hrun.
  { rewrite (watchdog_visit_idle s name w Hn (or_intror Hrun)) in Hv.
    by injection Hv as <-. }
  unfold watchdog_visit in Hv. rewrite Hn, Hc, Hm, Hwant in Hv. cbn [getitem] in Hv.
  unfold bind at 1 in Hv. unfold ret at 1 in Hv.
  unfold bind at 1 in Hv. rewrite is_running_eq, Hrun in Hv. cbn [andb negb] in Hv.
  unfold bind at 1 in Hv. rewrite tmux_available_eq in Hv.
  assert (forall w0, w0 = w ->
            (let* cwd0 := ret cwd in
             let* cmd0 := ret cmd in
             let* _ := background_start name cwd0 cmd0 (site_logfile s) in ret tt) w0
              = (Ok tt, w') -> running_somewhere name w' = true) as Hbg.
  { intros w0 -> H. unfold bind at 1 in H. unfold ret at 1 in H.
    unfold bind at 1 in H. unfold ret at 1 in H. unfold bind at 1 in H.
    destruct (background_start name cwd cmd (site_logfile s) w) as [[msg|e] w2] eqn:Hst;
      [| done].
    unfold ret in H. injection H as <-.
    by eapply background_start_ok_running. }
  destruct (tmux_installed w) eqn:Htm; [| by apply (Hbg w)].
  unfold try_except in Hv.
  unfold bind at 1 in Hv. unfold ret at 1 in Hv.
  unfold bind at 1 in Hv. unfold ret at 1 in Hv.
  unfold bind at 1 in Hv.
  pose proof (tmux_start_raise_state name cwd cmd (site_logfile s) w) as Hsame.
  destruct (tmux_start_eq name cwd cmd (site_logfile s) w) as (full & _ & Hts).
  destruct (tmux_start name cwd cmd (site_logfile s) w) as [[msg|e] w2] eqn:Hst.
  - unfold ret in Hv. injection Hv as <-.
    destruct (bool_decide _ || bool_decide _); [| done].
    rewrite Htm in Hts. destruct (sessions w !! name); [done |].
    injection Hts as _ ->. rewrite running_somewhere_unfold. cbn.
    rewrite Htm, lookup_insert_eq. by rewrite bool_decide_eq_true_2 by eauto.
  - cbn in Hsame. rewrite (Hsame e eq_refl) in Hv. by apply (Hbg w).
Qed.

Lemma watchdog_visit_revives_witness :
  running_somewhere "web" (watchdog_visit web host_quiet).2 = true.
Proof.
  apply (watchdog_visit_revives web "web" "/srv/web" "python3 app.py" host_quiet);
    reflexivity.
Defined.

(** *** The configuration store, as equations *)

Lemma same_host_refl w : same_host w w.
Proof. by repeat split. Qed.

Lemma same_host_trans w1 w2 w3 : same_host w1 w2 -> same_host w2 w3 -> same_host w1 w3.
Proof.
  unfold same_host. intros H1 H2.
  repeat match goal with H : _ /\ _ |- _ => destruct H end.
  repeat split; congruence.
Qed.

Lemma override_idem e s : override e (override e s) = override e s.
Proof. unfold override. by destruct (truthy e). Qed.

Lemma effective_auth_idem w w' stored :
  env_user w' = env_user w -> env_pass w' = env_pass w -> env_token w' = env_token w ->
  effective_auth w' (Some (effective_auth w stored)) = effective_auth w stored.
Proof.
  intros Hu Hp Ht. unfold effective_auth. cbn. rewrite Hu, Hp, Ht.
  by rewrite !override_idem.
Qed.

Lemma apply_env_eq cfg w :
  _apply_env_overrides cfg w =
    (Ok (Config (cfg_sites cfg) (Some (effective_auth w (cfg_auth cfg)))), w).
Proof. done. Qed.

Lemma load_config_eq w :
  load_config w =
    match config_file w with
    | Some Garbled => (Raise JSONDecodeError, w)
    | Some (Json c) =>
        (Ok (Config (cfg_sites c) (Some (effective_auth w (cfg_auth c)))), w)
    | None =>
        (Ok (Config (Some []) (Some (effective_auth w (cfg_auth DEFAULT_CONFIG)))),
         set_config_files (Some (Json DEFAULT_CONFIG)) (config_bak w) (config_tmp w) w)
    end.
Proof.
  unfold load_config. munfold.
  destruct (config_file w) as [[c|]|] eqn:E; cbn; rewrite ?E; done.
Qed.

Lemma atomic_write_config_eq cfg w :
  atomic_write_config cfg w =
    (Ok tt,
     set_config_files (Some (Json cfg))
       (match config_file w with Some live => Some live | None => config_bak w end)
       None w).
Proof.
  unfold atomic_write_config, write_sequence. cbn. munfold.
  destruct (config_file w); done.
Qed.

(** X18.  What is written is what is loaded, but for the credentials the
    environment overrides; the file that was live is the backup, and no
    temporary file is left. *)
Theorem write_then_load cfg w :
  let w' := (atomic_write_config cfg w).2 in
  (atomic_write_config cfg w).1 = Ok tt /\
  load_config w' =
    (Ok (Config (cfg_sites cfg) (Some (effective_auth w (cfg_auth cfg)))), w') /\
  config_bak w' =
    match config_file w with Some live => Some live | None => config_bak w end /\
  config_tmp w' = None /\
  same_host w w'.
Proof.
  rewrite atomic_write_config_eq. cbn [fst snd].
  split; [done |]. split; [| by repeat split].
  by rewrite load_config_eq.
Qed.

(** X19.  A reload takes the site list of the file as it is now.  A file that does
    not parse makes it raise, and the configuration in memory stays what it
    was; a missing file is created with the default content, and the sites in
    memory are dropped. *)
Theorem api_reload_outcomes w :
  match config_file w with
  | Some (Json c) =>
      api_reload w =
        (Ok "Config reloaded",
         set_CONFIG (Config (cfg_sites c) (Some (effective_auth w (cfg_auth c)))) w)
  | Some Garbled => api_reload w = (Raise JSONDecodeError, w)
  | None =>
      (api_reload w).1 = Ok "Config reloaded" /\
      sites_of (CONFIG (api_reload w).2) = [] /\
      config_file (api_reload w).2 = Some (Json DEFAULT_CONFIG)
  end.
Proof.
  pose proof (load_config_eq w) as Hl.
  unfold api_reload, assign_config. munfold.
  destruct (config_file w) as [[c|]|]; rewrite Hl; done.
Qed.

(** *** Adding a site *)

Lemma read_port_ok port w :
  (truthy port = true -> is_Some (parse_int (default "" port))) ->
  (if truthy port
   then let* p := read_pid (default "" port) in ret (Some p)
   else ret None) w
  = (Ok (if truthy port then parse_int (default "" port) else None), w).
Proof.
  intros Hp. destruct (truthy port); [| done].
  destruct (Hp eq_refl) as [p Hparse]. unfold read_pid. munfold. by rewrite Hparse.
Qed.

(** A request that passes the checks: the store it leaves before the
    optional start. *)
Lemma add_site_accepted name cwd cmd port log autostart autorestart saa w :
  name_ok name = true ->
  (get_site name w).1 = Ok None ->
  cwd <> "" -> cwd ∈ dirs w \/ cwd ∈ plain_files w -> cmd <> "" ->
  (truthy port = true -> is_Some (parse_int (default "" port))) ->
  config_file w <> Some Garbled ->
  let new := new_site name cwd cmd port log autostart autorestart in
  let cfg' := Config (Some (sites_of (file_config w) ++ [new]))
                (Some (effective_auth w (cfg_auth (file_config w)))) in
  exists w3,
    add_site name cwd cmd port log autostart autorestart saa w
      = (let* _ := (if is_true saa then start_added name cwd cmd else ret tt) in
         ret ("Added site " +:+ name +:+ (if is_true saa then " and started" else ""))) w3 /\
    same_host w w3 /\ config_file w3 = Some (Json cfg') /\ CONFIG w3 = cfg'.
Proof.
  intros Hname Hclash Hcwd Hthere Hcmd Hport Hfile new cfg'.
  rewrite get_site_eq in Hclash. cbn [fst] in Hclash. injection Hclash as Hclash.
  unfold add_site. rewrite Hname. cbn [negb].
  unfold bind at 1. rewrite get_site_eq, Hclash.
  rewrite bool_decide_eq_false_2 by (by intros [? ?]).
  unfold bind at 1. unfold path_exists at 1, gets at 1.
  rewrite (bool_decide_eq_false_2 (cwd = "")) by done.
  assert (bool_decide (cwd ∈ dirs w) || bool_decide (cwd ∈ plain_files w) = true) as ->.
  { destruct Hthere; [rewrite bool_decide_eq_true_2 by done; done |].
    rewrite (bool_decide_eq_true_2 (cwd ∈ plain_files w)) by done. apply orb_true_r. }
  cbn [negb orb]. rewrite (bool_decide_eq_false_2 (cmd = "")) by done.
  unfold bind at 1. rewrite (read_port_ok port w Hport).
  unfold bind at 1. rewrite load_config_eq.
  unfold file_config in cfg'. subst new cfg'. unfold new_site.
  destruct (config_file w) as [[c|]|] eqn:Hc; [| done |].
  - unfold bind at 1. rewrite atomic_write_config_eq.
    unfold bind at 1. unfold assign_config. unfold bind at 1. rewrite load_config_eq.
    cbn. unfold modify.
    eexists. split; [reflexivity |].
    split; [by repeat split |]. split; [done |]. cbn. unfold sites_of at 1. cbn.
    f_equal. f_equal. by apply effective_auth_idem.
  - unfold bind at 1. rewrite atomic_write_config_eq.
    unfold bind at 1. unfold assign_config. unfold bind at 1. rewrite load_config_eq.
    cbn. unfold modify. eexists. split; [reflexivity |].
    split; [by repeat split |]. split; [done |]. cbn.
    f_equal. f_equal. by apply effective_auth_idem.
Qed.

Lemma sites_of_Config l a : sites_of (Config (Some l) a) = l.
Proof. done. Qed.

Lemma keeps_start_added n c m : keeps_store (start_added n c m).
Proof. unfold start_added. keeps. Qed.

Lemma head_filter_app_new name (l : list site) new :
  s_name new = Some name ->
  exists s, head (filter (fun s => has_name name s = true) (l ++ [new])) = Some s /\
            (Forall (fun t => s_name t <> Some name) l -> s = new).
Proof.
  intros Hn. rewrite filter_app.
  assert (filter (fun s => has_name name s = true) [new] = [new]) as ->.
  { rewrite filter_cons_True; [done |]. unfold has_name. by apply bool_decide_eq_true_2. }
  destruct (filter (fun s => has_name name s = true) l) as [|s0 rest] eqn:E.
  - exists new. done.
  - exists s0. split; [done |]. intros Hall.
    rewrite (filter_has_name_absent name l Hall) in E. done.
Qed.

(** X20.  An accepted request appends exactly one record, the one made of the
    form's fields, to the site list of the file, and memory follows the file;
    this holds whatever becomes of the optional start.  The credentials
    written to the file are the ones in force, those of the environment
    included. *)
Theorem add_site_appends name cwd cmd port log autostart autorestart saa w :
  name_ok name = true ->
  (get_site name w).1 = Ok None ->
  cwd <> "" -> cwd ∈ dirs w \/ cwd ∈ plain_files w -> cmd <> "" ->
  (truthy port = true -> is_Some (parse_int (default "" port))) ->
  config_file w <> Some Garbled ->
  let r := add_site name cwd cmd port log autostart autorestart saa w in
  let cfg' := Config (Some (sites_of (file_config w) ++
                              [new_site name cwd cmd port log autostart autorestart]))
                (Some (effective_auth w (cfg_auth (file_config w)))) in
  config_file r.2 = Some (Json cfg') /\ CONFIG r.2 = cfg'.
Proof.
  intros Hname Hclash Hcwd Hthere Hcmd Hport Hfile r cfg'. subst r.
  destruct (add_site_accepted name cwd cmd port log autostart autorestart saa w
              Hname Hclash Hcwd Hthere Hcmd Hport Hfile) as (w3 & -> & _ & Hf & Hc).
  fold cfg' in Hf, Hc.
  match goal with
  | |- context [bind ?m ?k w3] => assert (keeps_store (bind m k)) as Hk
  end.
  { apply keeps_bind; [destruct (is_true saa); [apply keeps_start_added | apply keeps_ret] |].
    intros ?. apply keeps_ret. }
  destruct (Hk w3) as [-> ->]. done.
Qed.

Lemma add_site_appends_witness :
  let r := add_site "blog" "/srv/api" "hugo serve" (Some "8080") "" "true" "false" "true"
             host_quiet in
  let cfg' := Config (Some (sites_of (file_config host_quiet) ++
                              [new_site "blog" "/srv/api" "hugo serve" (Some "8080") ""
                                 "true" "false"]))
                (Some (effective_auth host_quiet (cfg_auth (file_config host_quiet)))) in
  config_file r.2 = Some (Json cfg') /\ CONFIG r.2 = cfg'.
Proof.
  apply (add_site_appends "blog" "/srv/api" "hugo serve" (Some "8080") "" "true" "false"
           "true" host_quiet);
    first [done | intros _; by eexists | left; vm_compute; set_solver].
Defined.

(** X21.  After an accepted request for a name the file does not hold, the lookup
    of that name finds the record just added. *)
Theorem add_then_get_site name cwd cmd port log autostart autorestart saa w :
  name_ok name = true ->
  (get_site name w).1 = Ok None ->
  cwd <> "" -> cwd ∈ dirs w \/ cwd ∈ plain_files w -> cmd <> "" ->
  (truthy port = true -> is_Some (parse_int (default "" port))) ->
  config_file w <> Some Garbled ->
  Forall (fun t => s_name t <> Some name) (sites_of (file_config w)) ->
  let r := add_site name cwd cmd port log autostart autorestart saa w in
  (get_site name r.2).1 = Ok (Some (new_site name cwd cmd port log autostart autorestart)).
Proof.
  intros Hname Hclash Hcwd Hthere Hcmd Hport Hfile Hfresh r. subst r.
  destruct (add_site_accepted name cwd cmd port log autostart autorestart saa w
              Hname Hclash Hcwd Hthere Hcmd Hport Hfile) as (w3 & -> & _ & _ & Hc).
  match goal with
  | |- context [bind ?m ?k w3] => assert (keeps_store (bind m k)) as Hk
  end.
  { apply keeps_bind; [destruct (is_true saa); [apply keeps_start_added | apply keeps_ret] |].
    intros ?. apply keeps_ret. }
  destruct (Hk w3) as [_ HC]. rewrite get_site_eq. cbn [fst]. rewrite HC, Hc, sites_of_Config.
  destruct (head_filter_app_new name (sites_of (file_config w))
              (new_site name cwd cmd port log autostart autorestart) eq_refl)
    as (s & -> & Hs).
  by rewrite (Hs Hfresh).
Qed.

Lemma add_then_get_site_witness :
  let r := add_site "blog" "/srv/api" "hugo serve" None "" "false" "false" "false"
             host_quiet in
  (get_site "blog" r.2).1
    = Ok (Some (new_site "blog" "/srv/api" "hugo serve" None "" "false" "false")).
Proof.
  apply (add_then_get_site "blog" "/srv/api" "hugo serve" None "" "false" "false"
           "false" host_quiet);
    first [done | left; vm_compute; set_solver
          | apply Forall_cons_2; [done | apply Forall_nil_2]].
Defined.

(** X22.  With no multiplexer and the working directory's path taken by a plain
    file, a request that asks for a start fails in the start, after the
    site has been written: the answer is an error and the site is there. *)
Theorem add_site_start_failure_keeps_site name cwd cmd port log autostart autorestart saa w :
  name_ok name = true ->
  (get_site name w).1 = Ok None ->
  cwd <> "" -> cwd ∉ dirs w -> cwd ∈ plain_files w -> cmd <> "" ->
  (truthy port = true -> is_Some (parse_int (default "" port))) ->
  config_file w <> Some Garbled ->
  is_true saa = true ->
  tmux_installed w = false ->
  let r := add_site name cwd cmd port log autostart autorestart saa w in
  r.1 = Raise FileExistsError /\
  stored_sites r.2 =
    Some (sites_of (file_config w) ++
            [new_site name cwd cmd port log autostart autorestart]).
Proof.
  intros Hname Hclash Hcwd Hnd Hpl Hcmd Hport Hfile Hsaa Htm r. subst r.
  destruct (add_site_accepted name cwd cmd port log autostart autorestart saa w
              Hname Hclash Hcwd (or_intror Hpl) Hcmd Hport Hfile)
    as (w3 & -> & Hsame & Hf & Hc).
  destruct Hsame as (Htm3 & _ & _ & Hd3 & Hp3 & _).
  rewrite Hsaa.
  match goal with
  | |- context [bind ?m ?k w3] =>
      assert (bind m k w3 = (Raise FileExistsError, w3)) as ->
  end.
  { unfold bind at 1. unfold start_added. unfold bind at 1.
    rewrite get_site_eq, Hc, sites_of_Config.
    destruct (head_filter_app_new name (sites_of (file_config w))
                (new_site name cwd cmd port log autostart autorestart) eq_refl)
      as (s & -> & _).
    unfold bind at 1. rewrite tmux_available_eq, Htm3, Htm.
    unfold bind at 1.
    by rewrite background_start_blocked by (by rewrite ?Hd3, ?Hp3). }
  cbn [fst snd]. split; [done |]. unfold stored_sites. by rewrite Hf.
Qed.

Lemma add_site_start_failure_keeps_site_witness :
  let r := add_site "blog" "/srv/web" "hugo serve" None "" "false" "false" "true"
             host_blocked in
  r.1 = Raise FileExistsError /\
  stored_sites r.2 =
    Some (sites_of (file_config host_blocked) ++
            [new_site "blog" "/srv/web" "hugo serve" None "" "false" "false"]).
Proof.
  apply (add_site_start_failure_keeps_site "blog" "/srv/web" "hugo serve" None ""
           "false" "false" "true" host_blocked);
    first [done | vm_compute; set_solver].
Defined.

(** *** Requests that are turned down *)

(** The checks of [add_site], in their order. *)
Lemma add_site_checks name cwd cmd port log autostart autorestart saa w :
  let r := add_site name cwd cmd port log autostart autorestart saa w in
  r = (Raise (HTTPException 400 "Invalid name (no spaces or slashes)."), w)
  \/ r = (Raise (HTTPException 409 "A site with that name already exists."), w)
  \/ r = (Raise (HTTPException 400 ("CWD does not exist: " +:+ cwd)), w)
  \/ r = (Raise (HTTPException 400 "Command cannot be empty."), w)
  \/ r = (Raise ValueError, w)
  \/ r = (Raise JSONDecodeError, w)
  \/ (name_ok name = true /\ (get_site name w).1 = Ok None /\
      cwd <> "" /\ (cwd ∈ dirs w \/ cwd ∈ plain_files w) /\ cmd <> "" /\
      (truthy port = true -> is_Some (parse_int (default "" port))) /\
      config_file w <> Some Garbled).
Proof.
  intros r.
  assert (r = add_site name cwd cmd port log autostart autorestart saa w) as Hr by done.
  clearbody r. unfold add_site in Hr.
  destruct (name_ok name) eqn:Hname; cbn [negb] in Hr; [| by left].
  right. unfold bind at 1 in Hr. rewrite get_site_eq in Hr.
  destruct (head _) as [s0|] eqn:Hclash.
  { rewrite bool_decide_eq_true_2 in Hr by eauto. by left. }
  rewrite bool_decide_eq_false_2 in Hr by (by intros [? ?]).
  right. unfold bind at 1 in Hr. unfold path_exists at 1, gets at 1 in Hr.
  destruct (decide (cwd = "")) as [Hcwd | Hcwd].
  { rewrite (bool_decide_eq_true_2 (cwd = "")) in Hr by done. by left. }
  rewrite (bool_decide_eq_false_2 (cwd = "")) in Hr by done. cbn [orb] in Hr.
  destruct (bool_decide (cwd ∈ dirs w) || bool_decide (cwd ∈ plain_files w)) eqn:Hthere;
    cbn [negb] in Hr; [| by left].
  assert (cwd ∈ dirs w \/ cwd ∈ plain_files w) as Hthere'.
  { apply orb_true_iff in Hthere as [H|H]; apply bool_decide_eq_true_1 in H; by eauto. }
  right. destruct (decide (cmd = "")) as [Hcmd | Hcmd].
  { rewrite (bool_decide_eq_true_2 (cmd = "")) in Hr by done. by left. }
  rewrite (bool_decide_eq_false_2 (cmd = "")) in Hr by done.
  right. unfold bind at 1 in Hr.
  assert (truthy port = true /\ parse_int (default "" port) = None \/
          (truthy port = true -> is_Some (parse_int (default "" port)))) as [[Htr Hp] | Hport].
  { destruct (truthy port); [| right; done].
    destruct (parse_int (default "" port)); [right; by eauto | left; done]. }
  { rewrite Htr in Hr. unfold read_pid in Hr. rewrite Hp in Hr. by left. }
  rewrite (read_port_ok port w Hport) in Hr.
  right. destruct (config_file w) as [[c|]|] eqn:Hc.
  - right. repeat split; try done. by rewrite get_site_eq, Hclash.
  - unfold bind at 1 in Hr. rewrite load_config_eq, Hc in Hr. by left.
  - right. repeat split; try done. by rewrite get_site_eq, Hclash.
Qed.

Lemma background_start_no_http name cwd cmd logfile w st d :
  (background_start name cwd cmd logfile w).1 <> Raise (HTTPException st d).
Proof.
  unfold background_start, mkdir_p. unfold bind at 1.
  assert (forall w1, ((let* running := background_running name in
             if running
             then
               let* pf := gets (fun w => pid_files w !! name) in
               match pf with
               | Some text => ret (name +:+ " already running (pid " +:+ strip text +:+ ")")
               | None => raise FileNotFoundError
               end
             else
               let* full := shell_line cmd logfile in
               let* pid := popen full cwd in
               let* _ := modify (set_pid_files (insert name (str_of_int pid))) in
               ret ("Started " +:+ name +:+ " (pid " +:+ str_of_int pid +:+ ")")) w1).1
            <> Raise (HTTPException st d)) as Hrest.
  { intros w1. unfold bind at 1. destruct (background_running_ok name w1) as [b ->].
    destruct b.
    - munfold. by destruct (pid_files w1 !! name).
    - unfold bind at 1. destruct (shell_line_ok cmd logfile w1) as [full ->].
      unfold popen. munfold. by destruct (bool_decide (cwd ∈ dirs w1)). }
  destruct (bool_decide (cwd ∈ dirs w)); [apply Hrest |].
  destruct (bool_decide (cwd ∈ plain_files w)); [done | apply Hrest].
Qed.

Lemma start_added_no_http name cwd cmd w st d :
  cwd ∈ dirs w \/ cwd ∈ plain_files w ->
  (start_added name cwd cmd w).1 <> Raise (HTTPException st d).
Proof.
  intros Hthere. unfold start_added. unfold bind at 1. rewrite get_site_eq.
  destruct (head _) as [s|]; [| done].
  unfold bind at 1. rewrite tmux_available_eq.
  destruct (tmux_installed w) eqn:Htm.
  - unfold bind at 1. rewrite tmux_has_session_eq, Htm. cbn [andb].
    destruct (bool_decide _) eqn:Hs; [done |].
    apply bool_decide_eq_false_1 in Hs.
    unfold bind at 1.
    destruct (tmux_start_eq name cwd cmd (site_logfile s) w) as (full & _ & ->).
    assert (bool_decide (cwd ∈ dirs w) || bool_decide (cwd ∈ plain_files w) = true) as ->.
    { destruct Hthere; [rewrite bool_decide_eq_true_2 by done; done |].
      rewrite (bool_decide_eq_true_2 (cwd ∈ plain_files w)) by done. apply orb_true_r. }
    rewrite Htm. by destruct (sessions w !! name).
  - unfold bind at 1.
    pose proof (background_start_no_http name cwd cmd (site_logfile s) w st d) as Hn.
    destruct (background_start name cwd cmd (site_logfile s) w) as [[msg|e] w1]; [done |].
    cbn in *. congruence.
Qed.

(** X23.  When [add_site] answers with an HTTP error, nothing at all has been
    changed, and the status is 400 or 409. *)
Theorem add_site_http_error_changes_nothing
  name cwd cmd port log autostart autorestart saa w st d :
  (add_site name cwd cmd port log autostart autorestart saa w).1
    = Raise (HTTPException st d) ->
  (add_site name cwd cmd port log autostart autorestart saa w).2 = w /\
  (st = 400 \/ st = 409).
Proof.
  intros H.
  destruct (add_site_checks name cwd cmd port log autostart autorestart saa w)
    as [Hr | [Hr | [Hr | [Hr | [Hr | [Hr | Hacc]]]]]];
    try (rewrite Hr in H |- *; cbn in H |- *; injection H as <- _; by auto);
    try (rewrite Hr in H; discriminate H).
  destruct Hacc as (Hname & Hclash & Hcwd & Hthere & Hcmd & Hport & Hfile).
  destruct (add_site_accepted name cwd cmd port log autostart autorestart saa w
              Hname Hclash Hcwd Hthere Hcmd Hport Hfile)
    as (w3 & Heq & Hsame & _).
  rewrite Heq in H. exfalso. unfold bind at 1 in H.
  destruct (is_true saa); [| discriminate H].
  destruct Hsame as (_ & _ & _ & Hd3 & Hp3 & _).
  pose proof (start_added_no_http name cwd cmd w3 st d) as Hn.
  rewrite Hd3, Hp3 in Hn. specialize (Hn Hthere).
  destruct (start_added name cwd cmd w3) as [[u|e] w4]; [discriminate H |].
  cbn in *. congruence.
Qed.

Lemma add_site_http_error_changes_nothing_witness :
  (add_site "web" "/srv/web" "python3 app.py" None "" "false" "false" "true"
     host_quiet).2 = host_quiet /\
  (409 = 400 \/ 409 = 409).
Proof.
  apply (add_site_http_error_changes_nothing "web" "/srv/web" "python3 app.py" None ""
           "false" "false" "true" host_quiet 409
           "A site with that name already exists.").
  reflexivity.
Defined.

(** *** Looking a site up, and deleting it *)

(** X24.  [get_site] returns the first site of that name in the list; sites of the
    same name further down are never seen. *)
Theorem get_site_first_match name pre s post w :
  sites_of (CONFIG w) = pre ++ s :: post ->
  Forall (fun t => s_name t <> Some name) pre ->
  s_name s = Some name ->
  get_site name w = (Ok (Some s), w).
Proof.
  intros Hsites Hpre Hs. rewrite get_site_eq, Hsites, filter_app.
  rewrite (filter_has_name_absent name pre Hpre). cbn [app].
  rewrite filter_cons_True; [done |].
  unfold has_name. by apply bool_decide_eq_true_2.
Qed.

Lemma get_site_first_match_witness :
  get_site "api" (set_CONFIG (Config (Some [web; api; api]) None) host_quiet)
    = (Ok (Some api), set_CONFIG (Config (Some [web; api; api]) None) host_quiet).
Proof.
  apply (get_site_first_match "api" [web] api [api]); [reflexivity | | reflexivity].
  apply Forall_cons_2; [done | apply Forall_nil_2].
Defined.

Lemma filter_kept_absent name (l : list site) :
  filter (fun s => has_name name s = true)
    (filter (fun s => s_name s <> Some name) l) = [].
Proof.
  apply filter_has_name_absent.
  induction l as [|t l IH]; [constructor |].
  destruct (decide (s_name t <> Some name)) as [Hne | He].
  - rewrite filter_cons_True by done. by apply Forall_cons_2.
  - by rewrite filter_cons_False by done.
Qed.

(** The world a delete of a configured site leaves, when the file parses. *)
Lemma delete_site_eq name s w :
  (get_site name w).1 = Ok (Some s) ->
  config_file w <> Some Garbled ->
  exists w',
    delete_site name w = (Ok ("Deleted site " +:+ name), w') /\
    sites_of (CONFIG w') = filter (fun s => s_name s <> Some name) (sites_of (file_config w)) /\
    stored_sites w' = Some (filter (fun s => s_name s <> Some name) (sites_of (file_config w))) /\
    pid_files w' !! name = None.
Proof.
  intros Hsite Hfile. rewrite get_site_eq in Hsite. cbn [fst] in Hsite.
  injection Hsite as Hsite.
  destruct (stop_either_ok name w) as (msg & w1 & Hstop).
  destruct (keeps_stop_either name w) as [Hcf _]. rewrite Hstop in Hcf. cbn [snd] in Hcf.
  unfold delete_site. unfold bind at 1. rewrite get_site_eq, Hsite.
  unfold bind at 1. rewrite Hstop.
  unfold bind at 1. rewrite load_config_eq, Hcf. unfold file_config.
  destruct (config_file w) as [[c|]|] eqn:Hc; [| done |].
  - unfold bind at 1. rewrite atomic_write_config_eq.
    unfold bind at 1. unfold assign_config. unfold bind at 1. rewrite load_config_eq.
    cbn. unfold modify, unlink_pid_file, try_except, modify. cbn.
    eexists. split; [reflexivity |]. cbn. split; [done |]. split; [done |].
    apply lookup_delete_eq.
  - unfold bind at 1. rewrite atomic_write_config_eq.
    unfold bind at 1. unfold assign_config. unfold bind at 1. rewrite load_config_eq.
    cbn. unfold modify, unlink_pid_file, try_except, modify. cbn.
    eexists. split; [reflexivity |]. cbn. split; [done |]. split; [done |].
    apply lookup_delete_eq.
Qed.

(** X25.  Deleting a configured site answers "Deleted site", takes every record of
    that name out of the file and out of memory, and removes the run record,
    whether or not the stop could signal the process. *)
Theorem delete_site_forgets name s w :
  (get_site name w).1 = Ok (Some s) ->
  config_file w <> Some Garbled ->
  let r := delete_site name w in
  r.1 = Ok ("Deleted site " +:+ name) /\
  get_site name r.2 = (Ok None, r.2) /\
  stored_sites r.2 =
    Some (filter (fun s => s_name s <> Some name) (sites_of (file_config w))) /\
  pid_files r.2 !! name = None.
Proof.
  intros Hsite Hfile r. subst r.
  destruct (delete_site_eq name s w Hsite Hfile) as (w' & -> & Hsites & Hstored & Hpid).
  cbn [fst snd]. repeat split; try done.
  by rewrite get_site_eq, Hsites, filter_kept_absent.
Qed.

Lemma delete_site_forgets_witness :
  let r := delete_site "web" host_foreign in
  r.1 = Ok ("Deleted site " +:+ "web") /\
  get_site "web" r.2 = (Ok None, r.2) /\
  stored_sites r.2 =
    Some (filter (fun s => s_name s <> Some "web") (sites_of (file_config host_foreign))) /\
  pid_files r.2 !! "web" = None.
Proof.
  apply (delete_site_forgets "web" web host_foreign); done.
Defined.

(** X26.  With a configuration file that does not parse, a delete stops the site
    and then fails: the answer is the parse error, the site is still
    configured, and file and memory are as they were. *)
Theorem delete_site_unparsable_file name s w :
  (get_site name w).1 = Ok (Some s) ->
  config_file w = Some Garbled ->
  delete_site name w = (Raise JSONDecodeError, (stop_either name w).2) /\
  config_file (delete_site name w).2 = Some Garbled /\
  get_site name (delete_site name w).2 = (Ok (Some s), (delete_site name w).2).
Proof.
  intros Hsite Hfile. rewrite get_site_eq in Hsite. cbn [fst] in Hsite.
  injection Hsite as Hsite.
  destruct (stop_either_ok name w) as (msg & w1 & Hstop).
  destruct (keeps_stop_either name w) as [Hcf HC]. rewrite Hstop in Hcf, HC.
  cbn [snd] in Hcf, HC.
  assert (delete_site name w = (Raise JSONDecodeError, w1)) as ->.
  { unfold delete_site. unfold bind at 1. rewrite get_site_eq, Hsite.
    unfold bind at 1. rewrite Hstop.
    unfold bind at 1. by rewrite load_config_eq, Hcf, Hfile. }
  rewrite Hstop. cbn [snd]. split; [done |]. split; [by rewrite Hcf |].
  by rewrite get_site_eq, HC, Hsite.
Qed.

Lemma delete_site_unparsable_file_witness :
  let w := set_config_files (Some Garbled) None None host_detached in
  delete_site "web" w = (Raise JSONDecodeError, (stop_either "web" w).2) /\
  config_file (delete_site "web" w).2 = Some Garbled /\
  get_site "web" (delete_site "web" w).2 = (Ok (Some web), (delete_site "web" w).2).
Proof.
  apply (delete_site_unparsable_file "web" web
           (set_config_files (Some Garbled) None None host_detached)); reflexivity.
Defined.

(** *** The status report *)

(** X27.  The report of a site agrees with the watchdog's test: "running" exactly
    when the watchdog would find it running.  A session takes precedence over
    a detached process in the mode; nothing is changed. *)
Theorem site_status_agrees_with_watchdog s name w :
  s_name s = Some name ->
  exists row,
    site_status s w = (Ok row, w) /\
    r_name row = name /\
    r_status row = (if running_somewhere name w then "running" else "stopped") /\
    r_mode row =
      (if tmux_installed w && bool_decide (is_Some (sessions w !! name))
       then Some "tmux"
       else if running_somewhere name w then Some "background" else None) /\
    r_log row = site_logfile s.
Proof.
  intros Hn. rewrite running_somewhere_unfold.
  unfold site_status. rewrite Hn. cbn [getitem].
  unfold bind at 1. unfold ret at 1.
  unfold bind at 1. rewrite tmux_available_eq.
  unfold bind at 1.
  assert ((if tmux_installed w then tmux_has_session name else ret false) w
          = (Ok (tmux_installed w && bool_decide (is_Some (sessions w !! name))), w)) as ->.
  { destruct (tmux_installed w) eqn:Htm; [| done]. by rewrite tmux_has_session_eq, Htm. }
  unfold bind at 1. destruct (background_running_ok name w) as [b ->]. cbn [fst].
  destruct (tmux_installed w && bool_decide _); cbn [orb].
  - eexists. split; [reflexivity |]. done.
  - destruct b; (eexists; split; [reflexivity |]; done).
Qed.

Lemma site_status_agrees_with_watchdog_witness :
  exists row,
    site_status web host_split = (Ok row, host_split) /\
    r_name row = "web" /\
    r_status row = (if running_somewhere "web" host_split then "running" else "stopped") /\
    r_mode row =
      (if tmux_installed host_split && bool_decide (is_Some (sessions host_split !! "web"))
       then Some "tmux"
       else if running_somewhere "web" host_split then Some "background" else None) /\
    r_log row = site_logfile web.
Proof.
  apply (site_status_agrees_with_watchdog web "web" host_split). reflexivity.
Defined.

Lemma site_status_named s name w :
  s_name s = Some name -> exists row, site_status s w = (Ok row, w) /\ r_name row = name.
Proof.
  intros Hn. unfold site_status. rewrite Hn. cbn [getitem].
  unfold bind at 1. unfold ret at 1.
  unfold bind at 1. rewrite tmux_available_eq.
  unfold bind at 1.
  assert ((if tmux_installed w then tmux_has_session name else ret false) w
          = (Ok (tmux_installed w && bool_decide (is_Some (sessions w !! name))), w)) as ->.
  { destruct (tmux_installed w) eqn:Htm; [| done]. by rewrite tmux_has_session_eq, Htm. }
  unfold bind at 1. destruct (background_running_ok name w) as [b ->].
  destruct (tmux_installed w && bool_decide _); [| destruct b];
    (eexists; split; [reflexivity | done]).
Qed.

Lemma site_status_nameless s w :
  s_name s = None -> site_status s w = (Raise (KeyError "name"), w).
Proof. intros Hn. unfold site_status. by rewrite Hn. Qed.

Lemma map_m_site_status l w :
  (Forall (fun s => is_Some (s_name s)) l ->
     exists rows, map_m site_status l w = (Ok rows, w) /\
                  map (fun r => Some (r_name r)) rows = map s_name l) /\
  (Exists (fun s => s_name s = None) l ->
     map_m site_status l w = (Raise (KeyError "name"), w)).
Proof.
  induction l as [|s l [IHok IHbad]].
  - split; [by exists [] | by intros H%Exists_nil].
  - assert (map_m site_status (s :: l) w =
              match site_status s w with
              | (Ok y, w1) =>
                  match map_m site_status l w1 with
                  | (Ok ys, w2) => (Ok (y :: ys), w2)
                  | (Raise e, w2) => (Raise e, w2)
                  end
              | (Raise e, w1) => (Raise e, w1)
              end) as -> by reflexivity.
    destruct (s_name s) as [name|] eqn:Hn.
    + destruct (site_status_named s name w Hn) as (row & -> & Hrow). split.
      * intros [_ Hall]%Forall_cons. destruct (IHok Hall) as (rows & -> & Hrows).
        exists (row :: rows). split; [done |]. cbn. by rewrite Hrow, Hrows, Hn.
      * intros [Hbad | Hbad]%Exists_cons; [congruence |]. by rewrite (IHbad Hbad).
    + rewrite (site_status_nameless s w Hn). split; [| done].
      intros [[? ?] _]%Forall_cons. congruence.
Qed.

(** X28.  The status list has one row per configured site, in order, and reading
    it changes nothing.  A single site without a name makes the whole request
    fail with a [KeyError]. *)
Theorem api_status_outcome w :
  (Forall (fun s => is_Some (s_name s)) (sites_of (CONFIG w)) ->
     exists rows, api_status w = (Ok rows, w) /\
                  map (fun r => Some (r_name r)) rows = map s_name (sites_of (CONFIG w))) /\
  (Exists (fun s => s_name s = None) (sites_of (CONFIG w)) ->
     api_status w = (Raise (KeyError "name"), w)).
Proof.
  unfold api_status. unfold bind, gets. apply map_m_site_status.
Qed.

Lemma api_status_outcome_witness :
  (exists rows, api_status host_split = (Ok rows, host_split) /\
                map (fun r => Some (r_name r)) rows
                  = map s_name (sites_of (CONFIG host_split))) /\
  api_status (set_CONFIG (Config (Some [web; Site None None None None None false false])
                            None) host_split)
    = (Raise (KeyError "name"),
       set_CONFIG (Config (Some [web; Site None None None None None false false])
                     None) host_split).
Proof.
  split.
  - apply (proj1 (api_status_outcome host_split)).
    apply Forall_cons_2; [by eexists |]. apply Forall_cons_2; [by eexists |].
    apply Forall_nil_2.
  - apply (proj2 (api_status_outcome
                    (set_CONFIG (Config (Some [web; Site None None None None None false false])
                                   None) host_split))).
    apply Exists_cons_tl. apply Exists_cons_hd. reflexivity.
Defined.

(** *** The log endpoint *)

Lemma split_lf_aux_line l : forall cur,
  Forall (fun c => c <> Text.LF) l -> Text.split_lf_aux cur l = [cur ++ l].
Proof.
  induction l as [|c l IH]; intros cur Hl; cbn [Text.split_lf_aux].
  - by rewrite app_nil_r.
  - apply Forall_cons in Hl as [Hc Hl].
    destruct (Z.eqb_spec c Text.LF) as [? | _]; [done |].
    rewrite IH by done. by rewrite <- app_assoc.
Qed.

Lemma split_lf_aux_break l rest : forall cur,
  Forall (fun c => c <> Text.LF) l ->
  Text.split_lf_aux cur (l ++ Text.LF :: rest)
    = (cur ++ l) :: Text.split_lf_aux [] rest.
Proof.
  induction l as [|c l IH]; intros cur Hl.
  - cbn. by rewrite app_nil_r.
  - apply Forall_cons in Hl as [Hc Hl].
    rewrite <- app_comm_cons. cbn [Text.split_lf_aux].
    destruct (Z.eqb_spec c Text.LF) as [? | _]; [done |].
    rewrite IH by done. by rewrite <- app_assoc.
Qed.

(** Lines without a line feed, joined by line feeds and split again. *)
Lemma split_join_lines ls :
  ls <> [] ->
  Forall (Forall (fun c => c <> Text.LF)) ls ->
  Text.split_lf (Text.join_lines ls) = ls.
Proof.
  unfold Text.split_lf. induction ls as [|l ls IH]; [done |]. intros _ Hall.
  apply Forall_cons in Hall as [Hl Hall].
  destruct ls as [|l' ls'].
  - cbn [Text.join_lines]. by rewrite split_lf_aux_line.
  - change (Text.join_lines (l :: l' :: ls'))
      with (l ++ Text.LF :: Text.join_lines (l' :: ls')).
    rewrite split_lf_aux_break by done. cbn [app]. f_equal. by apply IH.
Qed.

Lemma tail_file_no_lf f n :
  Forall (Forall (fun c => c <> Text.LF)) (Tail.tail_file f n).
Proof.
  destruct f as [| |content]; cbn [Tail.tail_file]; [constructor | constructor |].
  unfold Text.slice_from. apply Forall_drop.
  eapply Forall_impl; [apply StreamFacts.splitlines_no_break |].
  intros line Hline. eapply Forall_impl; [apply Hline |].
  intros c Hc ->. done.
Qed.

(** X29.  For a configured site the log endpoint answers with the lines
    [tail_file] returns, joined by line feeds: splitting the body at the
    line feeds gives these lines back, no line being cut or merged.  A log
    that is missing or cannot be read gives an empty body, not an error. *)
Theorem api_logs_body logs name s n w :
  (get_site name w).1 = Ok (Some s) ->
  exists body,
    api_logs logs name n w = (Ok body, w) /\
    Text.split_lf body =
      match Tail.tail_file (logs (site_logfile s)) n with
      | [] => [[]]
      | lines => lines
      end.
Proof.
  intros Hsite. rewrite get_site_eq in Hsite. cbn [fst] in Hsite.
  injection Hsite as Hsite.
  unfold api_logs. unfold bind at 1. rewrite get_site_eq, Hsite.
  eexists. split; [reflexivity |].
  pose proof (tail_file_no_lf (logs (site_logfile s)) n) as Hno.
  destruct (Tail.tail_file (logs (site_logfile s)) n) as [|l ls] eqn:E; [done |].
  by apply split_join_lines.
Qed.

Lemma api_logs_body_witness :
  exists body,
    api_logs (fun _ => Tail.Bytes [97; 10; 98; 10; 99; 10]) "web" 2 host_quiet
      = (Ok body, host_quiet) /\
    Text.split_lf body =
      match Tail.tail_file ((fun _ => Tail.Bytes [97; 10; 98; 10; 99; 10])
                              (site_logfile web)) 2 with
      | [] => [[]]
      | lines => lines
      end.
Proof.
  apply (api_logs_body (fun _ => Tail.Bytes [97; 10; 98; 10; 99; 10]) "web" web 2
           host_quiet).
  reflexivity.
Defined.

End SysFacts.
Module AuthFacts.
Import Sys Scenario Auth.

Section WithBase64.
Variable b64decode : string -> option (list Z).

(** X30.  With some credential configured, a request is let in only when it
    presents one: the configured token as a bearer token, or the configured
    user name and password as basic credentials.  Every other request is
    answered 401; no request changes anything. *)
Theorem check_auth_needs_credentials authz w :
  protected w = true ->
  (check_auth b64decode authz w = (Ok true, w) /\
   ((exists t, token_of w = Some t /\ t <> "" /\
               startswith "Bearer " authz = true /\
               strip_str (remove_first "Bearer " authz) = t)
    \/ (exists u p, a_username (auth_of w) = Some u /\
                    a_password (auth_of w) = Some p /\
                    authz <> "" /\
                    parse_basic_auth b64decode authz = Some (Text.lit u, Text.lit p))))
  \/ check_auth b64decode authz w = (Raise unauthorized, w).
Proof.
  unfold protected, token_of, auth_of. intros Hprot.
  unfold check_auth. cbv beta iota delta [bind ret raise gets].
  set (a := default (Auth None None None) (cfg_auth (CONFIG w))) in *.
  set (token := if truthy (a_token a) then a_token a else env_token w) in *.
  destruct (truthy token && startswith "Bearer " authz) eqn:Hb.
  - apply andb_true_iff in Hb as [Htok Hpre].
    destruct (bool_decide _) eqn:Heq; [| by right].
    left. split; [done |]. left. apply bool_decide_eq_true_1 in Heq.
    destruct token as [t|]; [| done]. exists t. injection Heq as Heq.
    repeat split; try done. unfold truthy in Htok.
    intros ->. by rewrite bool_decide_eq_true_2 in Htok.
  - destruct (bool_decide (authz = "")) eqn:He.
    + right. destruct (truthy (a_username a)), (truthy (a_password a)),
        (truthy token); cbn in Hprot |- *; done.
    + apply bool_decide_eq_false_1 in He.
      destruct (parse_basic_auth b64decode authz) as [[u p]|] eqn:Hp.
      * destruct (bool_decide (Some u = _)) eqn:Hu; cbn [andb]; [| by right].
        destruct (bool_decide (Some p = _)) eqn:Hpw; [| by right].
        apply bool_decide_eq_true_1 in Hu, Hpw.
        left. split; [done |]. right.
        destruct (a_username a) as [un|]; [| done].
        destruct (a_password a) as [pw|]; [| done].
        cbn in Hu, Hpw. injection Hu as ->. injection Hpw as ->.
        exists un, pw. done.
      * right. destruct (truthy (a_username a)), (truthy (a_password a)),
          (truthy token); cbn in Hprot |- *; done.
Qed.

(** With no credential configured at all, a request without credentials is
    let in. *)
Theorem check_auth_open authz w :
  protected w = false ->
  authz = "" \/ parse_basic_auth b64decode authz = None ->
  check_auth b64decode authz w = (Ok true, w).
Proof.
  unfold protected, token_of, auth_of. intros Hprot Hno.
  unfold check_auth. cbv beta iota delta [bind ret raise gets].
  set (a := default (Auth None None None) (cfg_auth (CONFIG w))) in *.
  set (token := if truthy (a_token a) then a_token a else env_token w) in *.
  apply orb_false_iff in Hprot as [Hup Ht]. apply orb_false_iff in Hup as [Hu Hp].
  rewrite Ht, Hu, Hp. cbn [andb negb].
  destruct (bool_decide (authz = "")) eqn:He; [done |].
  apply bool_decide_eq_false_1 in He. destruct Hno as [? | ->]; done.
Qed.

End WithBase64.

(** A decoder that knows one text, for the examples. *)
Lemma check_auth_needs_credentials_witness :
  let dec := fun s : string =>
    if bool_decide (s = "YWRtaW46cGFzc3dvcmQ=")
    then Some (Text.lit "admin:password") else None in
  let w := set_CONFIG DEFAULT_CONFIG host_quiet in
  (check_auth dec "Basic YWRtaW46cGFzc3dvcmQ=" w = (Ok true, w) /\
   ((exists t, token_of w = Some t /\ t <> "" /\
               startswith "Bearer " "Basic YWRtaW46cGFzc3dvcmQ=" = true /\
               strip_str (remove_first "Bearer " "Basic YWRtaW46cGFzc3dvcmQ=") = t)
    \/ (exists u p, a_username (auth_of w) = Some u /\
                    a_password (auth_of w) = Some p /\
                    "Basic YWRtaW46cGFzc3dvcmQ=" <> "" /\
                    parse_basic_auth dec "Basic YWRtaW46cGFzc3dvcmQ="
                      = Some (Text.lit u, Text.lit p))))
  \/ check_auth dec "Basic YWRtaW46cGFzc3dvcmQ=" w = (Raise unauthorized, w).
Proof.
  intros dec w.
  apply (check_auth_needs_credentials dec "Basic YWRtaW46cGFzc3dvcmQ=" w).
  reflexivity.
Defined.

Lemma check_auth_open_witness :
  check_auth (fun _ => None) "" host_quiet = (Ok true, host_quiet).
Proof.
  apply (check_auth_open (fun _ => None) "" host_quiet); [reflexivity | by left].
Defined.

End AuthFacts.
